(** * DSA-Site backend: authentication gate, progress ledger and audit log

    A shallow embedding of the parts of the Express/Mongoose backend that
    carry invariants:

    - [controllers/auth.controller.ts]     : [parseTimeToSeconds]
    - [middleware/auth.middleware.ts]      : [authMiddleware]
    - [middleware/admin.middleware.ts]     : [adminMiddleware], [requireAdmin]
    - [middleware/error.middleware.ts]     : [errorMiddleware]
    - [utils/asyncHandler.ts]              : [asyncHandler] (as [serve])
    - [models/UserProgress.model.ts]       : [markCompleted], [resetProgress]
    - [controllers/progress.controller.ts] : [updateProgress], [markComplete],
                                             [resetProgress], [batchUpdateProgress]
    - [validators/progress.validator.ts]   : [batchUpdateProgressSchema]
    - [models/AdminLog.model.ts]           : [logAction]
    - [controllers/user.controller.ts]     : [promoteUser], [demoteUser],
                                             [deactivateUser], [activateUser]
    - further operations of the same files : [optionalAuthMiddleware],
                                             [requireRoles], the pre-save
                                             hook, [findOrCreate],
                                             [getCompletionCount],
                                             [getCompletedProblemIds]
    - [utils/ApiResponse.ts]               : [createPagination]

    Modelling decisions.

    - Collections keyed by [_id] (users, problems) are finite maps.  The
      progress collection is a list of documents: the property of interest
      is precisely that no two documents share a (userId, problemId) key,
      and it is derived from what the handlers do, not assumed from the
      unique index the schema also declares.
    - ObjectIds are taken in their canonical form (the lowercase
      hexadecimal string Mongoose prints), so that two ObjectIds are equal
      exactly when their strings are.
    - A handler is a function in a state-and-exception monad over the
      database.  The state a handler leaves behind when it throws is kept:
      nothing in the code rolls a write back.
    - Requests are served one at a time, and each [findOneAndUpdate] is one
      atomic step of the store.
    - [jsonwebtoken] and the clock are inputs of a request ([Env]), as is
      the fault the driver may raise when the audit log is written.
    - Logging calls, [populate] and the [createdAt]/[updatedAt] timestamps
      do not affect any state a handler reads, and are left out.  Where a
      statement compares documents written at different times, it does so
      on the fields it lists. *)

From Stdlib Require Import ZArith QArith Qround Lia Bool Ascii String.
From stdpp Require Import base option list strings pretty gmap.

Local Open Scope Z_scope.

(** ** Duration strings ([auth.controller.ts]) *)

Module Duration.

(** [\d] of a JavaScript regular expression without the [u] flag: the
    ASCII digits only. *)
Definition is_digit (c : ascii) : bool :=
  (48 <=? nat_of_ascii c)%nat && (nat_of_ascii c <=? 57)%nat.

(** The character class [[dhms]]. *)
Definition is_unit (c : ascii) : bool :=
  Ascii.eqb c "d" || Ascii.eqb c "h" || Ascii.eqb c "m" || Ascii.eqb c "s".

(** The longest prefix of digits, and what follows it. *)
Fixpoint span_digits (s : string) : string * string :=
  match s with
  | EmptyString => (EmptyString, EmptyString)
  | String c r =>
      if is_digit c
      then let '(d, t) := span_digits r in (String c d, t)
      else (EmptyString, s)
  end.

(** [timeStr.match(/^(\d+)([dhms])$/)]: the two capture groups, or [None]
    for JavaScript's [null].  Digits and units are disjoint classes, so
    the greedy [\d+] never has to give a character back, and [$] (no [m]
    flag) only matches at the very end of the input. *)
Definition regex_match (timeStr : string) : option (string * ascii) :=
  match span_digits timeStr with
  | (String d ds, String u EmptyString) =>
      if is_unit u then Some (String d ds, u) else None
  | _ => None
  end.

Definition digit_value (c : ascii) : Z := Z.of_nat (nat_of_ascii c) - 48.

(** [parseInt(digits, 10)] on a string of decimal digits.  The result is
    kept as an exact integer; JavaScript's number agrees with it up to
    2^53. *)
Fixpoint parseInt_from (acc : Z) (s : string) : Z :=
  match s with
  | EmptyString => acc
  | String c r => parseInt_from (10 * acc + digit_value c) r
  end.

Definition parseInt (s : string) : Z := parseInt_from 0 s.

Definition parseTimeToSeconds (timeStr : string) : Z :=
  match regex_match timeStr with
  | None => 7 * 24 * 60 * 60
  | Some (digits, unit) =>
      let value := parseInt digits in
      if Ascii.eqb unit "d" then value * 24 * 60 * 60
      else if Ascii.eqb unit "h" then value * 60 * 60
      else if Ascii.eqb unit "m" then value * 60
      else if Ascii.eqb unit "s" then value
      else 7 * 24 * 60 * 60
  end.

(** The pattern [<integer><unit>] as the documentation words it: one or
    more decimal digits followed by exactly one of d, h, m, s. *)
Fixpoint all_digits (s : string) : bool :=
  match s with
  | EmptyString => true
  | String c r => is_digit c && all_digits r
  end.

Definition duration_pattern (s : string) : Prop :=
  exists (ds : string) (u : ascii),
    s = (ds +:+ String u EmptyString)%string
    /\ ds <> EmptyString
    /\ all_digits ds = true
    /\ is_unit u = true.

Definition unit_seconds (u : ascii) : Z :=
  if Ascii.eqb u "d" then 86400
  else if Ascii.eqb u "h" then 3600
  else if Ascii.eqb u "m" then 60
  else 1.

End Duration.

(** ** Data model ([types/models.types.ts]) *)

Module UserRole.
Inductive t := USER | ADMIN.
#[global] Instance eq_dec : EqDecision t.
Proof. solve_decision. Defined.
End UserRole.

Module ProgressStatus.
Inductive t := NOT_STARTED | COMPLETED.
#[global] Instance eq_dec : EqDecision t.
Proof. solve_decision. Defined.
End ProgressStatus.

Module AdminActionType.
Inductive t :=
| CREATE_PROBLEM | UPDATE_PROBLEM | DELETE_PROBLEM
| CREATE_TOPIC | UPDATE_TOPIC | DELETE_TOPIC
| PROMOTE_USER | DEMOTE_USER | DEACTIVATE_USER | ACTIVATE_USER.
#[global] Instance eq_dec : EqDecision t.
Proof. solve_decision. Defined.
End AdminActionType.

Module EntityType.
Inductive t := PROBLEM | TOPIC | USER.
#[global] Instance eq_dec : EqDecision t.
Proof. solve_decision. Defined.
End EntityType.

(** Two conventions hold throughout: a MongoDB ObjectId is the [string]
    the API exchanges, and a [Date] is a [Z], the milliseconds since the
    epoch. *)

(** [IUser]: the stored fields of an account the handlers read or write. *)
Record IUser := mkUser {
  name : string;
  email : string;
  role : UserRole.t;
  isActive : bool
}.

(** [IUserDocument]: a loaded account, i.e. its fields together with the
    [_id] it is stored under. *)
Record IUserDocument := mkUserDocument {
  user_id : string;
  user_fields : IUser
}.

(** [IProblem]: only what the progress handlers look at. *)
Record IProblem := mkProblem {
  title : string;
  problem_isActive : bool
}.

(** [IUserProgressDocument]. *)
Record IUserProgress := mkUserProgress {
  progress_id : nat;
  userId : string;
  problemId : string;
  status : ProgressStatus.t;
  completedAt : option Z
}.

(** [IAdminLogDocument]. *)
Record IAdminLog := mkAdminLog {
  adminId : string;
  actionType : AdminActionType.t;
  entityId : option string;
  entityType : option EntityType.t;
  metadata : list (string * string);
  timestamp : Z
}.

(** [IJwtPayload]. *)
Record IJwtPayload := mkJwtPayload {
  jwt_userId : string;
  jwt_email : string;
  jwt_role : UserRole.t
}.

(** The database: one field per collection.  [nextId] is the source of
    fresh [_id]s for inserted progress documents. *)
Record Db := mkDb {
  users : gmap string IUser;
  problems : gmap string IProblem;
  userProgress : list IUserProgress;
  adminLogs : list IAdminLog;
  nextId : nat
}.

(** ** Errors and responses ([ApiError.ts], [ApiResponse.ts]) *)

Record ApiError := mkApiError {
  statusCode : Z;
  message : string
}.

Module ApiErrors.
Definition badRequest (msg : string) : ApiError := mkApiError 400 msg.
Definition unauthorized (msg : string) : ApiError := mkApiError 401 msg.
Definition forbidden (msg : string) : ApiError := mkApiError 403 msg.
Definition notFound (msg : string) : ApiError := mkApiError 404 msg.
End ApiErrors.

(** What a handler can throw: an [ApiError], or any other [Error] (a driver
    error of the store, a [TypeError]), of which only the message is kept. *)
Inductive Thrown :=
| ThrowApi (e : ApiError)
| ThrowError (msg : string).

(** The [data] member of a response body. *)
Inductive Payload :=
| NoData
| ProgressData (d : IUserProgress)
| UserData (u : IUserDocument)
| UpdatedCount (n : nat).

Record HttpResponse := mkResponse {
  res_status : Z;
  res_success : bool;
  res_message : string;
  res_data : Payload
}.

(** What [jwt.verify] can do: return the decoded payload or throw.
    [TokenExpiredError] is a subclass of [JsonWebTokenError]; the
    middleware tests for it first. *)
Inductive JwtOutcome :=
| Decoded (payload : IJwtPayload)
| TokenExpiredError
| JsonWebTokenError
| OtherVerifyError.

(** The world around one request: the clock ([new Date()]), the
    [jsonwebtoken] library already applied to the server secret and the
    current time, the fault (if any) the driver raises when a document is
    inserted into the AdminLog collection, and [env.isProduction]. *)
Record Env := mkEnv {
  now : Z;
  jwt_verify : string -> JwtOutcome;
  adminLogFault : option string;
  isProduction : bool
}.

(** [req.body.updates] entries. *)
Record ProgressUpdate := mkUpdate {
  upd_problemId : string;
  upd_status : ProgressStatus.t
}.

(** An Express request: the header the gate reads, [req.user] as the gate
    leaves it, the route parameters and the (validated) body members the
    handlers destructure. *)
Record Request := mkRequest {
  headers_authorization : option string;
  req_user : option IUserDocument;
  params_id : string;
  params_problemId : string;
  body_status : ProgressStatus.t;
  body_updates : list ProgressUpdate
}.

(** ** Handlers as state-and-exception computations *)

Definition M (A : Type) : Type := Db -> Db * (Thrown + A).

Definition ret {A} (a : A) : M A := fun db => (db, inr a).

Definition throw {A} (e : Thrown) : M A := fun db => (db, inl e).

Definition bind {A B} (m : M A) (k : A -> M B) : M B :=
  fun db =>
    match m db with
    | (db', inr a) => k a db'
    | (db', inl e) => (db', inl e)
    end.

Definition gets {A} (f : Db -> A) : M A := fun db => (db, inr (f db)).

Definition modify (f : Db -> Db) : M unit := fun db => (f db, inr tt).

Declare Scope handler_scope.
Delimit Scope handler_scope with handler.
Notation "x <- m ;; k" := (bind m (fun x => k))
  (at level 20, m at level 99, k at level 200, only parsing) : handler_scope.
Notation "m ;; k" := (bind m (fun _ => k))
  (at level 100, k at level 200, only parsing, right associativity)
  : handler_scope.
Local Open Scope handler_scope.

Definition throwApi {A} (e : ApiError) : M A := throw (ThrowApi e).

(** [ApiResponse.success(res, statusCode, message, data)]. *)
Definition success (code : Z) (msg : string) (data : Payload) : HttpResponse :=
  mkResponse code true msg data.

(** ** Central error handling ([error.middleware.ts], [asyncHandler.ts]) *)

(** [errorMiddleware]: an [ApiError] is sent with its own status; an error
    of no recognised class becomes a 500.  (The Mongoose validation, cast
    and duplicate-key classes are not raised by any handler below.) *)
Definition errorMiddleware (env : Env) (err : Thrown) : HttpResponse :=
  match err with
  | ThrowApi e => mkResponse (statusCode e) false (message e) NoData
  | ThrowError msg =>
      mkResponse 500 false
        (if isProduction env then "Internal server error" else msg) NoData
  end.

(** [asyncHandler(fn)] followed by the error middleware: whatever the
    handler throws is turned into the response the client sees. *)
Definition serve (env : Env) (h : M HttpResponse) (db : Db) : Db * HttpResponse :=
  match h db with
  | (db', inr res) => (db', res)
  | (db', inl err) => (db', errorMiddleware env err)
  end.

(** ** Collections *)

Definition set_users (f : gmap string IUser -> gmap string IUser) (db : Db) : Db :=
  mkDb (f (users db)) (problems db) (userProgress db) (adminLogs db) (nextId db).

Definition set_adminLogs (f : list IAdminLog -> list IAdminLog) (db : Db) : Db :=
  mkDb (users db) (problems db) (userProgress db) (f (adminLogs db)) (nextId db).

Module User.

(** [User.findById(id)]. *)
Definition findById (id : string) : M (option IUserDocument) :=
  gets (fun db => mkUserDocument id <$> users db !! id).

(** [user.save()] on a loaded document. *)
Definition save (user : IUserDocument) : M unit :=
  modify (set_users (fun us => <[user_id user := user_fields user]> us)).

Definition with_role (r : UserRole.t) (user : IUserDocument) : IUserDocument :=
  let f := user_fields user in
  mkUserDocument (user_id user) (mkUser (name f) (email f) r (isActive f)).

Definition with_isActive (b : bool) (user : IUserDocument) : IUserDocument :=
  let f := user_fields user in
  mkUserDocument (user_id user) (mkUser (name f) (email f) (role f) b).

End User.

Module Problem.

(** [Problem.findById(id)]. *)
Definition findById (id : string) : M (option IProblem) :=
  gets (fun db => problems db !! id).

(** [Problem.find({ _id: { $in: ids }, isActive: true })]: every stored
    problem, once, whose key occurs in [ids] and which is active. *)
Definition find_active_in (ids : list string) : M (list (string * IProblem)) :=
  gets (fun db =>
    filter (fun kp => bool_decide (kp.1 ∈ ids) && problem_isActive kp.2 = true)
           (map_to_list (problems db))).

End Problem.

Module UserProgress.

(** The filter [{ userId, problemId }]. *)
Definition matches (uid pid : string) (d : IUserProgress) : bool :=
  bool_decide (userId d = uid) && bool_decide (problemId d = pid).

(** The update [{ status, completedAt }] applied to a document. *)
Definition apply_update (st : ProgressStatus.t) (cAt : option Z)
    (d : IUserProgress) : IUserProgress :=
  mkUserProgress (progress_id d) (userId d) (problemId d) st cAt.

(** Update the first document the filter selects; [None] when it selects
    nothing. *)
Fixpoint update_first (uid pid : string) (st : ProgressStatus.t)
    (cAt : option Z) (l : list IUserProgress)
    : option (IUserProgress * list IUserProgress) :=
  match l with
  | [] => None
  | d :: rest =>
      if matches uid pid d
      then Some (apply_update st cAt d, apply_update st cAt d :: rest)
      else match update_first uid pid st cAt rest with
           | Some (d', rest') => Some (d', d :: rest')
           | None => None
           end
  end.

(** [this.findOneAndUpdate({ userId, problemId }, { status, completedAt },
    { new: true, upsert })]: one atomic step of the store.  With [upsert]
    a missing document is inserted, built from the filter and the update,
    under a fresh [_id]. *)
Definition findOneAndUpdate (uid pid : string) (st : ProgressStatus.t)
    (cAt : option Z) (upsert : bool) : M (option IUserProgress) :=
  fun db =>
    match update_first uid pid st cAt (userProgress db) with
    | Some (d, l') =>
        (mkDb (users db) (problems db) l' (adminLogs db) (nextId db),
         inr (Some d))
    | None =>
        if upsert then
          let d := mkUserProgress (nextId db) uid pid st cAt in
          (mkDb (users db) (problems db) (userProgress db ++ [d])
                (adminLogs db) (S (nextId db)),
           inr (Some d))
        else (db, inr None)
    end.

(** [userProgressSchema.statics.markCompleted]. *)
Definition markCompleted (env : Env) (uid pid : string) : M (option IUserProgress) :=
  findOneAndUpdate uid pid ProgressStatus.COMPLETED (Some (now env)) true.

(** [userProgressSchema.statics.resetProgress]. *)
Definition resetProgress (uid pid : string) : M (option IUserProgress) :=
  findOneAndUpdate uid pid ProgressStatus.NOT_STARTED None false.

(** How many documents the collection holds for one (user, problem) pair. *)
Definition count_pair (uid pid : string) (l : list IUserProgress) : nat :=
  length (filter (fun d => matches uid pid d = true) l).

End UserProgress.

Module AdminLog.

(** [this.create(doc)]: the insertion either succeeds or the driver
    throws. *)
Definition create (env : Env) (doc : IAdminLog) : M IAdminLog :=
  match adminLogFault env with
  | Some msg => throw (ThrowError msg)
  | None => modify (set_adminLogs (fun l => l ++ [doc])) ;; ret doc
  end.

(** [adminLogSchema.statics.logAction]. *)
Definition logAction (env : Env) (adminId : string)
    (actionType : AdminActionType.t) (entityId : option string)
    (entityType : option EntityType.t) (metadata : list (string * string))
    : M IAdminLog :=
  create env (mkAdminLog adminId actionType entityId entityType metadata (now env)).

End AdminLog.

(** ** The authorization gate ([auth.middleware.ts], [admin.middleware.ts]) *)

(** [s.split(sep)] for a one-character separator. *)
Fixpoint split_on (sep : ascii) (s : string) : list string :=
  match s with
  | EmptyString => [EmptyString]
  | String c r =>
      if Ascii.eqb c sep then EmptyString :: split_on sep r
      else match split_on sep r with
           | [] => [String c EmptyString]
           | w :: ws => String c w :: ws
           end
  end.

Definition set_req_user (u : IUserDocument) (req : Request) : Request :=
  mkRequest (headers_authorization req) (Some u) (params_id req)
            (params_problemId req) (body_status req) (body_updates req).

(** [authMiddleware]: returns the request with [req.user] attached (the
    call of [next()]), or throws. *)
Definition authMiddleware (env : Env) (req : Request) : M Request :=
  match headers_authorization req with
  | None =>
      throwApi (ApiErrors.unauthorized
        "Authentication required. Please provide a valid token.")
  | Some authHeader =>
      if negb (String.prefix "Bearer " authHeader) then
        throwApi (ApiErrors.unauthorized
          "Authentication required. Please provide a valid token.")
      else
        match split_on " " authHeader !! 1%nat with
        | None | Some EmptyString =>
            throwApi (ApiErrors.unauthorized "Authentication token is missing.")
        | Some token =>
            match jwt_verify env token with
            | TokenExpiredError =>
                throwApi (ApiErrors.unauthorized
                  "Token has expired. Please login again.")
            | JsonWebTokenError =>
                throwApi (ApiErrors.unauthorized
                  "Invalid token. Please login again.")
            | OtherVerifyError =>
                throwApi (ApiErrors.unauthorized "Token verification failed.")
            | Decoded decoded =>
                user <- User.findById (jwt_userId decoded) ;;
                match user with
                | None =>
                    throwApi (ApiErrors.unauthorized
                      "User no longer exists. Please register again.")
                | Some user =>
                    if negb (isActive (user_fields user)) then
                      throwApi (ApiErrors.unauthorized
                        "Your account has been deactivated. Please contact support.")
                    else ret (set_req_user user req)
                end
            end
        end
  end.

(** [adminMiddleware]. *)
Definition adminMiddleware (req : Request) : M Request :=
  match req_user req with
  | None =>
      throwApi (ApiErrors.unauthorized
        "Authentication required. Please login to access this resource.")
  | Some user =>
      if negb (bool_decide (role (user_fields user) = UserRole.ADMIN)) then
        throwApi (ApiErrors.forbidden
          "Access denied. Administrator privileges required.")
      else ret req
  end.

(** [requireAdmin = [authMiddleware, adminMiddleware]]. *)
Definition requireAdmin (env : Env) (req : Request) : M Request :=
  req' <- authMiddleware env req ;; adminMiddleware req'.

(** A route behind [requireAdmin], as the client sees it. *)
Definition adminRoute (h : Env -> Request -> M HttpResponse)
    (env : Env) (req : Request) : Db -> Db * HttpResponse :=
  serve env (req' <- requireAdmin env req ;; h env req').

(** A route behind [authMiddleware] alone. *)
Definition privateRoute (h : Env -> Request -> M HttpResponse)
    (env : Env) (req : Request) : Db -> Db * HttpResponse :=
  serve env (req' <- authMiddleware env req ;; h env req').

(** [req.user!]: the non-null assertion is erased at run time, so reading
    [_id] from a request that never passed the gate throws a [TypeError]. *)
Definition currentUser (req : Request) : M IUserDocument :=
  match req_user req with
  | Some u => ret u
  | None => throw (ThrowError "Cannot read properties of undefined (reading '_id')")
  end.

(** ** Progress handlers ([progress.controller.ts]) *)

Module ProgressController.

(** [!problem || !problem.isActive], negated. *)
Definition usable (problem : option IProblem) : bool :=
  match problem with
  | Some p => problem_isActive p
  | None => false
  end.

(** [progress.populate(...)] only decorates the response; on [null] it
    throws. *)
Definition populated (progress : option IUserProgress) : M IUserProgress :=
  match progress with
  | Some d => ret d
  | None => throw (ThrowError "Cannot read properties of null (reading 'populate')")
  end.

(** The two branches shared by [updateProgress] and
    [batchUpdateProgress]. *)
Definition upsertStatus (env : Env) (uid pid : string)
    (st : ProgressStatus.t) : M (option IUserProgress) :=
  if bool_decide (st = ProgressStatus.COMPLETED)
  then UserProgress.markCompleted env uid pid
  else UserProgress.findOneAndUpdate uid pid st None true.

Definition updateProgress (env : Env) (req : Request) : M HttpResponse :=
  user <- currentUser req ;;
  let userId := user_id user in
  let problemId := params_problemId req in
  let status := body_status req in
  problem <- Problem.findById problemId ;;
  if negb (usable problem) then
    throwApi (ApiErrors.notFound "Problem not found")
  else
    progress <- upsertStatus env userId problemId status ;;
    progress <- populated progress ;;
    ret (success 200 "Progress updated successfully" (ProgressData progress)).

Definition markComplete (env : Env) (req : Request) : M HttpResponse :=
  user <- currentUser req ;;
  let userId := user_id user in
  let problemId := params_problemId req in
  problem <- Problem.findById problemId ;;
  if negb (usable problem) then
    throwApi (ApiErrors.notFound "Problem not found")
  else
    progress <- UserProgress.markCompleted env userId problemId ;;
    progress <- populated progress ;;
    ret (success 200 "Problem marked as completed" (ProgressData progress)).

Definition resetProgress (env : Env) (req : Request) : M HttpResponse :=
  user <- currentUser req ;;
  let userId := user_id user in
  let problemId := params_problemId req in
  progress <- UserProgress.resetProgress userId problemId ;;
  match progress with
  | None => ret (success 200 "No progress to reset" NoData)
  | Some progress =>
      ret (success 200 "Progress reset successfully" (ProgressData progress))
  end.

(** [Promise.all(updates.map(async ...))]: the store applies the upserts
    one at a time; an accepted batch names pairwise distinct problems, so
    they touch distinct documents and the order is immaterial. *)
Fixpoint forEach {A B} (f : A -> M B) (l : list A) : M (list B) :=
  match l with
  | [] => ret []
  | a :: rest => b <- f a ;; bs <- forEach f rest ;; ret (b :: bs)
  end.

Definition batchUpdateProgress (env : Env) (req : Request) : M HttpResponse :=
  user <- currentUser req ;;
  let userId := user_id user in
  let updates := body_updates req in
  let problemIds := map upd_problemId updates in
  problems <- Problem.find_active_in problemIds ;;
  if negb (bool_decide (length problems = length problemIds)) then
    throwApi (ApiErrors.badRequest "One or more problems not found")
  else
    results <- forEach
      (fun update => upsertStatus env userId (upd_problemId update) (upd_status update))
      updates ;;
    ret (success 200
           ("Updated progress for " +:+ pretty (length results) +:+ " problems")
           (UpdatedCount (length results))).

End ProgressController.

(** ** Validation of a batch ([progress.validator.ts], [validate.middleware.ts]) *)

Definition is_hex (c : ascii) : bool :=
  let n := nat_of_ascii c in
  ((48 <=? n) && (n <=? 57) || (97 <=? n) && (n <=? 102)
   || (65 <=? n) && (n <=? 70))%nat.

Fixpoint all_hex (s : string) : bool :=
  match s with
  | EmptyString => true
  | String c r => is_hex c && all_hex r
  end.

(** [objectIdPattern = /^[0-9a-fA-F]{24}$/]. *)
Definition objectIdPattern (s : string) : bool :=
  (String.length s =? 24)%nat && all_hex s.

(** [batchUpdateProgressSchema]: between 1 and 50 updates, each with a
    well-formed problem identifier (the status is one of the two enum
    values by its type). *)
Definition batchUpdateProgressSchema (updates : list ProgressUpdate) : bool :=
  (1 <=? length updates)%nat && (length updates <=? 50)%nat
  && forallb (fun u => objectIdPattern (upd_problemId u)) updates.

(** [validateBody(batchUpdateProgressSchema)]; the detail messages of the
    error are not kept. *)
Definition validateBody (req : Request) : M Request :=
  if batchUpdateProgressSchema (body_updates req) then ret req
  else throwApi (mkApiError 400 "Validation failed").

(** ** Account administration ([user.controller.ts]) *)

Module UserController.

Definition role_name (r : UserRole.t) : string :=
  match r with
  | UserRole.USER => "user"
  | UserRole.ADMIN => "admin"
  end.

Definition promoteUser (env : Env) (req : Request) : M HttpResponse :=
  let id := params_id req in
  admin <- currentUser req ;;
  let adminId := user_id admin in
  user <- User.findById id ;;
  match user with
  | None => throwApi (ApiErrors.notFound "User not found")
  | Some user =>
      if bool_decide (role (user_fields user) = UserRole.ADMIN) then
        throwApi (ApiErrors.badRequest "User is already an admin")
      else
        let previousRole := role (user_fields user) in
        let user := User.with_role UserRole.ADMIN user in
        User.save user ;;
        AdminLog.logAction env adminId AdminActionType.PROMOTE_USER
          (Some id) (Some EntityType.USER)
          [("userName", name (user_fields user));
           ("userEmail", email (user_fields user));
           ("previousRole", role_name previousRole);
           ("newRole", role_name UserRole.ADMIN)] ;;
        ret (success 200 "User promoted to admin successfully" (UserData user))
  end.

Definition demoteUser (env : Env) (req : Request) : M HttpResponse :=
  let id := params_id req in
  admin <- currentUser req ;;
  let adminId := user_id admin in
  user <- User.findById id ;;
  match user with
  | None => throwApi (ApiErrors.notFound "User not found")
  | Some user =>
      if bool_decide (role (user_fields user) = UserRole.USER) then
        throwApi (ApiErrors.badRequest "User is already a regular user")
      else if bool_decide (user_id user = adminId) then
        throwApi (ApiErrors.badRequest "You cannot demote yourself")
      else
        let previousRole := role (user_fields user) in
        let user := User.with_role UserRole.USER user in
        User.save user ;;
        AdminLog.logAction env adminId AdminActionType.DEMOTE_USER
          (Some id) (Some EntityType.USER)
          [("userName", name (user_fields user));
           ("userEmail", email (user_fields user));
           ("previousRole", role_name previousRole);
           ("newRole", role_name UserRole.USER)] ;;
        ret (success 200 "User demoted to regular user successfully" (UserData user))
  end.

Definition deactivateUser (env : Env) (req : Request) : M HttpResponse :=
  let id := params_id req in
  admin <- currentUser req ;;
  let adminId := user_id admin in
  user <- User.findById id ;;
  match user with
  | None => throwApi (ApiErrors.notFound "User not found")
  | Some user =>
      if bool_decide (user_id user = adminId) then
        throwApi (ApiErrors.badRequest "You cannot deactivate your own account")
      else if negb (isActive (user_fields user)) then
        throwApi (ApiErrors.badRequest "User is already deactivated")
      else
        let user := User.with_isActive false user in
        User.save user ;;
        AdminLog.logAction env adminId AdminActionType.DEACTIVATE_USER
          (Some id) (Some EntityType.USER)
          [("userName", name (user_fields user));
           ("userEmail", email (user_fields user))] ;;
        ret (success 200 "User deactivated successfully" (UserData user))
  end.

Definition activateUser (env : Env) (req : Request) : M HttpResponse :=
  let id := params_id req in
  admin <- currentUser req ;;
  let adminId := user_id admin in
  user <- User.findById id ;;
  match user with
  | None => throwApi (ApiErrors.notFound "User not found")
  | Some user =>
      if isActive (user_fields user) then
        throwApi (ApiErrors.badRequest "User is already active")
      else
        let user := User.with_isActive true user in
        User.save user ;;
        AdminLog.logAction env adminId AdminActionType.ACTIVATE_USER
          (Some id) (Some EntityType.USER)
          [("userName", name (user_fields user));
           ("userEmail", email (user_fields user))] ;;
        ret (success 200 "User activated successfully" (UserData user))
  end.

End UserController.

(** ** Histories of progress calls *)

(** One call of a progress endpoint by an authenticated account. *)
Inductive ProgressCall :=
| MarkComplete (env : Env) (req : Request)
| UpdateStatus (env : Env) (req : Request)
| Reset (env : Env) (req : Request)
| BatchUpdate (env : Env) (req : Request).

Definition call (c : ProgressCall) : M HttpResponse :=
  match c with
  | MarkComplete env req => ProgressController.markComplete env req
  | UpdateStatus env req => ProgressController.updateProgress env req
  | Reset env req => ProgressController.resetProgress env req
  | BatchUpdate env req => ProgressController.batchUpdateProgress env req
  end.

(** The database after a finite sequence of calls, each one served to the
    end (errors included) before the next. *)
Fixpoint after (cs : list ProgressCall) (db : Db) : Db :=
  match cs with
  | [] => db
  | c :: rest => after rest (fst (call c db))
  end.

(** The three ways a credential fails before any account is looked up. *)
Inductive AuthFailure :=
| CredentialAbsent
| CredentialMalformed
| CredentialExpired.

(** ** Vocabulary of the statements *)

(** A computation keeps a property of the database, whether it returns or
    throws. *)
Definition keeps (P : Db -> Prop) {A} (m : M A) : Prop :=
  forall db, P db -> P (fst (m db)).

(** At most one progress document for the pair. *)
Definition at_most_one (uid pid : string) (db : Db) : Prop :=
  (UserProgress.count_pair uid pid (userProgress db) <= 1)%nat.

(** The database once [user.save()] has written the fields [u] for [id]. *)
Definition saved (id : string) (u : IUser) (db : Db) : Db :=
  set_users (fun us => <[id := u]> us) db.

(** Two successive answers [d1], [d2] of mark-complete, with the databases
    [db1], [db2] they left, concern one and the same completed record of
    the pair: same [_id], same (userId, problemId) key, both stored, and no
    document more in [db2] than in [db1], for this pair or any other. *)
Definition same_record (uid pid : string) (db1 db2 : Db)
    (d1 d2 : IUserProgress) : Prop :=
  status d1 = ProgressStatus.COMPLETED
  /\ status d2 = ProgressStatus.COMPLETED
  /\ progress_id d2 = progress_id d1
  /\ (userId d1, problemId d1) = (uid, pid)
  /\ (userId d2, problemId d2) = (uid, pid)
  /\ d1 ∈ userProgress db1
  /\ d2 ∈ userProgress db2
  /\ length (userProgress db2) = length (userProgress db1)
  /\ forall u p, UserProgress.count_pair u p (userProgress db2)
                 = UserProgress.count_pair u p (userProgress db1).

(** What one mark-complete at time [t] does to the ledger: [d], the
    record it answers with, belongs to the pair and is completed with
    completion date [t]; it stands where the first record of the pair
    stood, under that record's [_id], every other document being as it
    was, or, when the pair had no record, it is the one document added;
    accounts, catalog and audit log are as they were. *)
Definition marked (t : Z) (uid pid : string) (db db' : Db)
    (d : IUserProgress) : Prop :=
  (userId d, problemId d) = (uid, pid)
  /\ (status d, completedAt d) = (ProgressStatus.COMPLETED, Some t)
  /\ (users db', problems db', adminLogs db')
     = (users db, problems db, adminLogs db)
  /\ ((exists pre d0 post,
         userProgress db = pre ++ d0 :: post
         /\ Forall (fun x => UserProgress.matches uid pid x = false) pre
         /\ UserProgress.matches uid pid d0 = true
         /\ progress_id d = progress_id d0
         /\ userProgress db' = pre ++ d :: post)
      \/ (UserProgress.count_pair uid pid (userProgress db) = 0%nat
          /\ userProgress db' = userProgress db ++ [d])).

(** A handler refuses a problem that is missing from the catalog or
    retired: it throws an [ApiError] and leaves the database as it was. *)
Definition refuses_retired (h : Env -> Request -> M HttpResponse) : Prop :=
  forall env req db user,
    req_user req = Some user ->
    ProgressController.usable (problems db !! params_problemId req) = false ->
    exists e, h env req db = (db, inl (ThrowApi e)).

Fixpoint contains (c : ascii) (s : string) : bool :=
  match s with
  | EmptyString => false
  | String c' r => Ascii.eqb c' c || contains c r
  end.

(** The request carries [token] as a bearer credential: its header is
    ["Bearer " + token], the token being non-empty and free of spaces (as
    every JWT is). *)
Definition bears (req : Request) (token : string) : Prop :=
  headers_authorization req = Some ("Bearer " +:+ token)%string
  /\ token <> EmptyString
  /\ contains " " token = false.

(** A request exhibits a failure kind. *)
Definition exhibits (env : Env) (req : Request) (k : AuthFailure) : Prop :=
  match k with
  | CredentialAbsent => headers_authorization req = None
  | CredentialMalformed =>
      exists token, bears req token /\ jwt_verify env token = JsonWebTokenError
  | CredentialExpired =>
      exists token, bears req token /\ jwt_verify env token = TokenExpiredError
  end.

(** The message the gate attaches to each failure kind. *)
Definition failure_message (k : AuthFailure) : string :=
  match k with
  | CredentialAbsent => "Authentication required. Please provide a valid token."
  | CredentialMalformed => "Invalid token. Please login again."
  | CredentialExpired => "Token has expired. Please login again."
  end.

(** ** A small installation, for concrete runs *)

Module Sample.

Definition alice_id : string := "507f1f77bcf86cd799439011".
Definition bob_id : string := "507f191e810c19729de860ea".
Definition carol_id : string := "65a1b2c3d4e5f60718293a4b".

Definition alice : IUser := mkUser "Alice" "alice@example.com" UserRole.ADMIN true.
(** An administrator whose account has been deactivated. *)
Definition bob : IUser := mkUser "Bob" "bob@example.com" UserRole.ADMIN false.
Definition carol : IUser := mkUser "Carol" "carol@example.com" UserRole.USER true.
(** A second active administrator. *)
Definition dave_id : string := "65a1b2c3d4e5f60718293a4c".
Definition dave : IUser := mkUser "Dave" "dave@example.com" UserRole.ADMIN true.

Definition two_sum : string := "64b7f0c2a1d3e4f5a6b7c8d9".
Definition retired_problem : string := "64b7f0c2a1d3e4f5a6b7c8da".
Definition unknown_problem : string := "64b7f0c2a1d3e4f5a6b7c8db".

(** Carol completed a problem that has since been retired. *)
Definition carol_record : IUserProgress :=
  mkUserProgress 0 carol_id retired_problem ProgressStatus.COMPLETED (Some 500).

Definition db : Db :=
  mkDb
    (<[alice_id := alice]> (<[bob_id := bob]> (<[carol_id := carol]>
      (<[dave_id := dave]> ∅))))
    (<[two_sum := mkProblem "Two Sum" true]>
      (<[retired_problem := mkProblem "Old Puzzle" false]> ∅))
    [carol_record] [] 1.

(** A verifier that knows five tokens. *)
Definition verify (token : string) : JwtOutcome :=
  if String.eqb token "alice.jwt" then
    Decoded (mkJwtPayload alice_id "alice@example.com" UserRole.ADMIN)
  else if String.eqb token "bob.jwt" then
    Decoded (mkJwtPayload bob_id "bob@example.com" UserRole.ADMIN)
  else if String.eqb token "carol.jwt" then
    Decoded (mkJwtPayload carol_id "carol@example.com" UserRole.USER)
  else if String.eqb token "dave.jwt" then
    Decoded (mkJwtPayload dave_id "dave@example.com" UserRole.ADMIN)
  else if String.eqb token "stale.jwt" then TokenExpiredError
  else JsonWebTokenError.

Definition env : Env := mkEnv 1000 verify None false.
Definition later : Env := mkEnv 2000 verify None false.

(** The same moment with the AdminLog collection out of reach. *)
Definition env_audit_down : Env :=
  mkEnv 1000 verify (Some "MongoNetworkError: connection closed") false.

(** A request as it arrives, before the gate. *)
Definition incoming (auth : option string) (id problemId : string)
    (st : ProgressStatus.t) (updates : list ProgressUpdate) : Request :=
  mkRequest auth None id problemId st updates.

(** A request as a handler receives it, with [req.user] set. *)
Definition from (uid : string) (u : IUser) (id problemId : string)
    (st : ProgressStatus.t) (updates : list ProgressUpdate) : Request :=
  mkRequest None (Some (mkUserDocument uid u)) id problemId st updates.

(** Alice demotes Dave, an active administrator, and Bob, a deactivated
    one. *)
Definition demote (target : string) : Request :=
  from alice_id alice target "" ProgressStatus.NOT_STARTED [].

Definition db_dave_demoted : Db :=
  fst (UserController.demoteUser env (demote dave_id) db).

Definition db_bob_demoted : Db :=
  fst (UserController.demoteUser env (demote bob_id) db).

(** Alice promotes Carol. *)
Definition promote_carol : Request :=
  from alice_id alice carol_id "" ProgressStatus.NOT_STARTED [].

(** A request for an administrators-only endpoint carrying [token]. *)
Definition admin_request (token : string) : Request :=
  incoming (Some ("Bearer " +:+ token)%string) carol_id ""
    ProgressStatus.NOT_STARTED [].

End Sample.

(** ** Further operations of the cited files *)

(** [optionalAuthMiddleware] ([auth.middleware.ts]): the steps of
    [authMiddleware], but every failure, a thrown verification error
    included, ends in [next()] with the request as it came. *)
Definition optionalAuthMiddleware (env : Env) (req : Request) : M Request :=
  match headers_authorization req with
  | None => ret req
  | Some authHeader =>
      if negb (String.prefix "Bearer " authHeader) then ret req
      else
        match split_on " " authHeader !! 1%nat with
        | None | Some EmptyString => ret req
        | Some token =>
            match jwt_verify env token with
            | Decoded decoded =>
                user <- User.findById (jwt_userId decoded) ;;
                match user with
                | Some user =>
                    if isActive (user_fields user)
                    then ret (set_req_user user req)
                    else ret req
                | None => ret req
                end
            | _ => ret req
            end
        end
  end.

(** [requireRoles(allowedRoles)] ([admin.middleware.ts]). *)
Definition requireRoles (allowedRoles : list UserRole.t) (req : Request) : M Request :=
  match req_user req with
  | None => throwApi (ApiErrors.unauthorized "Authentication required.")
  | Some user =>
      if negb (bool_decide (role (user_fields user) ∈ allowedRoles)) then
        throwApi (ApiErrors.forbidden
          ("Access denied. Required roles: "
           +:+ String.concat ", " (map UserController.role_name allowedRoles)))
      else ret req
  end.

Module ProgressModel.

(** The [pre('save')] hook of the progress schema. *)
Definition preSave (env : Env) (d : IUserProgress) : IUserProgress :=
  let d1 :=
    match completedAt d with
    | None =>
        if bool_decide (status d = ProgressStatus.COMPLETED)
        then mkUserProgress (progress_id d) (userId d) (problemId d) (status d)
               (Some (now env))
        else d
    | Some _ => d
    end in
  if bool_decide (status d1 = ProgressStatus.NOT_STARTED)
  then mkUserProgress (progress_id d1) (userId d1) (problemId d1) (status d1) None
  else d1.

(** [this.create({ userId, problemId, status })]: the schema default for
    [completedAt] is [null]; the hook runs; the document is inserted under
    a fresh [_id], unless the unique index on (userId, problemId) refuses
    it, in which case the driver throws. *)
Definition create (env : Env) (uid pid : string) (st : ProgressStatus.t)
    : M IUserProgress :=
  fun db =>
    let d := preSave env (mkUserProgress (nextId db) uid pid st None) in
    if existsb (UserProgress.matches uid pid) (userProgress db) then
      (db, inl (ThrowError "E11000 duplicate key error"))
    else
      (mkDb (users db) (problems db) (userProgress db ++ [d]) (adminLogs db)
            (S (nextId db)),
       inr d).

(** [this.findOne({ userId, problemId })]. *)
Definition findOne (uid pid : string) : M (option IUserProgress) :=
  gets (fun db =>
    List.find (UserProgress.matches uid pid) (userProgress db)).

(** [userProgressSchema.statics.findOrCreate]. *)
Definition findOrCreate (env : Env) (uid pid : string) : M IUserProgress :=
  progress <- findOne uid pid ;;
  match progress with
  | Some d => ret d
  | None => create env uid pid ProgressStatus.NOT_STARTED
  end.

(** [userProgressSchema.statics.getCompletionCount]:
    [countDocuments({ problemId, status: COMPLETED })]. *)
Definition getCompletionCount (pid : string) : M nat :=
  gets (fun db =>
    length (filter (fun d => problemId d = pid
                             /\ status d = ProgressStatus.COMPLETED)
                   (userProgress db))).

End ProgressModel.

Module AuthController.

(** [getCompletedProblemIds] ([auth.controller.ts]): the [problemId] of
    every completed record of the caller, and their number.  The two form
    the [data] of the 200 response. *)
Definition getCompletedProblemIds (req : Request) : M (list string * nat) :=
  user <- currentUser req ;;
  let userId_ := user_id user in
  completedProgress <- gets (fun db =>
    filter (fun d => userId d = userId_
                     /\ status d = ProgressStatus.COMPLETED)
           (userProgress db)) ;;
  let completedProblemIds := map problemId completedProgress in
  ret (completedProblemIds, length completedProblemIds).

End AuthController.

Module ApiResponse.

(** The arguments of [createPagination] are JavaScript numbers: the page
    and the page size come straight from the query string, so the page
    need not be a whole number.  They are modelled by the rationals.
    Comparisons of numbers are exact; the quotient is the exact one,
    which is what JavaScript computes for whole numbers below 2^53 and a
    nonzero divisor.  [NaN] and the infinities are not modelled. *)
Record PaginationInfo := mkPagination {
  currentPage : Q;
  totalPages : Q;
  totalItems : Q;
  itemsPerPage : Q;
  hasNextPage : bool;
  hasPrevPage : bool
}.

(** [x < y] on numbers. *)
Definition lt (x y : Q) : bool :=
  match (x ?= y)%Q with
  | Lt => true
  | _ => false
  end.

(** [ApiResponse.createPagination(page, limit, totalItems)]. *)
Definition createPagination (page limit totalItems : Q) : PaginationInfo :=
  let totalPages := inject_Z (Qceiling (totalItems / limit)) in
  mkPagination page totalPages totalItems limit
    (lt page totalPages) (lt 1 page).

End ApiResponse.

(** ** Vocabulary of the further statements *)

(** A run of [k] zeros, as they may stand in front of a numeral. *)
Fixpoint zeros (k : nat) : string :=
  match k with
  | O => EmptyString
  | S k' => String "0" (zeros k')
  end.

(** The request of a call, and the account that makes it. *)
Definition request_of (c : ProgressCall) : Request :=
  match c with
  | MarkComplete _ req | UpdateStatus _ req | Reset _ req | BatchUpdate _ req => req
  end.

Definition caller (c : ProgressCall) : option string :=
  user_id <$> req_user (request_of c).

(** A record is well dated when it has a completion date exactly when it
    is completed. *)
Definition well_dated (d : IUserProgress) : Prop :=
  status d = ProgressStatus.COMPLETED <-> completedAt d <> None.

(** The same for the two fields an update writes. *)
Definition dated_pair (st : ProgressStatus.t) (cAt : option Z) : Prop :=
  st = ProgressStatus.COMPLETED <-> cAt <> None.

(** The identity of a record: its [_id] and its (userId, problemId) key. *)
Definition identity (d : IUserProgress) : nat * string * string :=
  (progress_id d, userId d, problemId d).

(** Two progress documents agree on what a handler writes or reads:
    [_id], (userId, problemId) key, status and completion date.  The
    [createdAt] and [updatedAt] stamps Mongoose keeps beside them are not
    part of the comparison. *)
Definition same_fields (d d' : IUserProgress) : Prop :=
  identity d' = identity d
  /\ status d' = status d
  /\ completedAt d' = completedAt d.

(** Two answers agree: the same error, or the same status code and
    message with progress documents that agree on their fields. *)
Definition same_answer (a a' : Thrown + HttpResponse) : Prop :=
  match a, a' with
  | inl e, inl e' => e' = e
  | inr r, inr r' =>
      (res_status r', res_success r', res_message r')
      = (res_status r, res_success r, res_message r)
      /\ match res_data r, res_data r' with
         | ProgressData d, ProgressData d' => same_fields d d'
         | x, x' => x' = x
         end
  | _, _ => False
  end.

(** The fields of an account the handlers read or write, without the
    [updatedAt] stamp every [save()] renews. *)
Definition account_fields (u : IUser) : string * string * UserRole.t * bool :=
  (name u, email u, role u, isActive u).

(** The records of one account. *)
Definition records_of (uid : string) (db : Db) : list IUserProgress :=
  filter (fun d => userId d = uid) (userProgress db).

(** The problems an account has completed. *)
Definition completed_by (uid : string) (db : Db) : list string :=
  map problemId
    (filter (fun d => userId d = uid /\ status d = ProgressStatus.COMPLETED)
            (userProgress db)).

(** The number [getCompletionCount] returns, on a list of records. *)
Definition completions (pid : string) (l : list IUserProgress) : nat :=
  length (filter (fun d => problemId d = pid
                           /\ status d = ProgressStatus.COMPLETED) l).

(** The four account handlers. *)
Inductive AdminAction := Promote | Demote | Deactivate | Activate.

Definition admin_handler (a : AdminAction) : Env -> Request -> M HttpResponse :=
  match a with
  | Promote => UserController.promoteUser
  | Demote => UserController.demoteUser
  | Deactivate => UserController.deactivateUser
  | Activate => UserController.activateUser
  end.

Definition action_type (a : AdminAction) : AdminActionType.t :=
  match a with
  | Promote => AdminActionType.PROMOTE_USER
  | Demote => AdminActionType.DEMOTE_USER
  | Deactivate => AdminActionType.DEACTIVATE_USER
  | Activate => AdminActionType.ACTIVATE_USER
  end.

(** The fields an action leaves for the target account. *)
Definition updated (a : AdminAction) (u : IUser) : IUser :=
  match a with
  | Promote => mkUser (name u) (email u) UserRole.ADMIN (isActive u)
  | Demote => mkUser (name u) (email u) UserRole.USER (isActive u)
  | Deactivate => mkUser (name u) (email u) (role u) false
  | Activate => mkUser (name u) (email u) (role u) true
  end.

(** What each handler requires of the target [u], stored under [id], when
    the actor is [adminId]. *)
Definition permitted (a : AdminAction) (adminId id : string) (u : IUser) : Prop :=
  match a with
  | Promote => role u = UserRole.USER
  | Demote => role u = UserRole.ADMIN /\ id <> adminId
  | Deactivate => id <> adminId /\ isActive u = true
  | Activate => isActive u = false
  end.

(** The action that undoes an action. *)
Definition inverse (a : AdminAction) : AdminAction :=
  match a with
  | Promote => Demote
  | Demote => Promote
  | Deactivate => Activate
  | Activate => Deactivate
  end.

(** ** Further concrete runs on the small installation *)

Module Scenes.
Import Sample.

(** Carol on the problem "Two Sum", with the status her request carries. *)
Definition carol_on_two_sum (st : ProgressStatus.t) : Request :=
  from carol_id carol "" two_sum st [].

(** Alice on her own progress: a completion, a batch, a reset. *)
Definition alice_calls : list ProgressCall :=
  [MarkComplete env (from alice_id alice "" two_sum ProgressStatus.COMPLETED []);
   BatchUpdate later
     (from alice_id alice "" "" ProgressStatus.NOT_STARTED
        [mkUpdate two_sum ProgressStatus.NOT_STARTED]);
   UpdateStatus later (from alice_id alice "" two_sum ProgressStatus.COMPLETED []);
   Reset later (from alice_id alice "" retired_problem ProgressStatus.NOT_STARTED [])].

(** A batch of Carol's for the one active problem. *)
Definition carol_batch : Request :=
  from carol_id carol "" "" ProgressStatus.NOT_STARTED
    [mkUpdate two_sum ProgressStatus.COMPLETED].

(** Alice deactivates, then reactivates, Dave. *)
Definition on_dave : Request :=
  from alice_id alice dave_id "" ProgressStatus.NOT_STARTED [].

Definition db_dave_deactivated : Db :=
  fst (UserController.deactivateUser env on_dave db).

Definition db_dave_reactivated : Db :=
  fst (UserController.activateUser later on_dave db_dave_deactivated).

Definition db_carol_promoted : Db :=
  fst (UserController.promoteUser env promote_carol db).

End Scenes.

(** * Properties *)

(** ** Duration strings *)

Section DurationFacts.
Import Duration.

Lemma span_digits_sound (s d t : string) :
  span_digits s = (d, t) ->
  s = (d +:+ t)%string /\ all_digits d = true.
Proof.
  revert d t. induction s as [|c r IH]; intros d t; simpl.
  - intros [= <- <-]. split; reflexivity.
  - destruct (is_digit c) eqn:Hc.
    + destruct (span_digits r) as [d' t'] eqn:Hr.
      intros [= <- <-]. destruct (IH d' t' eq_refl) as [-> Hd].
      simpl. rewrite Hc, Hd. split; reflexivity.
    + intros [= <- <-]. split; reflexivity.
Qed.

Lemma unit_not_digit (u : ascii) : is_unit u = true -> is_digit u = false.
Proof.
  unfold is_unit. intros H.
  repeat (apply orb_prop in H; destruct H as [H|H]);
    apply Ascii.eqb_eq in H; subst u; reflexivity.
Qed.

Lemma span_digits_complete (ds : string) (u : ascii) :
  all_digits ds = true -> is_unit u = true ->
  span_digits (ds +:+ String u EmptyString) = (ds, String u EmptyString).
Proof.
  intros Hds Hu. induction ds as [|c r IH]; simpl in *.
  - rewrite (unit_not_digit u Hu). reflexivity.
  - apply andb_prop in Hds. destruct Hds as [Hc Hr].
    rewrite Hc, (IH Hr). reflexivity.
Qed.

(** The matcher accepts exactly the documented pattern, and its groups
    are the digits and the unit. *)
Lemma regex_match_sound (s ds : string) (u : ascii) :
  regex_match s = Some (ds, u) ->
  s = (ds +:+ String u EmptyString)%string
  /\ ds <> EmptyString /\ all_digits ds = true /\ is_unit u = true.
Proof.
  unfold regex_match.
  destruct (span_digits s) as [d t] eqn:Hs.
  destruct d as [|d0 d']; [discriminate|].
  destruct t as [|u0 [|? ?]]; try discriminate.
  destruct (is_unit u0) eqn:Hu; [|discriminate].
  intros [= <- <-]. destruct (span_digits_sound _ _ _ Hs) as [-> Hd].
  repeat split; auto; discriminate.
Qed.

Lemma regex_match_complete (ds : string) (u : ascii) :
  ds <> EmptyString -> all_digits ds = true -> is_unit u = true ->
  regex_match (ds +:+ String u EmptyString) = Some (ds, u).
Proof.
  intros Hne Hds Hu. unfold regex_match.
  rewrite (span_digits_complete ds u Hds Hu).
  destruct ds; [congruence|]. rewrite Hu. reflexivity.
Qed.

Lemma regex_match_None (s : string) :
  regex_match s = None <-> ~ duration_pattern s.
Proof.
  split.
  - intros Hn (ds & u & -> & Hne & Hds & Hu).
    rewrite (regex_match_complete ds u Hne Hds Hu) in Hn. discriminate.
  - intros Hnp. destruct (regex_match s) as [[ds u]|] eqn:Hm; [|reflexivity].
    exfalso. apply Hnp. exists ds, u. apply regex_match_sound. exact Hm.
Qed.

(** On a string of the pattern the result is the integer times the
    length of the unit in seconds. *)
Lemma parseTimeToSeconds_pattern (ds : string) (u : ascii) :
  ds <> EmptyString -> all_digits ds = true -> is_unit u = true ->
  parseTimeToSeconds (ds +:+ String u EmptyString) = parseInt ds * unit_seconds u.
Proof.
  intros Hne Hds Hu. unfold parseTimeToSeconds, unit_seconds.
  rewrite (regex_match_complete ds u Hne Hds Hu). cbv zeta.
  unfold is_unit in Hu.
  destruct (Ascii.eqb u "d"); [lia|].
  destruct (Ascii.eqb u "h"); [lia|].
  destruct (Ascii.eqb u "m"); [lia|].
  destruct (Ascii.eqb u "s"); [lia|discriminate].
Qed.

(** C6: [parseTimeToSeconds] maps "7d" to 604800, "24h" to 86400, "30m"
    to 1800 and "45s" to 45; every string that is not one or more digits
    followed by one of d, h, m, s (such as "abc") is mapped to the
    seven-day default, 604800. *)
Theorem parseTimeToSeconds_contract :
  parseTimeToSeconds "7d" = 604800
  /\ parseTimeToSeconds "24h" = 86400
  /\ parseTimeToSeconds "30m" = 1800
  /\ parseTimeToSeconds "45s" = 45
  /\ parseTimeToSeconds "abc" = 604800
  /\ forall s : string, ~ duration_pattern s -> parseTimeToSeconds s = 604800.
Proof.
  repeat split; try reflexivity.
  intros s Hs. apply regex_match_None in Hs.
  unfold parseTimeToSeconds. rewrite Hs. reflexivity.
Qed.

Lemma parseTimeToSeconds_contract_witness :
  ~ duration_pattern "abc" /\ parseTimeToSeconds "abc" = 604800.
Proof.
  assert (Hn : ~ duration_pattern "abc")
    by (apply regex_match_None; reflexivity).
  split; [exact Hn|].
  exact (proj2 (proj2 (proj2 (proj2 (proj2 parseTimeToSeconds_contract)))) "abc" Hn).
Defined.

End DurationFacts.

(** ** Running handlers *)

Section Computations.

Lemma keeps_ret P {A} (a : A) : keeps P (ret a).
Proof. intros db H. exact H. Qed.

Lemma keeps_throw P {A} e : keeps P (@throw A e).
Proof. intros db H. exact H. Qed.

Lemma keeps_gets P {A} (f : Db -> A) : keeps P (gets f).
Proof. intros db H. exact H. Qed.

Lemma keeps_bind P {A B} (m : M A) (k : A -> M B) :
  keeps P m -> (forall a, keeps P (k a)) -> keeps P (bind m k).
Proof.
  intros Hm Hk db H. unfold bind.
  specialize (Hm db H). destruct (m db) as [db' [e|a]]; simpl in *.
  - exact Hm.
  - apply Hk, Hm.
Qed.

Lemma bind_returns {A B} (m : M A) (k : A -> M B) db db' a :
  m db = (db', inr a) -> bind m k db = k a db'.
Proof. intros H. unfold bind. rewrite H. reflexivity. Qed.

Lemma bind_throws {A B} (m : M A) (k : A -> M B) db db' e :
  m db = (db', inl e) -> bind m k db = (db', inl e).
Proof. intros H. unfold bind. rewrite H. reflexivity. Qed.

Lemma currentUser_Some req db user :
  req_user req = Some user -> currentUser req db = (db, inr user).
Proof. intros H. unfold currentUser. rewrite H. reflexivity. Qed.

Lemma findById_Some id u db :
  users db !! id = Some u ->
  User.findById id db = (db, inr (Some (mkUserDocument id u))).
Proof. intros H. unfold User.findById, gets. rewrite H. reflexivity. Qed.

Lemma serve_throws env (h : M HttpResponse) db db' e :
  h db = (db', inl e) -> serve env h db = (db', errorMiddleware env e).
Proof. intros H. unfold serve. rewrite H. reflexivity. Qed.

End Computations.

(** Discharges [keeps] goals over the structure of a handler, leaving the
    store operations to the lemmas given as hints. *)
Ltac keeps_structure :=
  repeat first
    [ apply keeps_ret
    | apply keeps_throw
    | apply keeps_gets
    | apply keeps_bind; [|intro]
    | match goal with
      | |- keeps _ (if ?b then _ else _) => destruct b
      | |- keeps _ (match ?x with Some _ => _ | None => _ end) => destruct x
      end ].

(** ** The progress ledger *)

Section Ledger.
Import UserProgress.

Local Open Scope nat_scope.

Lemma matches_apply_update uid pid st cAt d :
  matches uid pid (apply_update st cAt d) = matches uid pid d.
Proof. reflexivity. Qed.

Lemma matches_fresh uid pid n st cAt :
  matches uid pid (mkUserProgress n uid pid st cAt) = true.
Proof. unfold matches; simpl. rewrite !bool_decide_eq_true_2; reflexivity. Qed.

Lemma matches_true uid pid d :
  matches uid pid d = true <-> userId d = uid /\ problemId d = pid.
Proof.
  unfold matches. rewrite andb_true_iff, !bool_decide_eq_true. reflexivity.
Qed.

Lemma count_pair_nil uid pid : count_pair uid pid [] = 0.
Proof. reflexivity. Qed.

Lemma count_pair_cons uid pid d l :
  count_pair uid pid (d :: l) =
  (if matches uid pid d then 1 else 0) + count_pair uid pid l.
Proof.
  unfold count_pair. rewrite filter_cons.
  destruct (matches uid pid d) eqn:E.
  - rewrite decide_True by reflexivity. reflexivity.
  - rewrite decide_False by congruence. reflexivity.
Qed.

Lemma count_pair_app uid pid l1 l2 :
  count_pair uid pid (l1 ++ l2) = count_pair uid pid l1 + count_pair uid pid l2.
Proof. unfold count_pair. rewrite filter_app, length_app. reflexivity. Qed.

(** What a successful [update_first] did: it rewrote, in place, the first
    document the filter selects. *)
Lemma update_first_Some uid pid st cAt l d l' :
  update_first uid pid st cAt l = Some (d, l') ->
  exists pre d0 post,
    l = pre ++ d0 :: post
    /\ Forall (fun x => matches uid pid x = false) pre
    /\ matches uid pid d0 = true
    /\ d = apply_update st cAt d0
    /\ l' = pre ++ d :: post.
Proof.
  revert d l'. induction l as [|x rest IH]; intros d l'; simpl; [discriminate|].
  destruct (matches uid pid x) eqn:Hx.
  - intros [= <- <-]. exists [], x, rest. repeat split; auto.
  - destruct (update_first uid pid st cAt rest) as [[d1 rest1]|] eqn:Hr;
      [|discriminate].
    intros [= <- <-].
    destruct (IH d1 rest1 eq_refl) as (pre & d0 & post & -> & Hpre & Hd0 & -> & ->).
    exists (x :: pre), d0, post. repeat split; auto.
Qed.

Lemma update_first_None uid pid st cAt l :
  update_first uid pid st cAt l = None <-> count_pair uid pid l = 0.
Proof.
  induction l as [|x rest IH]; simpl; [split; reflexivity|].
  rewrite count_pair_cons.
  destruct (matches uid pid x).
  - split; [discriminate|]. simpl. discriminate.
  - simpl. rewrite <- IH.
    destruct (update_first uid pid st cAt rest) as [[? ?]|]; split;
      congruence.
Qed.

Lemma update_first_at uid pid st cAt pre d0 post :
  Forall (fun x => matches uid pid x = false) pre ->
  matches uid pid d0 = true ->
  update_first uid pid st cAt (pre ++ d0 :: post)
  = Some (apply_update st cAt d0, pre ++ apply_update st cAt d0 :: post).
Proof.
  intros Hpre Hd0. induction Hpre as [|x pre Hx _ IH]; simpl.
  - rewrite Hd0. reflexivity.
  - rewrite Hx, IH. reflexivity.
Qed.

Lemma count_pair_none uid pid l :
  count_pair uid pid l = 0 <-> Forall (fun x => matches uid pid x = false) l.
Proof.
  induction l as [|x rest IH]; [split; auto|].
  rewrite count_pair_cons, Forall_cons, <- IH.
  destruct (matches uid pid x); simpl; split; try lia; intuition congruence.
Qed.

(** An in-place update changes neither the number of documents nor the
    number of documents of any pair. *)
Lemma update_first_counts uid pid st cAt l d l' :
  update_first uid pid st cAt l = Some (d, l') ->
  length l' = length l
  /\ forall u p, count_pair u p l' = count_pair u p l.
Proof.
  intros H. apply update_first_Some in H.
  destruct H as (pre & d0 & post & -> & _ & _ & -> & ->). split.
  - rewrite !length_app. reflexivity.
  - intros u p. rewrite !count_pair_app, !count_pair_cons, matches_apply_update.
    reflexivity.
Qed.

(** The shape of the collection after an upsert: the touched document
    sits behind documents of other pairs only. *)
Lemma findOneAndUpdate_upsert uid pid st cAt db :
  exists pre d post n,
    findOneAndUpdate uid pid st cAt true db
    = (mkDb (users db) (problems db) (pre ++ d :: post) (adminLogs db) n,
       inr (Some d))
    /\ Forall (fun x => matches uid pid x = false) pre
    /\ matches uid pid d = true
    /\ status d = st /\ completedAt d = cAt.
Proof.
  unfold findOneAndUpdate.
  destruct (update_first uid pid st cAt (userProgress db)) as [[d l']|] eqn:Hu.
  - destruct (update_first_Some _ _ _ _ _ _ _ Hu)
      as (pre & d0 & post & Hl & Hpre & Hd0 & -> & ->).
    exists pre, (apply_update st cAt d0), post, (nextId db).
    repeat split; auto.
  - exists (userProgress db), (mkUserProgress (nextId db) uid pid st cAt), [],
      (S (nextId db)).
    repeat split.
    + apply count_pair_none. eapply update_first_None. exact Hu.
    + apply matches_fresh.
Qed.

End Ledger.

(** ** Uniqueness of progress documents *)

Section Uniqueness.
Import UserProgress.

Variables uid pid : string.

Lemma keeps_findOneAndUpdate u p st cAt upsert :
  keeps (at_most_one uid pid) (findOneAndUpdate u p st cAt upsert).
Proof.
  intros db H. unfold at_most_one, findOneAndUpdate in *.
  destruct (update_first u p st cAt (userProgress db)) as [[d l']|] eqn:Hu.
  - simpl. destruct (update_first_counts _ _ _ _ _ _ _ Hu) as [_ Hc].
    rewrite Hc. exact H.
  - destruct upsert; simpl; [|exact H].
    rewrite count_pair_app, count_pair_cons, count_pair_nil.
    apply update_first_None in Hu.
    destruct (matches uid pid (mkUserProgress (nextId db) u p st cAt)) eqn:Hm.
    + apply matches_true in Hm. simpl in Hm. destruct Hm as [-> ->].
      rewrite Hu. simpl. lia.
    + lia.
Qed.

Lemma keeps_currentUser req : keeps (at_most_one uid pid) (currentUser req).
Proof. unfold currentUser. destruct (req_user req); [apply keeps_ret|apply keeps_throw]. Qed.

Lemma keeps_populated d :
  keeps (at_most_one uid pid) (ProgressController.populated d).
Proof. destruct d; [apply keeps_ret|apply keeps_throw]. Qed.

Lemma keeps_upsertStatus env u p st :
  keeps (at_most_one uid pid) (ProgressController.upsertStatus env u p st).
Proof.
  unfold ProgressController.upsertStatus, markCompleted.
  destruct (bool_decide _); apply keeps_findOneAndUpdate.
Qed.

Lemma keeps_forEach {A B} (f : A -> M B) (l : list A) :
  (forall a, keeps (at_most_one uid pid) (f a)) ->
  keeps (at_most_one uid pid) (ProgressController.forEach f l).
Proof.
  intros Hf. induction l as [|a rest IH]; simpl.
  - apply keeps_ret.
  - apply keeps_bind; [apply Hf|]. intros b.
    apply keeps_bind; [exact IH|]. intros bs. apply keeps_ret.
Qed.

Lemma keeps_call (c : ProgressCall) : keeps (at_most_one uid pid) (call c).
Proof.
  destruct c as [env req|env req|env req|env req]; simpl.
  - unfold ProgressController.markComplete.
    keeps_structure; auto using keeps_currentUser, keeps_populated.
    apply keeps_findOneAndUpdate.
  - unfold ProgressController.updateProgress.
    keeps_structure;
      auto using keeps_currentUser, keeps_populated, keeps_upsertStatus.
  - unfold ProgressController.resetProgress.
    keeps_structure; auto using keeps_currentUser.
    apply keeps_findOneAndUpdate.
  - unfold ProgressController.batchUpdateProgress.
    keeps_structure; auto using keeps_currentUser.
    apply keeps_forEach. intros u. apply keeps_upsertStatus.
Qed.

Lemma after_at_most_one (cs : list ProgressCall) (db : Db) :
  at_most_one uid pid db -> at_most_one uid pid (after cs db).
Proof.
  revert db. induction cs as [|c rest IH]; intros db H; simpl.
  - exact H.
  - apply IH, keeps_call, H.
Qed.

End Uniqueness.

(** C1: starting from a ledger with no record for an (account, problem)
    pair, after any finite sequence of mark-complete, update-status, reset
    and batch-update calls, made by any accounts on any problems, at most
    one Progress Record exists for that pair. *)
Theorem progress_uniqueness (uid pid : string) (cs : list ProgressCall) (db : Db) :
  UserProgress.count_pair uid pid (userProgress db) = 0%nat ->
  (UserProgress.count_pair uid pid (userProgress (after cs db)) <= 1)%nat.
Proof.
  intros H0. apply (after_at_most_one uid pid cs db).
  unfold at_most_one. rewrite H0. lia.
Qed.

(** ** Mark-complete and reset *)

Section MarkAndReset.
Import UserProgress.
Local Open Scope nat_scope.

Lemma markComplete_run env req db user db' d :
  req_user req = Some user ->
  ProgressController.usable (problems db !! params_problemId req) = true ->
  findOneAndUpdate (user_id user) (params_problemId req)
    ProgressStatus.COMPLETED (Some (now env)) true db = (db', inr (Some d)) ->
  ProgressController.markComplete env req db
  = (db', inr (success 200 "Problem marked as completed" (ProgressData d))).
Proof.
  intros Hu Hp Hf.
  unfold ProgressController.markComplete, currentUser, Problem.findById,
    markCompleted, bind, gets. rewrite Hu. simpl. rewrite Hp. simpl.
  rewrite Hf. reflexivity.
Qed.

(** One [markCompleted], on any ledger. *)
Lemma markCompleted_marked env uid pid db :
  exists db1 d1,
    markCompleted env uid pid db = (db1, inr (Some d1))
    /\ marked (now env) uid pid db db1 d1
    /\ count_pair uid pid (userProgress db1)
       = Nat.max 1 (count_pair uid pid (userProgress db)).
Proof.
  unfold markCompleted, findOneAndUpdate.
  destruct (update_first uid pid ProgressStatus.COMPLETED (Some (now env))
              (userProgress db)) as [[d l']|] eqn:Hu.
  - destruct (update_first_counts _ _ _ _ _ _ _ Hu) as [_ Hc].
    destruct (update_first_Some _ _ _ _ _ _ _ Hu)
      as (pre & d0 & post & Hl & Hpre & Hd0 & -> & ->).
    eexists _, _. split; [reflexivity|]. split.
    + pose proof (proj1 (matches_true _ _ _) Hd0) as [Hd0u Hd0p].
      split; [cbn; f_equal; assumption|]. split; [reflexivity|].
      split; [reflexivity|]. left. exists pre, d0, post. repeat split; auto.
    + cbn [userProgress]. rewrite Hc, Hl, count_pair_app, count_pair_cons, Hd0.
      lia.
  - apply update_first_None in Hu.
    eexists _, _. split; [reflexivity|]. split.
    + split; [reflexivity|]. split; [reflexivity|]. split; [reflexivity|].
      right. split; [exact Hu|reflexivity].
    + cbn [userProgress].
      rewrite count_pair_app, count_pair_cons, count_pair_nil, matches_fresh, Hu.
      reflexivity.
Qed.

(** The model operation, twice: whatever the ledger holds, the first
    call completes the record of the pair, creating it only if the pair
    had none, and the second call acts on that same document. *)
Lemma markCompleted_twice env1 env2 uid pid db :
  exists db1 db2 d1 d2,
    markCompleted env1 uid pid db = (db1, inr (Some d1))
    /\ markCompleted env2 uid pid db1 = (db2, inr (Some d2))
    /\ marked (now env1) uid pid db db1 d1
    /\ marked (now env2) uid pid db1 db2 d2
    /\ same_record uid pid db1 db2 d1 d2
    /\ count_pair uid pid (userProgress db1)
       = Nat.max 1 (count_pair uid pid (userProgress db)).
Proof.
  destruct (markCompleted_marked env1 uid pid db) as (db1 & d1 & Hf1 & Hm1 & Hc1).
  destruct (markCompleted_marked env2 uid pid db1) as (db2 & d2 & Hf2 & Hm2 & _).
  exists db1, db2, d1, d2.
  split; [exact Hf1|]. split; [exact Hf2|]. split; [exact Hm1|].
  split; [exact Hm2|]. split; [|exact Hc1].
  destruct Hm1 as (Hk1 & Hs1 & _ & Hl1). destruct Hm2 as (Hk2 & Hs2 & _ & Hl2).
  assert (Hin1 : d1 ∈ userProgress db1).
  { destruct Hl1 as [(pre & d0 & post & _ & _ & _ & _ & ->)|[_ ->]];
      apply elem_of_app; right; apply elem_of_cons; left; reflexivity. }
  assert (Hpos : count_pair uid pid (userProgress db1) <> 0) by lia.
  destruct Hl2 as [(pre & d0 & post & E1 & Hpre & Hd0 & Hid & E2)|[H0 _]];
    [|contradiction].
  assert (d0 = d1) as ->.
  { destruct Hl1 as [(pre1 & x & post1 & _ & Hpre1 & Hx & _ & E)|[H0 E]].
    - assert (Hd1 : matches uid pid d1 = true).
      { apply matches_true. injection Hk1 as -> ->. split; reflexivity. }
      rewrite E in E1. clear - E1 Hpre Hpre1 Hd0 Hd1.
      revert pre1 E1 Hpre1.
      induction Hpre as [|y pre Hy _ IH]; intros [|z pre1] E1 Hpre1;
        cbn in E1; injection E1 as E1 E1'.
      + congruence.
      + apply Forall_cons in Hpre1. destruct Hpre1 as [Hz _]. congruence.
      + congruence.
      + apply Forall_cons in Hpre1. destruct Hpre1 as [_ Hpre1].
        exact (IH pre1 E1' Hpre1).
    - apply count_pair_none in H0. rewrite E in E1.
      assert (Hd1 : matches uid pid d1 = true).
      { apply matches_true. injection Hk1 as -> ->. split; reflexivity. }
      clear - E1 Hpre H0 Hd0 Hd1.
      revert pre E1 Hpre.
      induction H0 as [|y l Hy _ IH]; intros [|z pre] E1 Hpre;
        cbn in E1; injection E1 as E1 E1'.
      + congruence.
      + destruct pre; discriminate E1'.
      + congruence.
      + apply Forall_cons in Hpre. destruct Hpre as [_ Hpre].
        exact (IH pre E1' Hpre). }
  unfold same_record.
  injection Hs1 as Hst1 _. injection Hs2 as Hst2 _.
  split; [exact Hst1|]. split; [exact Hst2|]. split; [exact Hid|].
  split; [exact Hk1|]. split; [exact Hk2|]. split; [exact Hin1|].
  split; [rewrite E2; apply elem_of_app; right; apply elem_of_cons; left;
          reflexivity|].
  assert (Hmm : forall u p, matches u p d2 = matches u p d1).
  { intros u p. unfold matches. injection Hk1 as -> ->. injection Hk2 as -> ->.
    reflexivity. }
  split.
  - rewrite E1, E2, !length_app. reflexivity.
  - intros u p. rewrite E1, E2, !count_pair_app, !count_pair_cons, Hmm.
    reflexivity.
Qed.

(** C3: two mark-complete calls in a row for the same (account, problem)
    pair leave the record completed after each call, dated by the call;
    the first call completes the first record the pair has, in place and
    under its [_id], and creates a record only when the pair has none, so
    that the pair then counts as many records as before, or one; the
    second call acts on the document the first one answered with (same
    [_id], same (userId, problemId) key) and creates no record.  Nothing
    else in the database changes.  This holds for the model operation
    [markCompleted] on any ledger, and for the endpoint [markComplete]
    whenever the problem is in the catalog and active (both requests then
    succeed). *)
Theorem markComplete_twice env1 env2 :
  (forall uid pid db,
     exists db1 db2 d1 d2,
       markCompleted env1 uid pid db = (db1, inr (Some d1))
       /\ markCompleted env2 uid pid db1 = (db2, inr (Some d2))
       /\ marked (now env1) uid pid db db1 d1
       /\ marked (now env2) uid pid db1 db2 d2
       /\ same_record uid pid db1 db2 d1 d2
       /\ count_pair uid pid (userProgress db1)
          = Nat.max 1 (count_pair uid pid (userProgress db)))
  /\ (forall req db user,
        req_user req = Some user ->
        ProgressController.usable (problems db !! params_problemId req) = true ->
        exists db1 db2 d1 d2,
          ProgressController.markComplete env1 req db
          = (db1, inr (success 200 "Problem marked as completed" (ProgressData d1)))
          /\ ProgressController.markComplete env2 req db1
             = (db2, inr (success 200 "Problem marked as completed" (ProgressData d2)))
          /\ marked (now env1) (user_id user) (params_problemId req) db db1 d1
          /\ marked (now env2) (user_id user) (params_problemId req) db1 db2 d2
          /\ same_record (user_id user) (params_problemId req) db1 db2 d1 d2
          /\ count_pair (user_id user) (params_problemId req) (userProgress db1)
             = Nat.max 1 (count_pair (user_id user) (params_problemId req)
                            (userProgress db))).
Proof.
  split.
  - intros uid pid db. apply markCompleted_twice.
  - intros req db user Hu Hp.
    destruct (markCompleted_twice env1 env2 (user_id user) (params_problemId req) db)
      as (db1 & db2 & d1 & d2 & Hf1 & Hf2 & Hm1 & Hm2 & Hsame & Hc).
    exists db1, db2, d1, d2.
    split; [apply (markComplete_run env1 req db user db1 d1 Hu Hp Hf1)|].
    split; [|auto].
    apply (markComplete_run env2 req db1 user db2 d2 Hu); [|exact Hf2].
    destruct Hm1 as (_ & _ & Hrest & _). injection Hrest as _ Hpr _.
    rewrite Hpr. exact Hp.
Qed.

Lemma resetProgress_absent env req db user :
  req_user req = Some user ->
  count_pair (user_id user) (params_problemId req) (userProgress db) = 0 ->
  ProgressController.resetProgress env req db
  = (db, inr (success 200 "No progress to reset" NoData)).
Proof.
  intros Hu H0.
  unfold ProgressController.resetProgress, currentUser, resetProgress,
    findOneAndUpdate, bind. rewrite Hu. simpl.
  apply (update_first_None _ _ ProgressStatus.NOT_STARTED None) in H0.
  rewrite H0. reflexivity.
Qed.

(** C4: reset for a pair that has no record answers with the success
    "No progress to reset" and leaves the database, hence the ledger,
    exactly as it was: no record is created. *)
Theorem resetProgress_nothing_to_reset env req db user :
  req_user req = Some user ->
  count_pair (user_id user) (params_problemId req) (userProgress db) = 0 ->
  ProgressController.resetProgress env req db
  = (db, inr (success 200 "No progress to reset" NoData))
  /\ serve env (ProgressController.resetProgress env req) db
     = (db, mkResponse 200 true "No progress to reset" NoData).
Proof.
  intros Hu H0.
  assert (E := resetProgress_absent env req db user Hu H0).
  split; [exact E|]. unfold serve. rewrite E. reflexivity.
Qed.

(** Reset never looks at the catalog: given an authenticated caller it
    always answers 200, and it never adds a record. *)
Lemma resetProgress_always_succeeds env req db user :
  req_user req = Some user ->
  exists db' res,
    ProgressController.resetProgress env req db = (db', inr res)
    /\ res_status res = 200%Z /\ res_success res = true
    /\ length (userProgress db') = length (userProgress db)
    /\ (forall u p, count_pair u p (userProgress db') = count_pair u p (userProgress db))
    /\ (0 < count_pair (user_id user) (params_problemId req) (userProgress db) ->
        exists d, res = success 200 "Progress reset successfully" (ProgressData d)
                  /\ d ∈ userProgress db'
                  /\ (userId d, problemId d) = (user_id user, params_problemId req)
                  /\ status d = ProgressStatus.NOT_STARTED
                  /\ completedAt d = None).
Proof.
  intros Hu.
  unfold ProgressController.resetProgress, currentUser, resetProgress,
    findOneAndUpdate, bind. rewrite Hu. simpl.
  destruct (update_first (user_id user) (params_problemId req)
              ProgressStatus.NOT_STARTED None (userProgress db))
    as [[d l']|] eqn:Hup.
  - destruct (update_first_counts _ _ _ _ _ _ _ Hup) as [Hlen Hcnt].
    destruct (update_first_Some _ _ _ _ _ _ _ Hup)
      as (pre & d0 & post & Hl & Hpre & Hd0 & Hd & Hl').
    eexists _, _. split; [reflexivity|]. simpl. repeat split; auto.
    intros _. exists d. repeat split.
    + rewrite Hl'. apply elem_of_app. right. apply elem_of_cons. left. reflexivity.
    + apply matches_true in Hd0. rewrite Hd. simpl. destruct Hd0 as [-> ->]. reflexivity.
    + rewrite Hd. reflexivity.
    + rewrite Hd. reflexivity.
  - eexists _, _. split; [reflexivity|]. simpl. repeat split; auto.
    apply update_first_None in Hup. rewrite Hup. lia.
Qed.

(** Mark-complete refuses a problem that is missing or retired. *)
Lemma markComplete_refuses_retired :
  refuses_retired ProgressController.markComplete.
Proof.
  intros env req db user Hu Hp. eexists.
  unfold ProgressController.markComplete, currentUser, Problem.findById,
    bind, gets. rewrite Hu. simpl. rewrite Hp. reflexivity.
Qed.

End MarkAndReset.

Lemma progress_uniqueness_witness :
  UserProgress.count_pair Sample.carol_id Sample.two_sum (userProgress Sample.db) = 0%nat
  /\ (UserProgress.count_pair Sample.carol_id Sample.two_sum
        (userProgress
           (after
              [MarkComplete Sample.env
                 (Sample.from Sample.carol_id Sample.carol "" Sample.two_sum
                    ProgressStatus.COMPLETED []);
               Reset Sample.later
                 (Sample.from Sample.carol_id Sample.carol "" Sample.two_sum
                    ProgressStatus.COMPLETED []);
               BatchUpdate Sample.later
                 (Sample.from Sample.carol_id Sample.carol "" ""
                    ProgressStatus.COMPLETED
                    [mkUpdate Sample.two_sum ProgressStatus.COMPLETED]);
               UpdateStatus Sample.later
                 (Sample.from Sample.carol_id Sample.carol "" Sample.two_sum
                    ProgressStatus.NOT_STARTED [])]
              Sample.db)) <= 1)%nat.
Proof.
  split; [reflexivity|].
  apply progress_uniqueness. reflexivity.
Defined.

(** ** Batch update *)

Section Batch.
Local Open Scope nat_scope.

(** The catalog query returns each problem once, so it cannot return as
    many documents as identifiers were asked for when one of them names
    no active problem. *)
Lemma find_active_in_short (ids : list string) (db : Db) (bad : string) :
  bad ∈ ids ->
  ProgressController.usable (problems db !! bad) = false ->
  exists found,
    Problem.find_active_in ids db = (db, inr found)
    /\ length found < length ids.
Proof.
  intros Hin Hbad. eexists. split; [reflexivity|].
  set (P := fun kp : string * IProblem =>
              bool_decide (kp.1 ∈ ids) && problem_isActive kp.2 = true).
  set (found := filter P (map_to_list (problems db))).
  set (V := filter (fun id => ProgressController.usable (problems db !! id) = true) ids).
  assert (Hnd : NoDup (found.*1)).
  { apply (sublist_NoDup _ ((map_to_list (problems db)).*1)).
    - apply NoDup_fst_map_to_list.
    - apply fmap_sublist, sublist_filter. }
  assert (Hsub : forall k, k ∈ found.*1 -> k ∈ V).
  { intros k Hk. apply list_elem_of_fmap in Hk. destruct Hk as ([k' p] & -> & Hkp).
    apply list_elem_of_filter in Hkp. destruct Hkp as [HP Hm].
    apply elem_of_map_to_list in Hm. unfold P in HP. simpl in HP.
    apply andb_true_iff in HP. destruct HP as [Hk' Hact].
    apply bool_decide_eq_true in Hk'.
    apply list_elem_of_filter. split; [|exact Hk'].
    simpl. rewrite Hm. exact Hact. }
  assert (Hle : length found <= length V).
  { rewrite <- (length_fmap fst found).
    apply submseteq_length, NoDup_submseteq; assumption. }
  assert (Hlt : length V < length ids).
  { apply (length_filter_lt _ ids bad Hin). rewrite Hbad. discriminate. }
  lia.
Qed.

(** C5: a batch in which some update names a problem that is missing
    from the catalog or retired is rejected with a bad-request error, and
    the database (so the ledger, for every pair the batch names) is left
    exactly as it was; the same holds with the body validation in front of
    the handler. *)
Theorem batchUpdateProgress_all_or_nothing env req db user upd :
  req_user req = Some user ->
  upd ∈ body_updates req ->
  ProgressController.usable (problems db !! upd_problemId upd) = false ->
  ProgressController.batchUpdateProgress env req db
  = (db, inl (ThrowApi (ApiErrors.badRequest "One or more problems not found")))
  /\ serve env (ProgressController.batchUpdateProgress env req) db
     = (db, mkResponse 400 false "One or more problems not found" NoData)
  /\ exists msg,
       serve env (req' <- validateBody req ;;
                  ProgressController.batchUpdateProgress env req') db
       = (db, mkResponse 400 false msg NoData).
Proof.
  intros Hu Hin Hbad.
  assert (Hin' : upd_problemId upd ∈ map upd_problemId (body_updates req)).
  { apply list_elem_of_fmap. exists upd. split; [reflexivity|exact Hin]. }
  destruct (find_active_in_short _ db _ Hin' Hbad) as (found & Hf & Hlt).
  assert (E : ProgressController.batchUpdateProgress env req db
              = (db, inl (ThrowApi (ApiErrors.badRequest "One or more problems not found")))).
  { unfold ProgressController.batchUpdateProgress.
    rewrite (bind_returns _ _ _ _ _ (currentUser_Some req db user Hu)).
    cbv beta zeta. rewrite (bind_returns _ _ _ _ _ Hf). cbv beta.
    rewrite bool_decide_eq_false_2 by lia. reflexivity. }
  split; [exact E|]. split.
  - unfold serve. rewrite E. reflexivity.
  - unfold serve, validateBody, bind.
    destruct (batchUpdateProgressSchema (body_updates req)); simpl.
    + rewrite E. eexists. reflexivity.
    + eexists. reflexivity.
Qed.

End Batch.

Lemma batchUpdateProgress_all_or_nothing_witness :
  let req := Sample.from Sample.carol_id Sample.carol "" ""
               ProgressStatus.COMPLETED
               [mkUpdate Sample.two_sum ProgressStatus.COMPLETED;
                mkUpdate Sample.unknown_problem ProgressStatus.COMPLETED] in
  batchUpdateProgressSchema (body_updates req) = true
  /\ ProgressController.usable (problems Sample.db !! Sample.two_sum) = true
  /\ ProgressController.usable (problems Sample.db !! Sample.unknown_problem) = false
  /\ ProgressController.batchUpdateProgress Sample.env req Sample.db
     = (Sample.db, inl (ThrowApi (ApiErrors.badRequest "One or more problems not found")))
  /\ serve Sample.env (ProgressController.batchUpdateProgress Sample.env req) Sample.db
     = (Sample.db, mkResponse 400 false "One or more problems not found" NoData)
  /\ exists msg,
       serve Sample.env
         (req' <- validateBody req ;;
          ProgressController.batchUpdateProgress Sample.env req') Sample.db
       = (Sample.db, mkResponse 400 false msg NoData).
Proof.
  intros req.
  assert (Hbad : ProgressController.usable
                   (problems Sample.db !! Sample.unknown_problem) = false).
  { vm_compute. reflexivity. }
  split; [reflexivity|]. split; [vm_compute; reflexivity|]. split; [exact Hbad|].
  apply (batchUpdateProgress_all_or_nothing Sample.env req Sample.db
           (mkUserDocument Sample.carol_id Sample.carol)
           (mkUpdate Sample.unknown_problem ProgressStatus.COMPLETED)).
  - reflexivity.
  - apply elem_of_cons. right. apply elem_of_cons. left. reflexivity.
  - exact Hbad.
Defined.

Lemma markComplete_twice_witness :
  let req := Sample.from Sample.carol_id Sample.carol "" Sample.two_sum
               ProgressStatus.COMPLETED [] in
  req_user req = Some (mkUserDocument Sample.carol_id Sample.carol)
  /\ ProgressController.usable (problems Sample.db !! params_problemId req) = true
  /\ exists db1 db2 d1 d2,
       ProgressController.markComplete Sample.env req Sample.db
       = (db1, inr (success 200 "Problem marked as completed" (ProgressData d1)))
       /\ ProgressController.markComplete Sample.later req db1
          = (db2, inr (success 200 "Problem marked as completed" (ProgressData d2)))
       /\ marked (now Sample.env) Sample.carol_id Sample.two_sum Sample.db db1 d1
       /\ marked (now Sample.later) Sample.carol_id Sample.two_sum db1 db2 d2
       /\ same_record Sample.carol_id Sample.two_sum db1 db2 d1 d2
       /\ UserProgress.count_pair Sample.carol_id Sample.two_sum (userProgress db1)
          = Nat.max 1 (UserProgress.count_pair Sample.carol_id Sample.two_sum
                         (userProgress Sample.db)).
Proof.
  intros req.
  assert (Hp : ProgressController.usable
                 (problems Sample.db !! params_problemId req) = true).
  { vm_compute. reflexivity. }
  split; [reflexivity|]. split; [exact Hp|].
  exact (proj2 (markComplete_twice Sample.env Sample.later) req Sample.db
           (mkUserDocument Sample.carol_id Sample.carol) eq_refl Hp).
Defined.

Lemma resetProgress_nothing_to_reset_witness :
  let req := Sample.from Sample.carol_id Sample.carol "" Sample.two_sum
               ProgressStatus.COMPLETED [] in
  ProgressController.resetProgress Sample.env req Sample.db
  = (Sample.db, inr (success 200 "No progress to reset" NoData))
  /\ serve Sample.env (ProgressController.resetProgress Sample.env req) Sample.db
     = (Sample.db, mkResponse 200 true "No progress to reset" NoData).
Proof.
  intros req.
  apply (resetProgress_nothing_to_reset Sample.env req Sample.db
           (mkUserDocument Sample.carol_id Sample.carol)).
  - reflexivity.
  - reflexivity.
Defined.

(** ** The authorization gate *)

Section Gate.

Lemma split_on_no_sep (sep : ascii) (s : string) :
  contains sep s = false -> split_on sep s = [s].
Proof.
  induction s as [|c r IH]; simpl; [reflexivity|].
  intros H. apply orb_false_elim in H. destruct H as [Hc Hr].
  rewrite Hc, (IH Hr). reflexivity.
Qed.

Lemma split_on_bearer (token : string) :
  contains " " token = false ->
  split_on " " ("Bearer " +:+ token) !! 1%nat = Some token.
Proof.
  intros H.
  change (split_on " " ("Bearer " +:+ token))
    with ("Bearer"%string :: split_on " " token).
  rewrite (split_on_no_sep _ _ H). reflexivity.
Qed.

Lemma prefix_bearer (token : string) :
  String.prefix "Bearer " ("Bearer " +:+ token) = true.
Proof.
  change (String.prefix "Bearer " ("Bearer " +:+ token))
    with (String.prefix "" token).
  destruct token; reflexivity.
Qed.

(** With a bearer token in the header, the gate goes by the verdict of
    [jwt.verify] and then by the stored account. *)
Lemma authMiddleware_bears env req token db :
  bears req token ->
  authMiddleware env req db =
  match jwt_verify env token with
  | TokenExpiredError =>
      (db, inl (ThrowApi (ApiErrors.unauthorized "Token has expired. Please login again.")))
  | JsonWebTokenError =>
      (db, inl (ThrowApi (ApiErrors.unauthorized "Invalid token. Please login again.")))
  | OtherVerifyError =>
      (db, inl (ThrowApi (ApiErrors.unauthorized "Token verification failed.")))
  | Decoded decoded =>
      match users db !! jwt_userId decoded with
      | None =>
          (db, inl (ThrowApi (ApiErrors.unauthorized
                                "User no longer exists. Please register again.")))
      | Some u =>
          if isActive u
          then (db, inr (set_req_user (mkUserDocument (jwt_userId decoded) u) req))
          else (db, inl (ThrowApi (ApiErrors.unauthorized
                 "Your account has been deactivated. Please contact support.")))
      end
  end.
Proof.
  intros (Hh & Hne & Hsp). unfold authMiddleware. rewrite Hh.
  rewrite (prefix_bearer token). cbv [negb].
  rewrite (split_on_bearer token Hsp).
  destruct token as [|c r]; [congruence|].
  destruct (jwt_verify env (String c r)) as [decoded| | |]; try reflexivity.
  unfold bind, User.findById, gets.
  destruct (users db !! jwt_userId decoded) as [u|]; simpl; [|reflexivity].
  destruct (isActive u); reflexivity.
Qed.

(** The gate judges by the stored account, not by the token's role. *)
Lemma requireAdmin_stored_role env req db token payload u :
  bears req token ->
  jwt_verify env token = Decoded payload ->
  users db !! jwt_userId payload = Some u ->
  role u = UserRole.USER ->
  requireAdmin env req db
  = (db, inl (ThrowApi
       (if isActive u
        then ApiErrors.forbidden "Access denied. Administrator privileges required."
        else ApiErrors.unauthorized
               "Your account has been deactivated. Please contact support."))).
Proof.
  intros Hb Hv Hu Hr.
  assert (Ha := authMiddleware_bears env req token db Hb).
  rewrite Hv, Hu in Ha.
  unfold requireAdmin. destruct (isActive u).
  - rewrite (bind_returns _ _ _ _ _ Ha).
    unfold adminMiddleware. simpl. rewrite Hr. reflexivity.
  - rewrite (bind_throws _ _ _ _ _ Ha). reflexivity.
Qed.

Lemma failure_message_inj (k1 k2 : AuthFailure) :
  failure_message k1 = failure_message k2 -> k1 = k2.
Proof. destruct k1, k2; simpl; intros H; try reflexivity; discriminate H. Qed.

(** C8, as the code has it: a request without credential, with a
    malformed one or with an expired one is answered 401 in all three
    cases, but each case has a message of its own, from which the kind of
    failure can be read off. *)
Theorem auth_failure_response
    (h : Env -> Request -> M HttpResponse) env req db (k : AuthFailure) :
  exhibits env req k ->
  authMiddleware env req db
  = (db, inl (ThrowApi (ApiErrors.unauthorized (failure_message k))))
  /\ privateRoute h env req db
     = (db, mkResponse 401 false (failure_message k) NoData)
  /\ forall k', res_message (snd (privateRoute h env req db)) = failure_message k' ->
                k' = k.
Proof.
  intros Hk.
  assert (E : authMiddleware env req db
              = (db, inl (ThrowApi (ApiErrors.unauthorized (failure_message k))))).
  { destruct k; simpl in Hk.
    - unfold authMiddleware. rewrite Hk. reflexivity.
    - destruct Hk as (token & Hb & Hv).
      rewrite (authMiddleware_bears env req token db Hb), Hv. reflexivity.
    - destruct Hk as (token & Hb & Hv).
      rewrite (authMiddleware_bears env req token db Hb), Hv. reflexivity. }
  assert (R : privateRoute h env req db
              = (db, mkResponse 401 false (failure_message k) NoData)).
  { unfold privateRoute, serve. rewrite (bind_throws _ _ _ _ _ E). reflexivity. }
  split; [exact E|]. split; [exact R|].
  intros k' Hm. rewrite R in Hm. simpl in Hm.
  symmetry. apply failure_message_inj. exact Hm.
Qed.

(** What a successful [demoteUser] found and what it stored: the target
    was an administrator, and is now stored with the standard role, its
    other fields untouched. *)
Lemma demoteUser_stores_standard envA reqA db db' res u :
  users db !! params_id reqA = Some u ->
  UserController.demoteUser envA reqA db = (db', inr res) ->
  role u = UserRole.ADMIN
  /\ users db' !! params_id reqA
     = Some (mkUser (name u) (email u) UserRole.USER (isActive u)).
Proof.
  intros Hu. unfold UserController.demoteUser.
  destruct (req_user reqA) as [admin|] eqn:Ha.
  - rewrite (bind_returns _ _ _ _ _ (currentUser_Some reqA db admin Ha)).
    unfold bind at 1, User.findById, gets. rewrite Hu.
    cbn [fmap option_fmap option_map]. cbn [user_fields user_id].
    destruct (bool_decide (role u = UserRole.USER)) eqn:Hr; [discriminate|].
    destruct (bool_decide (params_id reqA = user_id admin)); [discriminate|].
    unfold bind at 1. cbn [User.save modify].
    unfold AdminLog.logAction, AdminLog.create.
    destruct (adminLogFault envA); [discriminate|].
    cbn. intros [= <- _]. cbn. split; [|apply lookup_insert_eq].
    apply bool_decide_eq_false in Hr. destruct (role u); congruence.
  - unfold currentUser. rewrite Ha. discriminate.
Qed.

(** A demotion takes effect on the very next request: once [demoteUser]
    has answered, the demoted (active) account is refused with 403 at
    every administrators-only endpoint, although its token still verifies. *)
Lemma demotion_takes_effect_at_once
    (h : Env -> Request -> M HttpResponse)
    envA reqA db db' res u env req token payload :
  users db !! params_id reqA = Some u ->
  isActive u = true ->
  UserController.demoteUser envA reqA db = (db', inr res) ->
  bears req token ->
  jwt_verify env token = Decoded payload ->
  jwt_userId payload = params_id reqA ->
  adminRoute h env req db'
  = (db', mkResponse 403 false
            "Access denied. Administrator privileges required." NoData).
Proof.
  intros Hu Hact Hd Hb Hv Hid.
  assert (Hu' : users db' !! jwt_userId payload
                = Some (mkUser (name u) (email u) UserRole.USER true)).
  { rewrite Hid. revert Hd. unfold UserController.demoteUser.
    destruct (req_user reqA) as [admin|] eqn:Ha.
    - rewrite (bind_returns _ _ _ _ _ (currentUser_Some reqA db admin Ha)).
      unfold bind at 1, User.findById, gets. rewrite Hu. cbn [fmap option_fmap option_map].
      cbn [user_fields user_id].
      destruct (bool_decide (role u = UserRole.USER)); [discriminate|].
      destruct (bool_decide (params_id reqA = user_id admin)); [discriminate|].
      unfold bind at 1. cbn [User.save modify].
      unfold AdminLog.logAction, AdminLog.create.
      destruct (adminLogFault envA); [discriminate|].
      cbn. intros [= <- _]. cbn. rewrite Hact. apply lookup_insert_eq.
    - unfold currentUser. rewrite Ha. discriminate. }
  assert (E := requireAdmin_stored_role env req db' token payload _ Hb Hv Hu' eq_refl).
  unfold adminRoute, serve. rewrite (bind_throws _ _ _ _ _ E). reflexivity.
Qed.

End Gate.

(** C2: an account whose stored role has been changed from administrator
    to standard is refused with Forbidden (403, not the 401 of a failed
    authentication) at every administrators-only endpoint, on any request
    that presents a token which still verifies, whatever role that token
    carries: the gate loads the account the token names on every request
    and judges by the role it finds in the store.  The first part says so
    for any store in which the (active) account has the standard role; the
    second for the store [demoteUser] leaves, on the very next request.
    In both the handler behind the gate is not run and the database is
    left as it was. *)
Theorem demoted_account_rejected
    (h : Env -> Request -> M HttpResponse) env req token payload :
  bears req token ->
  jwt_verify env token = Decoded payload ->
  (forall db u,
     users db !! jwt_userId payload = Some u ->
     isActive u = true ->
     role u = UserRole.USER ->
     requireAdmin env req db
     = (db, inl (ThrowApi (ApiErrors.forbidden
                   "Access denied. Administrator privileges required.")))
     /\ adminRoute h env req db
        = (db, mkResponse 403 false
                 "Access denied. Administrator privileges required." NoData))
  /\ (forall envA reqA db db' res u,
        params_id reqA = jwt_userId payload ->
        users db !! params_id reqA = Some u ->
        isActive u = true ->
        UserController.demoteUser envA reqA db = (db', inr res) ->
        role u = UserRole.ADMIN
        /\ role <$> users db' !! jwt_userId payload = Some UserRole.USER
        /\ requireAdmin env req db'
           = (db', inl (ThrowApi (ApiErrors.forbidden
                          "Access denied. Administrator privileges required.")))
        /\ adminRoute h env req db'
           = (db', mkResponse 403 false
                     "Access denied. Administrator privileges required." NoData)).
Proof.
  intros Hb Hv.
  assert (G : forall db u,
             users db !! jwt_userId payload = Some u ->
             isActive u = true ->
             role u = UserRole.USER ->
             requireAdmin env req db
             = (db, inl (ThrowApi (ApiErrors.forbidden
                           "Access denied. Administrator privileges required.")))
             /\ adminRoute h env req db
                = (db, mkResponse 403 false
                         "Access denied. Administrator privileges required."
                         NoData)).
  { intros db u Hu Ha Hr.
    assert (E := requireAdmin_stored_role env req db token payload u Hb Hv Hu Hr).
    rewrite Ha in E. split; [exact E|].
    unfold adminRoute, serve. rewrite (bind_throws _ _ _ _ _ E). reflexivity. }
  split; [exact G|].
  intros envA reqA db db' res u Hid Hu Ha Hd.
  destruct (demoteUser_stores_standard envA reqA db db' res u Hu Hd) as [Hr Hu'].
  rewrite Hid in Hu'. split; [exact Hr|]. split; [rewrite Hu'; reflexivity|].
  exact (G db' _ Hu' Ha eq_refl).
Qed.


(** ** Account administration and the audit log *)

Section Administration.

Lemma saved_lookup id u db :
  users (saved id u db) !! id = Some u /\ adminLogs (saved id u db) = adminLogs db.
Proof. split; [apply lookup_insert_eq|reflexivity]. Qed.

Lemma logAction_fault env a t e et md msg db :
  adminLogFault env = Some msg ->
  AdminLog.logAction env a t e et md db = (db, inl (ThrowError msg)).
Proof. intros H. unfold AdminLog.logAction, AdminLog.create. rewrite H. reflexivity. Qed.

Lemma promoteUser_audit_fault env req db admin u msg :
  adminLogFault env = Some msg ->
  req_user req = Some admin ->
  users db !! params_id req = Some u ->
  role u = UserRole.USER ->
  UserController.promoteUser env req db
  = (saved (params_id req) (mkUser (name u) (email u) UserRole.ADMIN (isActive u)) db,
     inl (ThrowError msg)).
Proof.
  intros Hf Ha Hu Hr. unfold UserController.promoteUser.
  rewrite (bind_returns _ _ _ _ _ (currentUser_Some req db admin Ha)).
  rewrite (bind_returns _ _ _ _ _ (findById_Some _ _ _ Hu)).
  cbn [user_fields]. rewrite Hr. cbn [bool_decide decide_rel].
  rewrite bool_decide_eq_false_2 by discriminate.
  unfold bind at 1. cbn [User.save modify].
  erewrite bind_throws; [reflexivity|]. apply logAction_fault, Hf.
Qed.

Lemma demoteUser_audit_fault env req db admin u msg :
  adminLogFault env = Some msg ->
  req_user req = Some admin ->
  users db !! params_id req = Some u ->
  role u = UserRole.ADMIN ->
  params_id req <> user_id admin ->
  UserController.demoteUser env req db
  = (saved (params_id req) (mkUser (name u) (email u) UserRole.USER (isActive u)) db,
     inl (ThrowError msg)).
Proof.
  intros Hf Ha Hu Hr Hne. unfold UserController.demoteUser.
  rewrite (bind_returns _ _ _ _ _ (currentUser_Some req db admin Ha)).
  rewrite (bind_returns _ _ _ _ _ (findById_Some _ _ _ Hu)).
  cbn [user_fields user_id]. rewrite Hr.
  rewrite bool_decide_eq_false_2 by discriminate.
  rewrite bool_decide_eq_false_2 by exact Hne.
  unfold bind at 1. cbn [User.save modify].
  erewrite bind_throws; [reflexivity|]. apply logAction_fault, Hf.
Qed.

Lemma deactivateUser_audit_fault env req db admin u msg :
  adminLogFault env = Some msg ->
  req_user req = Some admin ->
  users db !! params_id req = Some u ->
  isActive u = true ->
  params_id req <> user_id admin ->
  UserController.deactivateUser env req db
  = (saved (params_id req) (mkUser (name u) (email u) (role u) false) db,
     inl (ThrowError msg)).
Proof.
  intros Hf Ha Hu Hact Hne. unfold UserController.deactivateUser.
  rewrite (bind_returns _ _ _ _ _ (currentUser_Some req db admin Ha)).
  rewrite (bind_returns _ _ _ _ _ (findById_Some _ _ _ Hu)).
  cbn [user_fields user_id]. rewrite Hact.
  rewrite bool_decide_eq_false_2 by exact Hne. cbn [negb].
  unfold bind at 1. cbn [User.save modify].
  erewrite bind_throws; [reflexivity|]. apply logAction_fault, Hf.
Qed.

(** C7, as the code has it: when the audit append fails after promote,
    demote or deactivate has saved its change, the change stays saved
    (nothing is rolled back, and no audit entry exists), but the failure
    is not swallowed: the handler throws it and the caller receives a 500
    failure response instead of the primary action's result. *)
Theorem audit_failure_propagates env req db admin u msg :
  adminLogFault env = Some msg ->
  req_user req = Some admin ->
  users db !! params_id req = Some u ->
  let failure :=
    mkResponse 500 false
      (if isProduction env then "Internal server error" else msg) NoData in
  (role u = UserRole.USER ->
   exists db',
     serve env (UserController.promoteUser env req) db = (db', failure)
     /\ role <$> users db' !! params_id req = Some UserRole.ADMIN
     /\ adminLogs db' = adminLogs db)
  /\ (role u = UserRole.ADMIN -> params_id req <> user_id admin ->
      exists db',
        serve env (UserController.demoteUser env req) db = (db', failure)
        /\ role <$> users db' !! params_id req = Some UserRole.USER
        /\ adminLogs db' = adminLogs db)
  /\ (isActive u = true -> params_id req <> user_id admin ->
      exists db',
        serve env (UserController.deactivateUser env req) db = (db', failure)
        /\ isActive <$> users db' !! params_id req = Some false
        /\ adminLogs db' = adminLogs db).
Proof.
  intros Hf Ha Hu failure. repeat split.
  - intros Hr. eexists. split; [|split].
    + erewrite serve_throws by (eapply promoteUser_audit_fault; eassumption).
      reflexivity.
    + rewrite (proj1 (saved_lookup _ _ _)). reflexivity.
    + reflexivity.
  - intros Hr Hne. eexists. split; [|split].
    + erewrite serve_throws by (eapply demoteUser_audit_fault; eassumption).
      reflexivity.
    + rewrite (proj1 (saved_lookup _ _ _)). reflexivity.
    + reflexivity.
  - intros Hact Hne. eexists. split; [|split].
    + erewrite serve_throws by (eapply deactivateUser_audit_fault; eassumption).
      reflexivity.
    + rewrite (proj1 (saved_lookup _ _ _)). reflexivity.
    + reflexivity.
Qed.

Lemma demoteUser_self env req db actor u :
  req_user req = Some actor ->
  params_id req = user_id actor ->
  users db !! user_id actor = Some u ->
  role u = UserRole.ADMIN ->
  UserController.demoteUser env req db
  = (db, inl (ThrowApi (ApiErrors.badRequest "You cannot demote yourself"))).
Proof.
  intros Ha Hid Hu Hr. rewrite <- Hid in Hu.
  unfold UserController.demoteUser.
  rewrite (bind_returns _ _ _ _ _ (currentUser_Some req db actor Ha)).
  rewrite (bind_returns _ _ _ _ _ (findById_Some _ _ _ Hu)).
  cbn [user_fields user_id]. rewrite Hr.
  rewrite bool_decide_eq_false_2 by discriminate.
  rewrite bool_decide_eq_true_2 by exact Hid. reflexivity.
Qed.

Lemma deactivateUser_self env req db actor u :
  req_user req = Some actor ->
  params_id req = user_id actor ->
  users db !! user_id actor = Some u ->
  UserController.deactivateUser env req db
  = (db, inl (ThrowApi (ApiErrors.badRequest "You cannot deactivate your own account"))).
Proof.
  intros Ha Hid Hu. rewrite <- Hid in Hu.
  unfold UserController.deactivateUser.
  rewrite (bind_returns _ _ _ _ _ (currentUser_Some req db actor Ha)).
  rewrite (bind_returns _ _ _ _ _ (findById_Some _ _ _ Hu)).
  cbn [user_fields user_id].
  rewrite bool_decide_eq_true_2 by exact Hid. reflexivity.
Qed.

(** C10: an administrator who names their own account as the target of
    demote or deactivate is refused with a bad-request error, and the
    database is left as it was: same role, same active flag, no audit
    entry. *)
Theorem no_self_demotion_or_deactivation env req db actor u :
  req_user req = Some actor ->
  params_id req = user_id actor ->
  users db !! user_id actor = Some u ->
  role u = UserRole.ADMIN ->
  UserController.demoteUser env req db
  = (db, inl (ThrowApi (ApiErrors.badRequest "You cannot demote yourself")))
  /\ UserController.deactivateUser env req db
     = (db, inl (ThrowApi (ApiErrors.badRequest "You cannot deactivate your own account"))).
Proof.
  intros Ha Hid Hu Hr. split.
  - exact (demoteUser_self env req db actor u Ha Hid Hu Hr).
  - exact (deactivateUser_self env req db actor u Ha Hid Hu).
Qed.

(** What the gate leaves for the handler of an administrators-only
    route: either it has thrown, or the caller's account is stored, is an
    administrator, and is attached to the request. *)
Lemma requireAdmin_cases env req db token payload :
  bears req token ->
  jwt_verify env token = Decoded payload ->
  (exists e, requireAdmin env req db = (db, inl (ThrowApi e)))
  \/ (exists u,
        users db !! jwt_userId payload = Some u
        /\ role u = UserRole.ADMIN
        /\ requireAdmin env req db
           = (db, inr (set_req_user (mkUserDocument (jwt_userId payload) u) req))).
Proof.
  intros Hb Hv. assert (Ha := authMiddleware_bears env req token db Hb).
  rewrite Hv in Ha. unfold requireAdmin.
  destruct (users db !! jwt_userId payload) as [u|] eqn:Hu.
  - destruct (isActive u).
    + rewrite (bind_returns _ _ _ _ _ Ha). unfold adminMiddleware. simpl.
      destruct (role u) eqn:Hr.
      * left. eexists. reflexivity.
      * right. exists u. repeat split; auto.
    + left. eexists. apply (bind_throws _ _ _ _ _ Ha).
  - left. eexists. apply (bind_throws _ _ _ _ _ Ha).
Qed.

(** Through the routes: a caller naming their own account never changes
    the database by demote or deactivate, and is never answered with a
    success. *)
Lemma self_service_routes env req db token payload :
  bears req token ->
  jwt_verify env token = Decoded payload ->
  params_id req = jwt_userId payload ->
  (exists res, adminRoute UserController.demoteUser env req db = (db, res)
               /\ res_success res = false)
  /\ (exists res, adminRoute UserController.deactivateUser env req db = (db, res)
                  /\ res_success res = false).
Proof.
  intros Hb Hv Hid.
  destruct (requireAdmin_cases env req db token payload Hb Hv)
    as [[e He]|(u & Hu & Hr & Hg)].
  - split; eexists; unfold adminRoute, serve;
      rewrite (bind_throws _ _ _ _ _ He); split; reflexivity.
  - set (req' := set_req_user (mkUserDocument (jwt_userId payload) u) req) in *.
    assert (E1 := demoteUser_self env req' db
                    (mkUserDocument (jwt_userId payload) u) u eq_refl Hid Hu Hr).
    assert (E2 := deactivateUser_self env req' db
                    (mkUserDocument (jwt_userId payload) u) u eq_refl Hid Hu).
    split; eexists; unfold adminRoute, serve;
      rewrite (bind_returns _ _ _ _ _ Hg); [rewrite E1|rewrite E2];
      split; reflexivity.
Qed.

End Administration.

(** ** Retired problems *)

(** C9, as the code has it: mark-complete refuses a problem that is missing
    from the catalog or retired, with Not Found and an untouched database;
    reset does not consult the catalog, so for such a problem it still
    answers 200: it creates no record, resets the caller's record for the
    problem to not-started when there is one, and changes nothing when
    there is none. *)
Theorem retired_problem_handling env req db user :
  req_user req = Some user ->
  ProgressController.usable (problems db !! params_problemId req) = false ->
  ProgressController.markComplete env req db
  = (db, inl (ThrowApi (ApiErrors.notFound "Problem not found")))
  /\ exists db' res,
       ProgressController.resetProgress env req db = (db', inr res)
       /\ res_status res = 200 /\ res_success res = true
       /\ length (userProgress db') = length (userProgress db)
       /\ (forall u p, UserProgress.count_pair u p (userProgress db')
                       = UserProgress.count_pair u p (userProgress db))
       /\ ((0 < UserProgress.count_pair (user_id user) (params_problemId req)
                  (userProgress db))%nat ->
           exists d,
             res = success 200 "Progress reset successfully" (ProgressData d)
             /\ d ∈ userProgress db'
             /\ (userId d, problemId d) = (user_id user, params_problemId req)
             /\ status d = ProgressStatus.NOT_STARTED
             /\ completedAt d = None)
       /\ (UserProgress.count_pair (user_id user) (params_problemId req)
             (userProgress db) = 0%nat ->
           db' = db /\ res = success 200 "No progress to reset" NoData).
Proof.
  intros Hu Hp. split.
  - unfold ProgressController.markComplete.
    rewrite (bind_returns _ _ _ _ _ (currentUser_Some req db user Hu)).
    unfold bind, Problem.findById, gets. cbv zeta. rewrite Hp. reflexivity.
  - destruct (resetProgress_always_succeeds env req db user Hu)
      as (db' & res & E & Hs & Hok & Hlen & Hcnt & Hsome).
    exists db', res.
    split; [exact E|]. split; [exact Hs|]. split; [exact Hok|].
    split; [exact Hlen|]. split; [exact Hcnt|]. split; [exact Hsome|].
    intros H0. rewrite (resetProgress_absent env req db user Hu H0) in E.
    split; congruence.
Qed.

(** ** Concrete runs *)

Section Runs.
Import Sample.

(** Dave keeps his administrator token when Alice demotes him; the token
    still verifies, and carries the old role. *)
Lemma demoted_account_rejected_witness :
  bears (admin_request "dave.jwt") "dave.jwt"
  /\ jwt_verify later "dave.jwt"
     = Decoded (mkJwtPayload dave_id "dave@example.com" UserRole.ADMIN)
  /\ users db !! dave_id = Some dave
  /\ UserController.demoteUser env (demote dave_id) db
     = (db_dave_demoted,
        inr (success 200 "User demoted to regular user successfully"
               (UserData (mkUserDocument dave_id
                            (mkUser "Dave" "dave@example.com" UserRole.USER true)))))
  /\ role <$> users db_dave_demoted !! dave_id = Some UserRole.USER
  /\ requireAdmin later (admin_request "dave.jwt") db_dave_demoted
     = (db_dave_demoted,
        inl (ThrowApi (ApiErrors.forbidden
               "Access denied. Administrator privileges required.")))
  /\ adminRoute UserController.promoteUser later (admin_request "dave.jwt")
       db_dave_demoted
     = (db_dave_demoted,
        mkResponse 403 false
          "Access denied. Administrator privileges required." NoData).
Proof.
  assert (Hb : bears (admin_request "dave.jwt") "dave.jwt").
  { repeat split. discriminate. }
  assert (Hd : UserController.demoteUser env (demote dave_id) db
               = (db_dave_demoted,
                  inr (success 200 "User demoted to regular user successfully"
                         (UserData (mkUserDocument dave_id
                            (mkUser "Dave" "dave@example.com" UserRole.USER true)))))).
  { vm_compute. reflexivity. }
  assert (Hu : users db !! dave_id = Some dave).
  { vm_compute. reflexivity. }
  split; [exact Hb|]. split; [reflexivity|]. split; [exact Hu|].
  split; [exact Hd|].
  exact (proj2 (proj2 (demoted_account_rejected UserController.promoteUser later
                  (admin_request "dave.jwt") "dave.jwt"
                  (mkJwtPayload dave_id "dave@example.com" UserRole.ADMIN)
                  Hb eq_refl)
           env (demote dave_id) db db_dave_demoted _ dave eq_refl Hu eq_refl Hd)).
Defined.

(** The activity check comes before the role check: Bob, an administrator
    whose account is deactivated, is answered Unauthorized (401) at an
    administrators-only endpoint, and still is once Alice has demoted
    him. *)
Lemma deactivated_administrator_unauthorized :
  role <$> users db !! bob_id = Some UserRole.ADMIN
  /\ isActive <$> users db !! bob_id = Some false
  /\ snd (adminRoute UserController.promoteUser later (admin_request "bob.jwt") db)
     = mkResponse 401 false
         "Your account has been deactivated. Please contact support." NoData
  /\ (exists u, snd (UserController.demoteUser env (demote bob_id) db)
                = inr (success 200 "User demoted to regular user successfully"
                         (UserData u)))
  /\ role <$> users db_bob_demoted !! bob_id = Some UserRole.USER
  /\ snd (adminRoute UserController.promoteUser later (admin_request "bob.jwt")
            db_bob_demoted)
     = mkResponse 401 false
         "Your account has been deactivated. Please contact support." NoData.
Proof.
  split; [vm_compute; reflexivity|].
  split; [vm_compute; reflexivity|].
  split; [vm_compute; reflexivity|].
  split; [eexists; vm_compute; reflexivity|].
  split; [vm_compute; reflexivity|].
  vm_compute. reflexivity.
Qed.

Lemma auth_failure_response_witness :
  exhibits env (admin_request "stale.jwt") CredentialExpired
  /\ authMiddleware env (admin_request "stale.jwt") db
     = (db, inl (ThrowApi (ApiErrors.unauthorized
                             "Token has expired. Please login again.")))
  /\ privateRoute ProgressController.markComplete env (admin_request "stale.jwt") db
     = (db, mkResponse 401 false "Token has expired. Please login again." NoData).
Proof.
  assert (Hk : exhibits env (admin_request "stale.jwt") CredentialExpired).
  { exists "stale.jwt"%string. repeat split. discriminate. }
  split; [exact Hk|].
  destruct (auth_failure_response ProgressController.markComplete env
              (admin_request "stale.jwt") db CredentialExpired Hk) as (E & R & _).
  split; [exact E|exact R].
Defined.

(** Against C8 as worded: the three failing requests get three different
    messages, so the message tells which failure occurred. *)
Lemma auth_failure_messages_differ :
  let absent := incoming None "" two_sum ProgressStatus.NOT_STARTED [] in
  let malformed := admin_request "not-a-token" in
  let expired := admin_request "stale.jwt" in
  let answer req := snd (privateRoute ProgressController.markComplete env req db) in
  exhibits env absent CredentialAbsent
  /\ exhibits env malformed CredentialMalformed
  /\ exhibits env expired CredentialExpired
  /\ answer absent
     = mkResponse 401 false
         "Authentication required. Please provide a valid token." NoData
  /\ answer malformed
     = mkResponse 401 false "Invalid token. Please login again." NoData
  /\ answer expired
     = mkResponse 401 false "Token has expired. Please login again." NoData
  /\ res_message (answer absent) <> res_message (answer malformed)
  /\ res_message (answer absent) <> res_message (answer expired)
  /\ res_message (answer malformed) <> res_message (answer expired).
Proof.
  intros absent malformed expired answer.
  split; [reflexivity|].
  split; [exists "not-a-token"%string; repeat split; discriminate|].
  split; [exists "stale.jwt"%string; repeat split; discriminate|].
  split; [vm_compute; reflexivity|].
  split; [vm_compute; reflexivity|].
  split; [vm_compute; reflexivity|].
  repeat split; vm_compute; discriminate.
Qed.

(** Against C9 as worded: Carol resets her record for a retired problem;
    the call succeeds and rewrites the record.  For a problem the catalog
    has never held, reset succeeds as well. *)
Lemma resetProgress_accepts_retired :
  let req := from carol_id carol "" retired_problem ProgressStatus.NOT_STARTED [] in
  let req' := from carol_id carol "" unknown_problem ProgressStatus.NOT_STARTED [] in
  let reset_record :=
    mkUserProgress 0 carol_id retired_problem ProgressStatus.NOT_STARTED None in
  ProgressController.usable (problems db !! retired_problem) = false
  /\ ProgressController.usable (problems db !! unknown_problem) = false
  /\ userProgress db = [carol_record]
  /\ snd (ProgressController.resetProgress env req db)
     = inr (success 200 "Progress reset successfully" (ProgressData reset_record))
  /\ userProgress (fst (ProgressController.resetProgress env req db))
     = [reset_record]
  /\ ProgressController.resetProgress env req' db
     = (db, inr (success 200 "No progress to reset" NoData))
  /\ ~ refuses_retired ProgressController.resetProgress.
Proof.
  intros req req' reset_record.
  split; [vm_compute; reflexivity|].
  split; [vm_compute; reflexivity|].
  split; [reflexivity|].
  split; [vm_compute; reflexivity|].
  split; [vm_compute; reflexivity|].
  split; [reflexivity|].
  intros H.
  destruct (H env req' db (mkUserDocument carol_id carol) eq_refl) as [e He].
  - vm_compute. reflexivity.
  - discriminate He.
Qed.

Lemma retired_problem_handling_witness :
  let req := from carol_id carol "" retired_problem ProgressStatus.NOT_STARTED [] in
  ProgressController.usable (problems db !! retired_problem) = false
  /\ ProgressController.markComplete env req db
     = (db, inl (ThrowApi (ApiErrors.notFound "Problem not found")))
  /\ exists db' res,
       ProgressController.resetProgress env req db = (db', inr res)
       /\ res_status res = 200 /\ res_success res = true.
Proof.
  intros req.
  assert (Hp : ProgressController.usable (problems db !! params_problemId req) = false).
  { vm_compute. reflexivity. }
  split; [exact Hp|].
  destruct (retired_problem_handling env req db (mkUserDocument carol_id carol)
              eq_refl Hp) as (Hm & db' & res & Hr & Hs & Hok & _).
  split; [exact Hm|]. exists db', res. repeat split; assumption.
Defined.

(** The scenario of the documentation: complete, reset, complete again.
    One record throughout; the completion date is cleared by the reset and
    refreshed by the second completion. *)
Example complete_reset_complete :
  let req := from carol_id carol "" two_sum ProgressStatus.NOT_STARTED [] in
  let db1 := fst (ProgressController.markComplete env req db) in
  let db2 := fst (ProgressController.resetProgress later req db1) in
  let db3 := fst (ProgressController.markComplete (mkEnv 3000 verify None false) req db2) in
  userProgress db1
  = [carol_record;
     mkUserProgress 1 carol_id two_sum ProgressStatus.COMPLETED (Some 1000)]
  /\ userProgress db2
     = [carol_record;
        mkUserProgress 1 carol_id two_sum ProgressStatus.NOT_STARTED None]
  /\ userProgress db3
     = [carol_record;
        mkUserProgress 1 carol_id two_sum ProgressStatus.COMPLETED (Some 3000)].
Proof. repeat split; vm_compute; reflexivity. Qed.

(** A batch naming active problems only is applied. *)
Example batch_applied :
  let req := from carol_id carol "" "" ProgressStatus.NOT_STARTED
               [mkUpdate two_sum ProgressStatus.COMPLETED] in
  let out := ProgressController.batchUpdateProgress env req db in
  snd out = inr (success 200 "Updated progress for 1 problems" (UpdatedCount 1))
  /\ userProgress (fst out)
     = [carol_record;
        mkUserProgress 1 carol_id two_sum ProgressStatus.COMPLETED (Some 1000)].
Proof. repeat split; vm_compute; reflexivity. Qed.

(** A batch naming the same active problem twice is refused as well: the
    catalog returns the problem once. *)
Example batch_duplicate_refused :
  let req := from carol_id carol "" "" ProgressStatus.NOT_STARTED
               [mkUpdate two_sum ProgressStatus.COMPLETED;
                mkUpdate two_sum ProgressStatus.NOT_STARTED] in
  ProgressController.batchUpdateProgress env req db
  = (db, inl (ThrowApi (ApiErrors.badRequest "One or more problems not found"))).
Proof. vm_compute. reflexivity. Qed.

End Runs.

Section AdministrationRuns.
Import Sample.

(** With the audit log reachable the promotion is saved, logged once and
    reported as a success. *)
Example promoteUser_logged :
  let out := serve env (UserController.promoteUser env promote_carol) db in
  snd out
  = mkResponse 200 true "User promoted to admin successfully"
      (UserData (mkUserDocument carol_id
                   (mkUser "Carol" "carol@example.com" UserRole.ADMIN true)))
  /\ role <$> users (fst out) !! carol_id = Some UserRole.ADMIN
  /\ adminLogs (fst out)
     = [mkAdminLog alice_id AdminActionType.PROMOTE_USER (Some carol_id)
          (Some EntityType.USER)
          [("userName", "Carol"); ("userEmail", "carol@example.com");
           ("previousRole", "user"); ("newRole", "admin")]%string
          1000].
Proof. repeat split; vm_compute; reflexivity. Qed.

(** Against C7 as worded: with the audit log out of reach the promotion
    is saved, yet the caller is told the request failed. *)
Lemma audit_failure_reported_to_caller :
  let out :=
    serve env_audit_down (UserController.promoteUser env_audit_down promote_carol) db in
  adminLogFault env_audit_down = Some "MongoNetworkError: connection closed"%string
  /\ role <$> users db !! carol_id = Some UserRole.USER
  /\ snd out
     = mkResponse 500 false "MongoNetworkError: connection closed" NoData
  /\ res_success (snd out) <> true
  /\ role <$> users (fst out) !! carol_id = Some UserRole.ADMIN
  /\ adminLogs (fst out) = [].
Proof.
  intros out.
  split; [reflexivity|].
  split; [vm_compute; reflexivity|].
  split; [vm_compute; reflexivity|].
  split; [vm_compute; discriminate|].
  split; vm_compute; reflexivity.
Qed.

Lemma audit_failure_propagates_witness :
  adminLogFault env_audit_down = Some "MongoNetworkError: connection closed"%string
  /\ users db !! carol_id = Some carol
  /\ role carol = UserRole.USER
  /\ exists db',
       serve env_audit_down
         (UserController.promoteUser env_audit_down promote_carol) db
       = (db', mkResponse 500 false "MongoNetworkError: connection closed" NoData)
       /\ role <$> users db' !! carol_id = Some UserRole.ADMIN
       /\ adminLogs db' = adminLogs db.
Proof.
  assert (Hu : users db !! params_id promote_carol = Some carol).
  { vm_compute. reflexivity. }
  split; [reflexivity|]. split; [exact Hu|]. split; [reflexivity|].
  exact (proj1 (audit_failure_propagates env_audit_down promote_carol db
                  (mkUserDocument alice_id alice) carol
                  "MongoNetworkError: connection closed"
                  eq_refl eq_refl Hu) eq_refl).
Defined.

Lemma no_self_demotion_or_deactivation_witness :
  users db !! alice_id = Some alice
  /\ role alice = UserRole.ADMIN
  /\ UserController.demoteUser env (demote alice_id) db
     = (db, inl (ThrowApi (ApiErrors.badRequest "You cannot demote yourself")))
  /\ UserController.deactivateUser env (demote alice_id) db
     = (db, inl (ThrowApi (ApiErrors.badRequest
                             "You cannot deactivate your own account"))).
Proof.
  assert (Hu : users db !! user_id (mkUserDocument alice_id alice) = Some alice).
  { vm_compute. reflexivity. }
  split; [exact Hu|]. split; [reflexivity|].
  exact (no_self_demotion_or_deactivation env (demote alice_id) db
           (mkUserDocument alice_id alice) alice eq_refl eq_refl Hu eq_refl).
Defined.

End AdministrationRuns.


(** * Further properties *)

(** ** What one progress call can do to the database *)

Section CallSteps.
Import UserProgress.

Lemma keeps_bind_ret P {A B} (a : A) (k : A -> M B) :
  keeps P (k a) -> keeps P (bind (ret a) k).
Proof. intros H db HP. exact (H db HP). Qed.

Lemma keeps_forEach_any P {A B} (f : A -> M B) (l : list A) :
  (forall a, keeps P (f a)) -> keeps P (ProgressController.forEach f l).
Proof.
  intros Hf. induction l as [|a rest IH]; simpl.
  - apply keeps_ret.
  - apply keeps_bind; [apply Hf|]. intros b.
    apply keeps_bind; [exact IH|]. intros bs. apply keeps_ret.
Qed.

Lemma keeps_populated_any P d : keeps P (ProgressController.populated d).
Proof. destruct d; [apply keeps_ret|apply keeps_throw]. Qed.

Lemma dated_pair_completed t : dated_pair ProgressStatus.COMPLETED (Some t).
Proof. split; intros _; [discriminate|reflexivity]. Qed.

Lemma dated_pair_other st :
  st <> ProgressStatus.COMPLETED -> dated_pair st None.
Proof. intros H. split; intros H'; [contradiction|congruence]. Qed.

(** Every write of a progress call is a [findOneAndUpdate] on a pair of
    the caller, with a status and a date that agree.  A property kept by
    all such writes is kept by every call. *)
Lemma keeps_call_by (P : Db -> Prop) (c : ProgressCall) :
  (forall uid pid st cAt upsert,
     caller c = Some uid -> dated_pair st cAt ->
     keeps P (findOneAndUpdate uid pid st cAt upsert)) ->
  keeps P (call c).
Proof.
  intros Hstep.
  assert (Hup : forall env user p st,
            req_user (request_of c) = Some user ->
            keeps P (ProgressController.upsertStatus env (user_id user) p st)).
  { intros env user p st Hu. unfold ProgressController.upsertStatus, markCompleted.
    destruct (bool_decide (st = ProgressStatus.COMPLETED)) eqn:Hst.
    - apply Hstep; [unfold caller; rewrite Hu; reflexivity|apply dated_pair_completed].
    - apply Hstep; [unfold caller; rewrite Hu; reflexivity|].
      apply dated_pair_other. apply bool_decide_eq_false in Hst. exact Hst. }
  assert (Hw : forall user p st cAt upsert,
            req_user (request_of c) = Some user -> dated_pair st cAt ->
            keeps P (findOneAndUpdate (user_id user) p st cAt upsert)).
  { intros user p st cAt upsert Hu Hd. apply Hstep; [|exact Hd].
    unfold caller. rewrite Hu. reflexivity. }
  destruct c as [env req|env req|env req|env req]; simpl in *;
    destruct (req_user req) as [user|] eqn:Hu.
  - unfold ProgressController.markComplete, currentUser. rewrite Hu.
    apply keeps_bind_ret. keeps_structure; auto using keeps_populated_any.
    apply (Hw user); [reflexivity|apply dated_pair_completed].
  - intros db HP. unfold ProgressController.markComplete, currentUser, bind, throw.
    rewrite Hu. exact HP.
  - unfold ProgressController.updateProgress, currentUser. rewrite Hu.
    apply keeps_bind_ret. keeps_structure; auto using keeps_populated_any.
  - intros db HP. unfold ProgressController.updateProgress, currentUser, bind, throw.
    rewrite Hu. exact HP.
  - unfold ProgressController.resetProgress, currentUser. rewrite Hu.
    apply keeps_bind_ret. keeps_structure.
    apply (Hw user); [reflexivity|]. apply dated_pair_other. discriminate.
  - intros db HP. unfold ProgressController.resetProgress, currentUser, bind, throw.
    rewrite Hu. exact HP.
  - unfold ProgressController.batchUpdateProgress, currentUser. rewrite Hu.
    apply keeps_bind_ret. keeps_structure.
    apply keeps_forEach_any. intros u. apply Hup. reflexivity.
  - intros db HP.
    unfold ProgressController.batchUpdateProgress, currentUser, bind, throw.
    rewrite Hu. exact HP.
Qed.

End CallSteps.

Section LedgerInvariants.
Import UserProgress.
Local Open Scope nat_scope.

Lemma after_keeps (P : Db -> Prop) (cs : list ProgressCall) (db : Db) :
  (forall c, c ∈ cs -> keeps P (call c)) -> P db -> P (after cs db).
Proof.
  revert db. induction cs as [|c rest IH]; intros db Hk HP; simpl; [exact HP|].
  apply IH.
  - intros c' Hc'. apply Hk. apply elem_of_cons. right. exact Hc'.
  - apply (Hk c); [apply elem_of_cons; left; reflexivity|exact HP].
Qed.

(** The three things a [findOneAndUpdate] can do: rewrite one document of
    the pair in place, append a document for a pair that had none, or
    nothing. *)
Lemma findOneAndUpdate_step uid pid st cAt upsert db :
  let db' := fst (findOneAndUpdate uid pid st cAt upsert db) in
  users db' = users db /\ problems db' = problems db
  /\ adminLogs db' = adminLogs db
  /\ ((exists pre d0 post,
         userProgress db = pre ++ d0 :: post
         /\ matches uid pid d0 = true
         /\ userProgress db' = pre ++ apply_update st cAt d0 :: post)
      \/ (count_pair uid pid (userProgress db) = 0
          /\ userProgress db'
             = userProgress db ++ [mkUserProgress (nextId db) uid pid st cAt])
      \/ db' = db).
Proof.
  unfold findOneAndUpdate.
  destruct (update_first uid pid st cAt (userProgress db)) as [[d l']|] eqn:Hu.
  - simpl. repeat split; auto. left.
    destruct (update_first_Some _ _ _ _ _ _ _ Hu)
      as (pre & d0 & post & Hl & _ & Hd0 & -> & ->).
    exists pre, d0, post. auto.
  - apply update_first_None in Hu. destruct upsert; simpl.
    + repeat split; auto.
    + repeat split; auto.
Qed.

Lemma well_dated_apply_update st cAt d :
  dated_pair st cAt -> well_dated (apply_update st cAt d).
Proof. intros H. exact H. Qed.

(** X8: a ledger in which every record has a completion date exactly when
    it is completed stays so under any sequence of mark-complete,
    update-status, reset and batch-update calls. *)
Theorem completion_dates_consistent (cs : list ProgressCall) (db : Db) :
  Forall well_dated (userProgress db) ->
  Forall well_dated (userProgress (after cs db)).
Proof.
  apply (after_keeps (fun db => Forall well_dated (userProgress db))).
  intros c _. apply keeps_call_by.
  intros uid pid st cAt upsert _ Hd db0 H0.
  destruct (findOneAndUpdate_step uid pid st cAt upsert db0)
    as (_ & _ & _ & [(pre & d0 & post & Hl & _ & Hl')|[[_ Hl']| ->]]).
  - rewrite Hl'. rewrite Hl in H0.
    apply Forall_app in H0. destruct H0 as [Hpre Hpost].
    apply Forall_cons in Hpost. destruct Hpost as [_ Hpost].
    apply Forall_app. split; [exact Hpre|].
    apply Forall_cons. split; [apply well_dated_apply_update, Hd|exact Hpost].
  - rewrite Hl'. apply Forall_app. split; [exact H0|].
    apply Forall_cons. split; [exact Hd|apply Forall_nil_2].
  - exact H0.
Qed.

(** X9: progress calls write the progress collection only: after any
    sequence of them the accounts, the catalog and the audit log are what
    they were. *)
Theorem progress_calls_frame (cs : list ProgressCall) (db : Db) :
  users (after cs db) = users db
  /\ problems (after cs db) = problems db
  /\ adminLogs (after cs db) = adminLogs db.
Proof.
  apply (after_keeps
           (fun db' => users db' = users db /\ problems db' = problems db
                       /\ adminLogs db' = adminLogs db)); [|auto].
  intros c _. apply keeps_call_by.
  intros uid pid st cAt upsert _ _ db0 (Hu & Hp & Ha).
  destruct (findOneAndUpdate_step uid pid st cAt upsert db0) as (Hu' & Hp' & Ha' & _).
  rewrite Hu', Hp', Ha'. auto.
Qed.

(** X10: no progress call removes a record or changes the [_id] or the
    (userId, problemId) key of one: the identities of the records present
    before a sequence of calls are, in the same order, the first
    identities present after it. *)
Theorem records_never_deleted (cs : list ProgressCall) (db : Db) :
  map identity (userProgress db) `prefix_of` map identity (userProgress (after cs db)).
Proof.
  apply (after_keeps
           (fun db' => map identity (userProgress db)
                       `prefix_of` map identity (userProgress db'))); [|reflexivity].
  intros c _. apply keeps_call_by.
  intros uid pid st cAt upsert _ _ db0 H0.
  destruct (findOneAndUpdate_step uid pid st cAt upsert db0)
    as (_ & _ & _ & [(pre & d0 & post & Hl & _ & Hl')|[[_ Hl']| ->]]).
  - rewrite Hl'. rewrite Hl in H0. rewrite !map_app in *. exact H0.
  - rewrite Hl', map_app. etransitivity; [exact H0|]. apply prefix_app_r. reflexivity.
  - exact H0.
Qed.

(** X11: the records of an account are touched by that account's calls
    only: a sequence of calls none of which is made by [uid] leaves the
    records of [uid] exactly as they were. *)
Theorem other_accounts_untouched (uid : string) (cs : list ProgressCall) (db : Db) :
  (forall c, c ∈ cs -> caller c <> Some uid) ->
  records_of uid (after cs db) = records_of uid db.
Proof.
  intros Hcs.
  apply (after_keeps (fun db' => records_of uid db' = records_of uid db)); [|reflexivity].
  intros c Hc. apply keeps_call_by.
  intros u pid st cAt upsert Hcaller _ db0 H0.
  assert (Hne : u <> uid) by (intros ->; exact (Hcs c Hc Hcaller)).
  rewrite <- H0. unfold records_of.
  destruct (findOneAndUpdate_step u pid st cAt upsert db0)
    as (_ & _ & _ & [(pre & d0 & post & Hl & Hd0 & Hl')|[[_ Hl']| ->]]).
  - rewrite Hl', Hl. apply matches_true in Hd0. destruct Hd0 as [Hd0 _].
    rewrite !filter_app, !filter_cons.
    rewrite !decide_False; [reflexivity| |]; simpl; congruence.
  - rewrite Hl', filter_app, filter_cons, decide_False by (simpl; congruence).
    rewrite filter_nil, app_nil_r. reflexivity.
  - reflexivity.
Qed.

End LedgerInvariants.

(** ** How the progress operations compose *)

Section ProgressComposition.
Import UserProgress.
Local Open Scope nat_scope.

Lemma bind_gets {A B} (f : Db -> A) (k : A -> M B) db :
  bind (gets f) k db = k (f db) db.
Proof. reflexivity. Qed.

Lemma resetProgress_run env req db user db' o :
  req_user req = Some user ->
  resetProgress (user_id user) (params_problemId req) db = (db', inr o) ->
  ProgressController.resetProgress env req db
  = (db', inr match o with
              | None => success 200 "No progress to reset" NoData
              | Some d => success 200 "Progress reset successfully" (ProgressData d)
              end).
Proof.
  intros Hu Hf. unfold ProgressController.resetProgress.
  rewrite (bind_returns _ _ _ _ _ (currentUser_Some req db user Hu)).
  cbv zeta. rewrite (bind_returns _ _ _ _ _ Hf). destruct o; reflexivity.
Qed.

Lemma model_reset_returns uid pid db :
  exists db' o, resetProgress uid pid db = (db', inr o).
Proof.
  unfold resetProgress, findOneAndUpdate.
  destruct (update_first _ _ _ _ _) as [[d l']|]; eexists _, _; reflexivity.
Qed.

Lemma model_reset_idempotent uid pid db db' o :
  resetProgress uid pid db = (db', inr o) ->
  resetProgress uid pid db' = (db', inr o).
Proof.
  unfold resetProgress, findOneAndUpdate.
  destruct (update_first uid pid ProgressStatus.NOT_STARTED None (userProgress db))
    as [[d l']|] eqn:Hu.
  - destruct (update_first_Some _ _ _ _ _ _ _ Hu)
      as (pre & d0 & post & Hl & Hpre & Hd0 & -> & ->).
    intros [= <- <-]. cbn [userProgress].
    rewrite (update_first_at uid pid ProgressStatus.NOT_STARTED None pre
               (apply_update ProgressStatus.NOT_STARTED None d0) post Hpre Hd0).
    reflexivity.
  - intros [= <- <-]. rewrite Hu. reflexivity.
Qed.

Lemma same_fields_refl (l : list IUserProgress) : Forall2 same_fields l l.
Proof.
  induction l as [|d l IH]; constructor; [|exact IH].
  split; [reflexivity|]. split; reflexivity.
Qed.

(** X12: reset is idempotent on everything but the time stamps: a second
    reset of the same pair, whenever it happens, leaves every progress
    document with the [_id], key, status and completion date the first
    reset left it with, adds and removes none, touches no other
    collection, and gives the same answer (status code, message, and the
    same fields of the record if one is returned).  A record the first
    reset returns is stored, not started and undated. *)
Theorem resetProgress_idempotent env1 env2 req db :
  let r1 := ProgressController.resetProgress env1 req db in
  let r2 := ProgressController.resetProgress env2 req (fst r1) in
  Forall2 same_fields (userProgress (fst r1)) (userProgress (fst r2))
  /\ (users (fst r2), problems (fst r2), adminLogs (fst r2))
     = (users (fst r1), problems (fst r1), adminLogs (fst r1))
  /\ same_answer (snd r1) (snd r2)
  /\ forall res d, snd r1 = inr res -> res_data res = ProgressData d ->
       d ∈ userProgress (fst r1)
       /\ (status d, completedAt d) = (ProgressStatus.NOT_STARTED, None).
Proof.
  intros r1 r2.
  assert (E : r2 = r1 /\
              forall res d, snd r1 = inr res -> res_data res = ProgressData d ->
                d ∈ userProgress (fst r1)
                /\ (status d, completedAt d) = (ProgressStatus.NOT_STARTED, None)).
  { subst r2 r1. destruct (req_user req) as [user|] eqn:Hu.
    - destruct (model_reset_returns (user_id user) (params_problemId req) db)
        as (db' & o & Hf).
      rewrite (resetProgress_run env1 req db user db' o Hu Hf). cbn [fst snd].
      split.
      + apply (resetProgress_run env2 req db' user db' o Hu).
        exact (model_reset_idempotent _ _ _ _ _ Hf).
      + intros res d [= <-] Hd. destruct o as [d'|]; [|discriminate Hd].
        injection Hd as ->. revert Hf. unfold resetProgress, findOneAndUpdate.
        destruct (update_first _ _ _ _ _) as [[d1 l']|] eqn:Hup; [|discriminate].
        intros [= <- <-].
        destruct (update_first_Some _ _ _ _ _ _ _ Hup)
          as (pre & d0 & post & _ & _ & _ & -> & ->).
        split; [|reflexivity]. cbn [userProgress].
        apply elem_of_app. right. apply elem_of_cons. left. reflexivity.
    - unfold ProgressController.resetProgress, currentUser. rewrite Hu.
      split; [reflexivity|]. intros res d F. discriminate F. }
  destruct E as [-> Hd].
  split; [apply same_fields_refl|]. split; [reflexivity|]. split; [|exact Hd].
  unfold same_answer. destruct (snd r1) as [e|res]; [reflexivity|].
  split; [reflexivity|].
  destruct (res_data res); try reflexivity.
  split; [reflexivity|]. split; reflexivity.
Qed.

(** X13: update-status with the status completed is mark-complete under
    another message: the same database results, and the same record or the
    same error is returned. *)
Theorem updateProgress_completed_is_markComplete env req db :
  body_status req = ProgressStatus.COMPLETED ->
  fst (ProgressController.updateProgress env req db)
  = fst (ProgressController.markComplete env req db)
  /\ snd (ProgressController.updateProgress env req db)
     = match snd (ProgressController.markComplete env req db) with
       | inl e => inl e
       | inr res => inr (success 200 "Progress updated successfully" (res_data res))
       end.
Proof.
  intros Hst. destruct (req_user req) as [user|] eqn:Hu.
  - unfold ProgressController.updateProgress, ProgressController.markComplete.
    rewrite !(bind_returns _ _ _ _ _ (currentUser_Some req db user Hu)).
    cbv zeta. unfold Problem.findById. rewrite !bind_gets.
    destruct (negb (ProgressController.usable (problems db !! params_problemId req)));
      [split; reflexivity|].
    unfold ProgressController.upsertStatus. rewrite Hst.
    rewrite bool_decide_eq_true_2 by reflexivity.
    unfold bind.
    destruct (markCompleted env (user_id user) (params_problemId req) db)
      as [db' [e|[d|]]]; split; reflexivity.
  - unfold ProgressController.updateProgress, ProgressController.markComplete,
      currentUser. rewrite Hu. split; reflexivity.
Qed.

Lemma updateProgress_run env req db user db' d :
  req_user req = Some user ->
  ProgressController.usable (problems db !! params_problemId req) = true ->
  ProgressController.upsertStatus env (user_id user) (params_problemId req)
    (body_status req) db = (db', inr (Some d)) ->
  ProgressController.updateProgress env req db
  = (db', inr (success 200 "Progress updated successfully" (ProgressData d))).
Proof.
  intros Hu Hp Hf. unfold ProgressController.updateProgress.
  rewrite (bind_returns _ _ _ _ _ (currentUser_Some req db user Hu)).
  cbv zeta. unfold Problem.findById. rewrite bind_gets, Hp. cbn [negb].
  rewrite (bind_returns _ _ _ _ _ Hf). reflexivity.
Qed.

(** X14: update-status to not-started and reset agree on a pair that has
    a record (same database, same record returned) and differ on a pair
    that has none: reset leaves the ledger alone, update-status inserts a
    not-started record without completion date. *)
Theorem updateProgress_not_started_vs_reset env req db user :
  req_user req = Some user ->
  ProgressController.usable (problems db !! params_problemId req) = true ->
  body_status req = ProgressStatus.NOT_STARTED ->
  let uid := user_id user in
  let pid := params_problemId req in
  (0 < count_pair uid pid (userProgress db) ->
   fst (ProgressController.updateProgress env req db)
   = fst (ProgressController.resetProgress env req db)
   /\ exists d,
        snd (ProgressController.updateProgress env req db)
        = inr (success 200 "Progress updated successfully" (ProgressData d))
        /\ snd (ProgressController.resetProgress env req db)
           = inr (success 200 "Progress reset successfully" (ProgressData d)))
  /\ (count_pair uid pid (userProgress db) = 0 ->
      fst (ProgressController.resetProgress env req db) = db
      /\ userProgress (fst (ProgressController.updateProgress env req db))
         = userProgress db
           ++ [mkUserProgress (nextId db) uid pid ProgressStatus.NOT_STARTED None]).
Proof.
  intros Hu Hp Hst uid pid.
  assert (Hup : ProgressController.upsertStatus env uid pid (body_status req)
                = findOneAndUpdate uid pid ProgressStatus.NOT_STARTED None true).
  { unfold ProgressController.upsertStatus. rewrite Hst.
    rewrite bool_decide_eq_false_2 by discriminate. reflexivity. }
  destruct (update_first uid pid ProgressStatus.NOT_STARTED None (userProgress db))
    as [[d l']|] eqn:Hf.
  - assert (Hr : resetProgress uid pid db
                 = (mkDb (users db) (problems db) l' (adminLogs db) (nextId db),
                    inr (Some d))).
    { unfold resetProgress, findOneAndUpdate. rewrite Hf. reflexivity. }
    assert (Hw : ProgressController.upsertStatus env uid pid (body_status req) db
                 = (mkDb (users db) (problems db) l' (adminLogs db) (nextId db),
                    inr (Some d))).
    { rewrite Hup. unfold findOneAndUpdate. rewrite Hf. reflexivity. }
    rewrite (updateProgress_run env req db user _ d Hu Hp Hw).
    rewrite (resetProgress_run env req db user _ _ Hu Hr).
    split.
    + intros _. split; [reflexivity|]. exists d. split; reflexivity.
    + intros H0. apply (update_first_None _ _ ProgressStatus.NOT_STARTED None) in H0.
      congruence.
  - assert (Hr : resetProgress uid pid db = (db, inr None)).
    { unfold resetProgress, findOneAndUpdate. rewrite Hf. reflexivity. }
    assert (Hw : ProgressController.upsertStatus env uid pid (body_status req) db
                 = (mkDb (users db) (problems db)
                      (userProgress db
                       ++ [mkUserProgress (nextId db) uid pid
                             ProgressStatus.NOT_STARTED None])
                      (adminLogs db) (S (nextId db)),
                    inr (Some (mkUserProgress (nextId db) uid pid
                                 ProgressStatus.NOT_STARTED None)))).
    { rewrite Hup. unfold findOneAndUpdate. rewrite Hf. reflexivity. }
    rewrite (updateProgress_run env req db user _ _ Hu Hp Hw).
    rewrite (resetProgress_run env req db user _ _ Hu Hr).
    split.
    + intros Hpos. apply update_first_None in Hf. lia.
    + intros _. split; reflexivity.
Qed.

(** X15: complete, reset, complete again, for any account and any active
    problem: the three answers are one record (same [_id], same key),
    completed with the date of the first call, then not started with no
    date, then completed with the date of the third call; no record is
    added after the first call. *)
Theorem complete_reset_complete_general env1 env2 env3 req db user :
  req_user req = Some user ->
  ProgressController.usable (problems db !! params_problemId req) = true ->
  exists db1 db2 db3 d1 d2 d3,
    ProgressController.markComplete env1 req db
    = (db1, inr (success 200 "Problem marked as completed" (ProgressData d1)))
    /\ ProgressController.resetProgress env2 req db1
       = (db2, inr (success 200 "Progress reset successfully" (ProgressData d2)))
    /\ ProgressController.markComplete env3 req db2
       = (db3, inr (success 200 "Problem marked as completed" (ProgressData d3)))
    /\ identity d2 = identity d1 /\ identity d3 = identity d1
    /\ (userId d1, problemId d1) = (user_id user, params_problemId req)
    /\ (status d1, completedAt d1) = (ProgressStatus.COMPLETED, Some (now env1))
    /\ (status d2, completedAt d2) = (ProgressStatus.NOT_STARTED, None)
    /\ (status d3, completedAt d3) = (ProgressStatus.COMPLETED, Some (now env3))
    /\ d3 ∈ userProgress db3
    /\ length (userProgress db2) = length (userProgress db1)
    /\ length (userProgress db3) = length (userProgress db1).
Proof.
  intros Hu Hp.
  set (uid := user_id user). set (pid := params_problemId req).
  destruct (findOneAndUpdate_upsert uid pid ProgressStatus.COMPLETED
              (Some (now env1)) db)
    as (pre & d1 & post & n & Hf1 & Hpre & Hd1 & Hst1 & Hc1).
  set (d2 := apply_update ProgressStatus.NOT_STARTED None d1).
  set (d3 := apply_update ProgressStatus.COMPLETED (Some (now env3)) d2).
  set (mk := fun d => mkDb (users db) (problems db) (pre ++ d :: post) (adminLogs db) n).
  assert (Hf2 : resetProgress uid pid (mk d1) = (mk d2, inr (Some d2))).
  { unfold resetProgress, findOneAndUpdate, mk. cbn [userProgress].
    rewrite (update_first_at uid pid _ _ pre d1 post Hpre Hd1). reflexivity. }
  assert (Hf3 : findOneAndUpdate uid pid ProgressStatus.COMPLETED
                  (Some (now env3)) true (mk d2) = (mk d3, inr (Some d3))).
  { unfold findOneAndUpdate, mk. cbn [userProgress].
    rewrite (update_first_at uid pid _ _ pre d2 post Hpre Hd1). reflexivity. }
  apply matches_true in Hd1. destruct Hd1 as [Hd1u Hd1p].
  exists (mk d1), (mk d2), (mk d3), d1, d2, d3.
  split; [exact (markComplete_run env1 req db user (mk d1) d1 Hu Hp Hf1)|].
  split; [exact (resetProgress_run env2 req (mk d1) user (mk d2) (Some d2) Hu Hf2)|].
  split; [exact (markComplete_run env3 req (mk d2) user (mk d3) d3 Hu Hp Hf3)|].
  split; [reflexivity|]. split; [reflexivity|].
  split; [f_equal; assumption|].
  split; [f_equal; assumption|].
  split; [reflexivity|]. split; [reflexivity|].
  split; [unfold mk; cbn [userProgress]; apply elem_of_app; right;
          apply elem_of_cons; left; reflexivity|].
  unfold mk; cbn [userProgress]; rewrite !length_app; split; reflexivity.
Qed.

End ProgressComposition.

(** ** An accepted batch *)

Section AcceptedBatch.
Import UserProgress.
Local Open Scope nat_scope.

(** When the catalog returns as many problems as identifiers were asked
    for, the identifiers are pairwise distinct and each names an active
    problem. *)
Lemma find_active_in_full (ids : list string) (db : Db) :
  length (filter (fun kp : string * IProblem =>
                    bool_decide (kp.1 ∈ ids) && problem_isActive kp.2 = true)
                 (map_to_list (problems db))) = length ids ->
  NoDup ids
  /\ forall id, id ∈ ids -> ProgressController.usable (problems db !! id) = true.
Proof.
  set (P := fun kp : string * IProblem =>
              bool_decide (kp.1 ∈ ids) && problem_isActive kp.2 = true).
  set (found := filter P (map_to_list (problems db))).
  set (V := filter (fun id => ProgressController.usable (problems db !! id) = true) ids).
  intros Hlen.
  assert (Hnd : NoDup (found.*1)).
  { apply (sublist_NoDup _ ((map_to_list (problems db)).*1)).
    - apply NoDup_fst_map_to_list.
    - apply fmap_sublist, sublist_filter. }
  assert (Hsub : forall k, k ∈ found.*1 -> k ∈ V).
  { intros k Hk. apply list_elem_of_fmap in Hk. destruct Hk as ([k' p] & -> & Hkp).
    apply list_elem_of_filter in Hkp. destruct Hkp as [HP Hm].
    apply elem_of_map_to_list in Hm. unfold P in HP. simpl in HP.
    apply andb_true_iff in HP. destruct HP as [Hk' Hact].
    apply bool_decide_eq_true in Hk'.
    apply list_elem_of_filter. split; [|exact Hk'].
    simpl. rewrite Hm. exact Hact. }
  assert (HsubI : forall k, k ∈ found.*1 -> k ∈ ids).
  { intros k Hk. apply Hsub in Hk. apply list_elem_of_filter in Hk. tauto. }
  assert (Hms : found.*1 ⊆+ ids) by (apply NoDup_submseteq; assumption).
  assert (Hperm : found.*1 ≡ₚ ids).
  { apply submseteq_length_Permutation; [exact Hms|].
    rewrite length_fmap. fold found in Hlen. lia. }
  split.
  - rewrite <- Hperm. exact Hnd.
  - intros id Hid. rewrite <- Hperm in Hid. apply Hsub in Hid.
    apply list_elem_of_filter in Hid. tauto.
Qed.

Lemma findOneAndUpdate_keeps_member uid pid st cAt upsert db d :
  d ∈ userProgress db ->
  matches uid pid d = false ->
  d ∈ userProgress (fst (findOneAndUpdate uid pid st cAt upsert db)).
Proof.
  intros Hd Hm.
  destruct (findOneAndUpdate_step uid pid st cAt upsert db)
    as (_ & _ & _ & [(pre & d0 & post & Hl & Hd0 & Hl')|[[_ Hl']| ->]]).
  - rewrite Hl'. rewrite Hl in Hd.
    apply elem_of_app in Hd. apply elem_of_app.
    destruct Hd as [Hd|Hd]; [left; exact Hd|right].
    apply elem_of_cons in Hd. apply elem_of_cons.
    destruct Hd as [->|Hd]; [congruence|right; exact Hd].
  - rewrite Hl'. apply elem_of_app. left. exact Hd.
  - exact Hd.
Qed.

(** What one upsert of a batch (or of update-status) leaves. *)
Lemma upsertStatus_result env uid pid st db :
  exists db' d,
    ProgressController.upsertStatus env uid pid st db = (db', inr (Some d))
    /\ problems db' = problems db
    /\ d ∈ userProgress db'
    /\ matches uid pid d = true
    /\ status d = st
    /\ completedAt d
       = (if bool_decide (st = ProgressStatus.COMPLETED)
          then Some (now env) else None)
    /\ forall d', d' ∈ userProgress db -> matches uid pid d' = false ->
                  d' ∈ userProgress db'.
Proof.
  unfold ProgressController.upsertStatus, markCompleted.
  destruct (bool_decide (st = ProgressStatus.COMPLETED)) eqn:Hst.
  - apply bool_decide_eq_true in Hst. subst st.
    destruct (findOneAndUpdate_upsert uid pid ProgressStatus.COMPLETED
                (Some (now env)) db)
      as (pre & d & post & n & Hf & _ & Hd & Hs & Hc).
    eexists _, d. split; [exact Hf|]. repeat split; auto.
    + cbn [userProgress]. apply elem_of_app. right. apply elem_of_cons. left.
      reflexivity.
    + intros d' Hd' Hm'.
      pose proof (findOneAndUpdate_keeps_member uid pid ProgressStatus.COMPLETED
                    (Some (now env)) true db d' Hd' Hm') as Hk.
      rewrite Hf in Hk. exact Hk.
  - destruct (findOneAndUpdate_upsert uid pid st None db)
      as (pre & d & post & n & Hf & _ & Hd & Hs & Hc).
    eexists _, d. split; [exact Hf|]. repeat split; auto.
    + cbn [userProgress]. apply elem_of_app. right. apply elem_of_cons. left.
      reflexivity.
    + intros d' Hd' Hm'.
      pose proof (findOneAndUpdate_keeps_member uid pid st None true db d' Hd' Hm')
        as Hk.
      rewrite Hf in Hk. exact Hk.
Qed.

Lemma forEach_upserts env uid (updates : list ProgressUpdate) db :
  exists db' results,
    ProgressController.forEach
      (fun u => ProgressController.upsertStatus env uid (upd_problemId u) (upd_status u))
      updates db = (db', inr results)
    /\ length results = length updates
    /\ (forall d, d ∈ userProgress db ->
          (forall u, u ∈ updates -> matches uid (upd_problemId u) d = false) ->
          d ∈ userProgress db')
    /\ (NoDup (map upd_problemId updates) ->
        forall u, u ∈ updates ->
          exists d, d ∈ userProgress db'
                    /\ matches uid (upd_problemId u) d = true
                    /\ status d = upd_status u
                    /\ completedAt d
                       = (if bool_decide (upd_status u = ProgressStatus.COMPLETED)
                          then Some (now env) else None)).
Proof.
  revert db. induction updates as [|u rest IH]; intros db.
  - exists db, []. repeat split; auto.
    intros _ u Hu. apply elem_of_nil in Hu. contradiction.
  - destruct (upsertStatus_result env uid (upd_problemId u) (upd_status u) db)
      as (db1 & du & Hf & _ & Hdu & Hmu & Hsu & Hcu & Hkeep).
    destruct (IH db1) as (db' & results & Hrest & Hlen & Hmem & Hall).
    exists db', (Some du :: results). split; [|split; [|split]].
    + cbn [ProgressController.forEach].
      rewrite (bind_returns _ _ _ _ _ Hf), (bind_returns _ _ _ _ _ Hrest).
      reflexivity.
    + simpl. rewrite Hlen. reflexivity.
    + intros d Hd Hnone. apply Hmem.
      * apply Hkeep; [exact Hd|]. apply Hnone. apply elem_of_cons. left. reflexivity.
      * intros u' Hu'. apply Hnone. apply elem_of_cons. right. exact Hu'.
    + intros Hnd u' Hu'. cbn [map] in Hnd. apply NoDup_cons in Hnd.
      destruct Hnd as [Hnotin Hnd].
      apply elem_of_cons in Hu'. destruct Hu' as [->|Hu'].
      * exists du. split; [|auto]. apply Hmem; [exact Hdu|].
        intros u' Hu'. apply matches_true in Hmu. destruct Hmu as [_ Hp].
        unfold matches. rewrite Hp.
        rewrite (bool_decide_eq_false_2 (upd_problemId u = upd_problemId u')).
        -- apply andb_false_r.
        -- intros Heq. apply Hnotin. rewrite Heq.
           apply list_elem_of_fmap. exists u'. split; [reflexivity|exact Hu'].
      * apply (Hall Hnd u' Hu').
Qed.

(** X16: a batch that is accepted names pairwise distinct, active
    problems, reports as many updates as it was given, and leaves, for
    every update, a record of the caller for that problem with the status
    asked for, dated with the time of the call when completed and undated
    otherwise. *)
Theorem batchUpdateProgress_accepted env req db db' res :
  ProgressController.batchUpdateProgress env req db = (db', inr res) ->
  exists user,
    req_user req = Some user
    /\ NoDup (map upd_problemId (body_updates req))
    /\ (forall u, u ∈ body_updates req ->
          ProgressController.usable (problems db !! upd_problemId u) = true)
    /\ res_data res = UpdatedCount (length (body_updates req))
    /\ forall u, u ∈ body_updates req ->
         exists d, d ∈ userProgress db'
                   /\ (userId d, problemId d) = (user_id user, upd_problemId u)
                   /\ status d = upd_status u
                   /\ completedAt d
                      = (if bool_decide (upd_status u = ProgressStatus.COMPLETED)
                         then Some (now env) else None).
Proof.
  unfold ProgressController.batchUpdateProgress.
  destruct (req_user req) as [user|] eqn:Hu.
  - rewrite (bind_returns _ _ _ _ _ (currentUser_Some req db user Hu)).
    cbv zeta. unfold Problem.find_active_in. rewrite bind_gets.
    destruct (bool_decide (length _ = length _)) eqn:Hlen; [|discriminate].
    apply bool_decide_eq_true in Hlen.
    destruct (find_active_in_full _ db Hlen) as [Hnd Hact].
    destruct (forEach_upserts env (user_id user) (body_updates req) db)
      as (db1 & results & Hf & Hl & _ & Hall).
    cbn [negb]. rewrite (bind_returns _ _ _ _ _ Hf). intros [= <- <-].
    exists user. split; [reflexivity|]. split; [exact Hnd|]. split; [|split].
    + intros u Hin. apply Hact. apply list_elem_of_fmap. exists u. auto.
    + cbn [res_data success]. rewrite Hl. reflexivity.
    + intros u Hin. destruct (Hall Hnd u Hin) as (d & Hd & Hm & Hs & Hc).
      exists d. apply matches_true in Hm. destruct Hm as [-> ->]. auto.
  - unfold currentUser, bind, throw. rewrite Hu. discriminate.
Qed.

End AcceptedBatch.

(** ** Reading the ledger back *)

Section ReadingBack.
Import UserProgress.
Local Open Scope nat_scope.

Lemma getCompletedProblemIds_run req db user :
  req_user req = Some user ->
  AuthController.getCompletedProblemIds req db
  = (db, inr (completed_by (user_id user) db,
              length (completed_by (user_id user) db))).
Proof.
  intros Hu. unfold AuthController.getCompletedProblemIds.
  rewrite (bind_returns _ _ _ _ _ (currentUser_Some req db user Hu)).
  reflexivity.
Qed.

Lemma elem_of_completed_by uid q db :
  q ∈ completed_by uid db
  <-> exists d, d ∈ userProgress db /\ userId d = uid
                /\ status d = ProgressStatus.COMPLETED /\ problemId d = q.
Proof.
  unfold completed_by. rewrite list_elem_of_fmap. split.
  - intros (d & -> & Hd). apply list_elem_of_filter in Hd.
    destruct Hd as [[Hu Hs] Hd]. exists d. auto.
  - intros (d & Hd & Hu & Hs & Hq). exists d. split; [auto|].
    apply list_elem_of_filter. auto.
Qed.

(** Documents of other pairs are neither added nor removed by a write. *)
Lemma findOneAndUpdate_others uid pid st cAt upsert db d :
  matches uid pid d = false ->
  d ∈ userProgress (fst (findOneAndUpdate uid pid st cAt upsert db))
  <-> d ∈ userProgress db.
Proof.
  intros Hm.
  destruct (findOneAndUpdate_step uid pid st cAt upsert db)
    as (_ & _ & _ & [(pre & d0 & post & Hl & Hd0 & Hl')|[[_ Hl']| ->]]).
  - rewrite Hl', Hl. rewrite !elem_of_app, !elem_of_cons.
    assert (d <> d0) by congruence.
    assert (d <> apply_update st cAt d0).
    { intros ->. rewrite matches_apply_update in Hm. congruence. }
    tauto.
  - rewrite Hl', elem_of_app, elem_of_cons, elem_of_nil.
    assert (d <> mkUserProgress (nextId db) uid pid st cAt).
    { intros ->. rewrite matches_fresh in Hm. discriminate. }
    tauto.
  - reflexivity.
Qed.

Lemma completed_by_other_problem uid pid st cAt upsert db q :
  q <> pid ->
  q ∈ completed_by uid (fst (findOneAndUpdate uid pid st cAt upsert db))
  <-> q ∈ completed_by uid db.
Proof.
  intros Hq. rewrite !elem_of_completed_by.
  split; intros (d & Hd & Hu & Hs & Hp); exists d; (split; [|auto]);
    (assert (Hm : matches uid pid d = false);
     [unfold matches; rewrite (bool_decide_eq_false_2 (problemId d = pid)) by congruence;
      apply andb_false_r|]).
  - apply (findOneAndUpdate_others uid pid st cAt upsert db d Hm). exact Hd.
  - apply (findOneAndUpdate_others uid pid st cAt upsert db d Hm). exact Hd.
Qed.

(** X17: what [getCompletedProblemIds] returns follows the caller's
    marks.  After a successful mark-complete the problem is in the list;
    after a reset, in a ledger with at most one record for the pair, it is
    not; in both cases every other problem is in the list exactly if it
    was before. *)
Theorem completed_ids_follow_marks env req db user :
  req_user req = Some user ->
  let uid := user_id user in
  let pid := params_problemId req in
  (ProgressController.usable (problems db !! pid) = true ->
   let db' := fst (ProgressController.markComplete env req db) in
   exists ids,
     AuthController.getCompletedProblemIds req db' = (db', inr (ids, length ids))
     /\ pid ∈ ids
     /\ forall q, q <> pid -> (q ∈ ids <-> q ∈ completed_by uid db))
  /\ (count_pair uid pid (userProgress db) <= 1 ->
      let db' := fst (ProgressController.resetProgress env req db) in
      exists ids,
        AuthController.getCompletedProblemIds req db' = (db', inr (ids, length ids))
        /\ (pid ∉ ids)
        /\ forall q, q <> pid -> (q ∈ ids <-> q ∈ completed_by uid db)).
Proof.
  intros Hu uid pid. split.
  - intros Hp db'.
    destruct (findOneAndUpdate_upsert uid pid ProgressStatus.COMPLETED
                (Some (now env)) db)
      as (pre & d & post & n & Hf & _ & Hd & Hs & _).
    assert (Hdb' : db' = fst (findOneAndUpdate uid pid ProgressStatus.COMPLETED
                                (Some (now env)) true db)).
    { unfold db'. rewrite (markComplete_run env req db user _ d Hu Hp Hf), Hf.
      reflexivity. }
    exists (completed_by uid db'). split; [apply getCompletedProblemIds_run, Hu|].
    split.
    + apply elem_of_completed_by. exists d. apply matches_true in Hd.
      destruct Hd as [Hdu Hdp]. rewrite Hdb', Hf. cbn [fst userProgress].
      split; [|auto].
      apply elem_of_app. right. apply elem_of_cons. left. reflexivity.
    + intros q Hq. rewrite Hdb'. apply completed_by_other_problem, Hq.
  - intros H1 db'.
    destruct (model_reset_returns uid pid db) as (db1 & o & Hf).
    assert (Hdb' : db' = fst (findOneAndUpdate uid pid ProgressStatus.NOT_STARTED
                                None false db)).
    { unfold db'. rewrite (resetProgress_run env req db user db1 o Hu Hf).
      unfold resetProgress in Hf. rewrite Hf. reflexivity. }
    exists (completed_by uid db'). split; [apply getCompletedProblemIds_run, Hu|].
    split.
    + rewrite elem_of_completed_by. intros (d & Hd & Hdu & Hds & Hdp).
      rewrite Hdb' in Hd.
      destruct (findOneAndUpdate_step uid pid ProgressStatus.NOT_STARTED None
                  false db)
        as (_ & _ & _ & [(pre & d0 & post & Hl & Hd0 & Hl')|[[H0 Hl']|Hsame]]).
      * rewrite Hl' in Hd. rewrite Hl in H1.
        rewrite count_pair_app, count_pair_cons, Hd0 in H1.
        assert (Hpre : count_pair uid pid pre = 0) by lia.
        assert (Hpost : count_pair uid pid post = 0) by lia.
        apply count_pair_none in Hpre, Hpost.
        assert (Hm : matches uid pid d = true) by (apply matches_true; auto).
        apply elem_of_app in Hd. destruct Hd as [Hd|Hd].
        -- rewrite Forall_forall in Hpre. specialize (Hpre d Hd). congruence.
        -- apply elem_of_cons in Hd. destruct Hd as [->|Hd].
           ++ discriminate Hds.
           ++ rewrite Forall_forall in Hpost. specialize (Hpost d Hd). congruence.
      * rewrite Hl' in Hd. apply count_pair_none in H0.
        assert (Hm : matches uid pid d = true) by (apply matches_true; auto).
        apply elem_of_app in Hd. destruct Hd as [Hd|Hd].
        -- rewrite Forall_forall in H0. specialize (H0 d Hd). congruence.
        -- apply elem_of_cons in Hd. destruct Hd as [->|Hd];
             [discriminate Hds|]. apply elem_of_nil in Hd. exact Hd.
      * rewrite Hsame in Hd.
        destruct (update_first uid pid ProgressStatus.NOT_STARTED None
                    (userProgress db)) as [[dd ll]|] eqn:Hup.
        -- (* a record was found, so the database did change in place *)
           destruct (update_first_Some _ _ _ _ _ _ _ Hup)
             as (pre & d0 & post & Hl & Hpre & Hd0 & -> & ->).
           rewrite Hl in H1, Hd.
           rewrite count_pair_app, count_pair_cons, Hd0 in H1.
           assert (Hpost : count_pair uid pid post = 0) by lia.
           apply count_pair_none in Hpost.
           assert (Hm : matches uid pid d = true) by (apply matches_true; auto).
           assert (Heq : userProgress db
                         = pre ++ apply_update ProgressStatus.NOT_STARTED None d0 :: post).
           { rewrite <- Hsame at 1. unfold findOneAndUpdate. rewrite Hup.
             reflexivity. }
           rewrite Hl in Heq. apply app_inv_head in Heq. injection Heq as Heq.
           apply elem_of_app in Hd. destruct Hd as [Hd|Hd].
           ++ rewrite Forall_forall in Hpre. specialize (Hpre d Hd). congruence.
           ++ apply elem_of_cons in Hd. destruct Hd as [->|Hd].
              ** rewrite Heq in Hds. discriminate Hds.
              ** rewrite Forall_forall in Hpost. specialize (Hpost d Hd). congruence.
        -- apply update_first_None, count_pair_none in Hup.
           assert (Hm : matches uid pid d = true) by (apply matches_true; auto).
           rewrite Forall_forall in Hup. specialize (Hup d Hd). congruence.
    + intros q Hq. rewrite Hdb'. apply completed_by_other_problem, Hq.
Qed.

End ReadingBack.

Section CompletionCount.
Import UserProgress.
Local Open Scope nat_scope.

Lemma completions_app pid l1 l2 :
  completions pid (l1 ++ l2) = completions pid l1 + completions pid l2.
Proof. unfold completions. rewrite filter_app, length_app. reflexivity. Qed.

Lemma completions_cons pid d l :
  completions pid (d :: l)
  = (if decide (problemId d = pid /\ status d = ProgressStatus.COMPLETED)
     then 1 else 0) + completions pid l.
Proof.
  unfold completions. rewrite filter_cons.
  destruct (decide _); reflexivity.
Qed.

Lemma completions_cons_le pid d l :
  completions pid l <= completions pid (d :: l) <= S (completions pid l).
Proof. rewrite completions_cons. destruct (decide _); lia. Qed.

Lemma getCompletionCount_run pid db :
  ProgressModel.getCompletionCount pid db
  = (db, inr (completions pid (userProgress db))).
Proof. reflexivity. Qed.

(** X18: marking a problem complete raises its completion count by at most
    one and never lowers it; marking it again, at any later time, leaves
    the count where the first mark put it; the counts of all other
    problems are unaffected. *)
Theorem completion_count_after_marks env1 env2 uid pid db :
  let db1 := fst (markCompleted env1 uid pid db) in
  let db2 := fst (markCompleted env2 uid pid db1) in
  exists n n1,
    ProgressModel.getCompletionCount pid db = (db, inr n)
    /\ ProgressModel.getCompletionCount pid db1 = (db1, inr n1)
    /\ ProgressModel.getCompletionCount pid db2 = (db2, inr n1)
    /\ n <= n1 <= n + 1
    /\ forall q, q <> pid ->
         snd (ProgressModel.getCompletionCount q db2)
         = snd (ProgressModel.getCompletionCount q db).
Proof.
  intros db1 db2.
  destruct (findOneAndUpdate_upsert uid pid ProgressStatus.COMPLETED
              (Some (now env1)) db)
    as (pre & d1 & post & n & Hf1 & Hpre & Hd1 & Hs1 & _).
  set (d2 := apply_update ProgressStatus.COMPLETED (Some (now env2)) d1).
  assert (Hdb1 : userProgress db1 = pre ++ d1 :: post).
  { unfold db1, markCompleted. rewrite Hf1. reflexivity. }
  assert (Hdb2 : userProgress db2 = pre ++ d2 :: post).
  { unfold db2, markCompleted, findOneAndUpdate. rewrite Hdb1.
    rewrite (update_first_at uid pid _ _ pre d1 post Hpre Hd1). reflexivity. }
  pose proof (matches_true uid pid d1) as Hm. apply Hm in Hd1.
  destruct Hd1 as [Hd1u Hd1p].
  exists (completions pid (userProgress db)), (completions pid (userProgress db1)).
  split; [reflexivity|]. split; [reflexivity|]. split; [|split].
  - rewrite getCompletionCount_run. f_equal. f_equal.
    rewrite Hdb1, Hdb2, !completions_app, !completions_cons.
    rewrite !decide_True; [reflexivity| |]; split; auto.
  - rewrite Hdb1.
    destruct (findOneAndUpdate_step uid pid ProgressStatus.COMPLETED
                (Some (now env1)) true db)
      as (_ & _ & _ & [(pre' & d0 & post' & Hl & Hd0 & Hl')|[[H0 Hl']|Hsame]]).
    + rewrite Hf1 in Hl'. cbn [fst userProgress] in Hl'.
      rewrite Hl', Hl, !completions_app.
      pose proof (completions_cons_le pid d0 post') as Hle.
      rewrite (completions_cons pid (apply_update _ _ d0)).
      apply matches_true in Hd0. destruct Hd0 as [_ Hd0p].
      rewrite decide_True by (split; [exact Hd0p|reflexivity]).
      revert Hle. generalize (completions pid (d0 :: post')). intros m Hle. lia.
    + rewrite Hf1 in Hl'. cbn [fst userProgress] in Hl'.
      rewrite Hl', completions_app, completions_cons.
      rewrite decide_True by (split; reflexivity).
      change (completions pid []) with 0. lia.
    + rewrite Hf1 in Hsame. cbn [fst] in Hsame. rewrite <- Hsame.
      cbn [userProgress]. lia.
  - intros q Hq. rewrite !getCompletionCount_run. cbn [snd]. f_equal.
    rewrite Hdb2.
    assert (Hno : forall d, problemId d = pid ->
                    ~ (problemId d = q /\ status d = ProgressStatus.COMPLETED))
      by (intros d Hd [Hd' _]; congruence).
    destruct (findOneAndUpdate_step uid pid ProgressStatus.COMPLETED
                (Some (now env1)) true db)
      as (_ & _ & _ & [(pre' & d0 & post' & Hl & Hd0 & Hl')|[[H0 Hl']|Hsame]]).
    + rewrite Hf1 in Hl'. cbn [fst userProgress] in Hl'.
      transitivity (completions q (pre ++ d1 :: post)).
      * rewrite !completions_app, !completions_cons.
        rewrite !decide_False; [reflexivity| |]; apply Hno; auto.
      * rewrite Hl', Hl, !completions_app, !completions_cons.
        apply matches_true in Hd0. destruct Hd0 as [_ Hd0p].
        rewrite !decide_False; [reflexivity| |]; apply Hno; auto.
    + rewrite Hf1 in Hl'. cbn [fst userProgress] in Hl'.
      transitivity (completions q (pre ++ d1 :: post)).
      * rewrite !completions_app, !completions_cons.
        rewrite !decide_False; [reflexivity| |]; apply Hno; auto.
      * rewrite Hl', completions_app, completions_cons.
        rewrite decide_False by (apply Hno; reflexivity).
        change (completions q []) with 0. lia.
    + rewrite Hf1 in Hsame. cbn [fst] in Hsame. rewrite <- Hsame.
      cbn [userProgress].
      rewrite !completions_app, !completions_cons.
      rewrite !decide_False; [reflexivity| |]; apply Hno; auto.
Qed.

End CompletionCount.

(** ** The save hook and find-or-create *)

Section FindOrCreate.
Import UserProgress.
Local Open Scope nat_scope.

(** X19: whatever document it is given, the save hook returns a document
    that has a completion date exactly when it is completed; it touches
    nothing but the date, keeps a date a completed document already has,
    and running it again changes nothing. *)
Theorem preSave_normalises env env' d :
  well_dated (ProgressModel.preSave env d)
  /\ identity (ProgressModel.preSave env d) = identity d
  /\ status (ProgressModel.preSave env d) = status d
  /\ (status d = ProgressStatus.COMPLETED ->
      forall t, completedAt d = Some t ->
                completedAt (ProgressModel.preSave env d) = Some t)
  /\ ProgressModel.preSave env' (ProgressModel.preSave env d)
     = ProgressModel.preSave env d.
Proof.
  destruct d as [i u p st cAt]. unfold ProgressModel.preSave, well_dated, identity.
  destruct st, cAt as [t|]; cbv -[Z.add Z.mul now];
    repeat split; intros; try congruence; try discriminate.
Qed.

Lemma find_matches_None uid pid l :
  List.find (matches uid pid) l = None <-> count_pair uid pid l = 0.
Proof.
  induction l as [|x rest IH]; simpl; [split; reflexivity|].
  rewrite count_pair_cons. destruct (matches uid pid x); simpl.
  - split; discriminate.
  - exact IH.
Qed.

Lemma find_matches_Some uid pid l d :
  List.find (matches uid pid) l = Some d ->
  d ∈ l /\ matches uid pid d = true.
Proof.
  intros H. apply List.find_some in H. destruct H as [Hin Hm].
  split; [apply list_elem_of_In; exact Hin|exact Hm].
Qed.

Lemma find_matches_snoc uid pid l d :
  List.find (matches uid pid) l = None ->
  matches uid pid d = true ->
  List.find (matches uid pid) (l ++ [d]) = Some d.
Proof.
  intros Hn Hm. induction l as [|x rest IH]; simpl in *.
  - rewrite Hm. reflexivity.
  - destruct (matches uid pid x); [discriminate|]. apply IH, Hn.
Qed.

Lemma find_matches_existsb uid pid l :
  List.find (matches uid pid) l = None -> existsb (matches uid pid) l = false.
Proof.
  induction l as [|x rest IH]; simpl; [reflexivity|].
  destruct (matches uid pid x); [discriminate|exact IH].
Qed.

(** X20: find-or-create returns a record of the pair that is stored.  If
    the pair had a record, the database is unchanged; if it had none,
    exactly one record is appended, not started and undated.  A second
    find-or-create returns the same record and changes nothing, and no
    pair gets more records than it had unless it had none. *)
Theorem findOrCreate_behaviour env env' uid pid db :
  exists db1 d,
    ProgressModel.findOrCreate env uid pid db = (db1, inr d)
    /\ d ∈ userProgress db1
    /\ (userId d, problemId d) = (uid, pid)
    /\ ProgressModel.findOrCreate env' uid pid db1 = (db1, inr d)
    /\ (0 < count_pair uid pid (userProgress db) -> db1 = db)
    /\ (count_pair uid pid (userProgress db) = 0 ->
        userProgress db1 = userProgress db ++ [d]
        /\ (status d, completedAt d) = (ProgressStatus.NOT_STARTED, None))
    /\ forall u p, count_pair u p (userProgress db1)
                   <= Nat.max 1 (count_pair u p (userProgress db)).
Proof.
  unfold ProgressModel.findOrCreate, ProgressModel.findOne.
  rewrite bind_gets.
  destruct (List.find (matches uid pid) (userProgress db)) as [d|] eqn:Hf.
  - destruct (find_matches_Some _ _ _ _ Hf) as [Hin Hm].
    exists db, d. split; [reflexivity|]. split; [exact Hin|].
    apply matches_true in Hm. destruct Hm as [Hu Hp].
    split; [f_equal; assumption|]. split; [|split; [|split]].
    + rewrite bind_gets, Hf. reflexivity.
    + reflexivity.
    + intros H0. apply find_matches_None in H0. congruence.
    + intros u p. lia.
  - set (d := mkUserProgress (nextId db) uid pid ProgressStatus.NOT_STARTED None).
    assert (Hc : ProgressModel.create env uid pid ProgressStatus.NOT_STARTED db
                 = (mkDb (users db) (problems db) (userProgress db ++ [d])
                      (adminLogs db) (S (nextId db)), inr d)).
    { unfold ProgressModel.create.
      rewrite (find_matches_existsb uid pid _ Hf). reflexivity. }
    rewrite Hc. eexists _, d. split; [reflexivity|]. cbn [userProgress].
    split; [apply elem_of_app; right; apply elem_of_cons; left; reflexivity|].
    split; [reflexivity|]. split; [|split; [|split]].
    + rewrite bind_gets. cbn [userProgress].
      rewrite (find_matches_snoc uid pid _ d Hf (matches_fresh _ _ _ _ _)).
      reflexivity.
    + intros Hpos. apply find_matches_None in Hf. lia.
    + intros _. split; reflexivity.
    + intros u p. rewrite count_pair_app, count_pair_cons, count_pair_nil.
      destruct (matches u p d) eqn:Hm; [|lia].
      apply matches_true in Hm. destruct Hm as [Hu Hp]. simpl in Hu, Hp.
      subst u p. apply find_matches_None in Hf. rewrite Hf. simpl. lia.
Qed.

End FindOrCreate.

(** ** More on the gate *)

Section GateSoundness.

(** X3: [authMiddleware] never writes, and it has exactly two outcomes: a
    401, or the request with an account attached that is stored under the
    identifier of a token the verifier accepted, and is active. *)
Theorem authMiddleware_sound env req db :
  (exists msg,
     authMiddleware env req db
     = (db, inl (ThrowApi (ApiErrors.unauthorized msg))))
  \/ (exists h token payload u,
        headers_authorization req = Some h
        /\ String.prefix "Bearer " h = true
        /\ split_on " " h !! 1%nat = Some token
        /\ jwt_verify env token = Decoded payload
        /\ users db !! jwt_userId payload = Some u
        /\ isActive u = true
        /\ authMiddleware env req db
           = (db, inr (set_req_user (mkUserDocument (jwt_userId payload) u) req))).
Proof.
  unfold authMiddleware.
  destruct (headers_authorization req) as [h|] eqn:Hh; [|left; eexists; reflexivity].
  destruct (String.prefix "Bearer " h) eqn:Hp; cbn [negb];
    [|left; eexists; reflexivity].
  destruct (split_on " " h !! 1%nat) as [[|c r]|] eqn:Hs;
    try (left; eexists; reflexivity).
  destruct (jwt_verify env (String c r)) as [payload| | |] eqn:Hv;
    try (left; eexists; reflexivity).
  unfold User.findById. rewrite bind_gets.
  destruct (users db !! jwt_userId payload) as [u|] eqn:Hu; cbn [fmap option_fmap option_map];
    [|left; eexists; reflexivity].
  cbn [user_fields]. destruct (isActive u) eqn:Ha; cbn [negb];
    [|left; eexists; reflexivity].
  right. exists h, (String c r), payload, u. repeat split; auto.
Qed.



Lemma optionalAuth_run env req db :
  optionalAuthMiddleware env req db
  = (db, inr match snd (authMiddleware env req db) with
             | inr req' => req'
             | inl _ => req
             end).
Proof.
  unfold optionalAuthMiddleware, authMiddleware.
  destruct (headers_authorization req) as [h|]; [|reflexivity].
  destruct (String.prefix "Bearer " h); cbn [negb]; [|reflexivity].
  destruct (split_on " " h !! 1%nat) as [[|c r]|]; try reflexivity.
  destruct (jwt_verify env (String c r)) as [payload| | |]; try reflexivity.
  unfold User.findById. rewrite !bind_gets.
  destruct (users db !! jwt_userId payload) as [u|];
    cbn [fmap option_fmap option_map]; [|reflexivity].
  cbn [user_fields]. destruct (isActive u); reflexivity.
Qed.

(** X5: [optionalAuthMiddleware] never throws and never writes; it
    attaches an account exactly when [authMiddleware] would have let the
    request through, the same account, and otherwise passes the request
    on as it came. *)
Theorem optionalAuthMiddleware_never_rejects env req db :
  exists req',
    optionalAuthMiddleware env req db = (db, inr req')
    /\ match authMiddleware env req db with
       | (_, inr accepted) => req' = accepted
       | (_, inl _) => req' = req
       end.
Proof.
  eexists. split; [apply optionalAuth_run|].
  destruct (authMiddleware env req db) as [db' [e|r]]; reflexivity.
Qed.

(** X6: [requireRoles([ADMIN])] lets through exactly the requests
    [adminMiddleware] lets through and refuses the others with the same
    status; [requireRoles] of both roles lets every authenticated request
    through, and [requireRoles([])] none. *)
Theorem requireRoles_cases req db :
  match adminMiddleware req db, requireRoles [UserRole.ADMIN] req db with
  | (db1, inr r1), (db2, inr r2) => db1 = db /\ db2 = db /\ r1 = req /\ r2 = req
  | (db1, inl (ThrowApi e1)), (db2, inl (ThrowApi e2)) =>
      db1 = db /\ db2 = db /\ statusCode e1 = statusCode e2
  | _, _ => False
  end
  /\ (is_Some (req_user req) ->
      requireRoles [UserRole.USER; UserRole.ADMIN] req db = (db, inr req))
  /\ (exists e, requireRoles [] req db = (db, inl (ThrowApi e))).
Proof.
  unfold adminMiddleware, requireRoles. split; [|split].
  - destruct (req_user req) as [user|]; [|cbn; auto].
    destruct (role (user_fields user)).
    + rewrite (bool_decide_eq_false_2 (UserRole.USER = UserRole.ADMIN))
        by discriminate.
      rewrite (bool_decide_eq_false_2 (UserRole.USER ∈ [UserRole.ADMIN]))
        by (intros H; apply list_elem_of_singleton in H; discriminate H).
      cbn. auto.
    + rewrite (bool_decide_eq_true_2 (UserRole.ADMIN = UserRole.ADMIN))
        by reflexivity.
      rewrite (bool_decide_eq_true_2 (UserRole.ADMIN ∈ [UserRole.ADMIN]))
        by (apply list_elem_of_singleton; reflexivity).
      cbn. auto.
  - intros [user Hu]. rewrite Hu.
    rewrite bool_decide_eq_true_2; [reflexivity|].
    destruct (role (user_fields user)); set_solver.
  - destruct (req_user req) as [user|]; eexists; reflexivity.
Qed.

(** X7: headers the gate refuses before it looks at any token.  A header
    that does not begin with "Bearer " (another scheme, another
    capitalisation, the empty string) is answered like a missing header;
    "Bearer " followed by nothing, or by a further space, is answered
    "Authentication token is missing." *)
Theorem authMiddleware_bad_header env req db h :
  headers_authorization req = Some h ->
  (String.prefix "Bearer " h = false ->
   authMiddleware env req db
   = (db, inl (ThrowApi (ApiErrors.unauthorized
                 "Authentication required. Please provide a valid token."))))
  /\ (forall rest,
        h = ("Bearer " +:+ rest)%string ->
        rest = EmptyString \/ (exists r, rest = String " " r) ->
        authMiddleware env req db
        = (db, inl (ThrowApi (ApiErrors.unauthorized
                      "Authentication token is missing.")))).
Proof.
  intros Hh. unfold authMiddleware. rewrite Hh. split.
  - intros Hp. rewrite Hp. reflexivity.
  - intros rest -> Hrest. rewrite prefix_bearer. cbn [negb].
    destruct Hrest as [->|[r ->]].
    + reflexivity.
    + change (split_on " " ("Bearer " +:+ String " " r))
        with ("Bearer"%string :: EmptyString :: split_on " " r).
      reflexivity.
Qed.

End GateSoundness.

(** ** The account handlers, case by case *)

Section AccountHandlers.

Lemma logAction_ok env a t e et md db :
  adminLogFault env = None ->
  AdminLog.logAction env a t e et md db
  = (set_adminLogs (fun l => l ++ [mkAdminLog a t e et md (now env)]) db,
     inr (mkAdminLog a t e et md (now env))).
Proof.
  intros H. unfold AdminLog.logAction, AdminLog.create. rewrite H. reflexivity.
Qed.

Ltac handler_written Hf :=
  unfold bind, User.save, modify, AdminLog.logAction, AdminLog.create;
  rewrite Hf; reflexivity.

(** Every outcome of an account handler is one of three: it threw before
    writing anything; it saved the change and logged it; it saved the
    change and the audit log failed. *)
Lemma admin_handler_outcome (a : AdminAction) env req db :
  (exists e, admin_handler a env req db = (db, inl e))
  \/ (exists admin u,
        req_user req = Some admin
        /\ users db !! params_id req = Some u
        /\ permitted a (user_id admin) (params_id req) u
        /\ ((exists md msg,
               adminLogFault env = None
               /\ admin_handler a env req db
                  = (set_adminLogs
                       (fun l => l ++ [mkAdminLog (user_id admin) (action_type a)
                                         (Some (params_id req))
                                         (Some EntityType.USER) md (now env)])
                       (saved (params_id req) (updated a u) db),
                     inr (success 200 msg
                            (UserData (mkUserDocument (params_id req)
                                         (updated a u))))))
            \/ (exists m,
                  adminLogFault env = Some m
                  /\ admin_handler a env req db
                     = (saved (params_id req) (updated a u) db,
                        inl (ThrowError m))))).
Proof.
  destruct (req_user req) as [admin|] eqn:Ha.
  2:{ left. eexists.
      destruct a; cbn [admin_handler];
        unfold UserController.promoteUser, UserController.demoteUser,
          UserController.deactivateUser, UserController.activateUser,
          currentUser; rewrite Ha; reflexivity. }
  destruct (users db !! params_id req) as [u|] eqn:Hu.
  2:{ left. eexists.
      destruct a; cbn [admin_handler];
        unfold UserController.promoteUser, UserController.demoteUser,
          UserController.deactivateUser, UserController.activateUser;
        rewrite (bind_returns _ _ _ _ _ (currentUser_Some req db admin Ha));
        unfold User.findById; rewrite bind_gets, Hu; reflexivity. }
  destruct a; cbn [admin_handler];
    unfold UserController.promoteUser, UserController.demoteUser,
      UserController.deactivateUser, UserController.activateUser;
    rewrite (bind_returns _ _ _ _ _ (currentUser_Some req db admin Ha));
    unfold User.findById; rewrite bind_gets, Hu;
    cbn [fmap option_fmap option_map user_fields user_id].
  - (* promote *)
    destruct (bool_decide (role u = UserRole.ADMIN)) eqn:Hr;
      [left; eexists; reflexivity|].
    apply bool_decide_eq_false in Hr.
    right. exists admin, u. split; [reflexivity|]. split; [reflexivity|].
    split; [cbn; destruct (role u); congruence|].
    destruct (adminLogFault env) as [m|] eqn:Hf.
    + right. exists m. split; [reflexivity|]. handler_written Hf.
    + left. eexists _, _. split; [reflexivity|]. handler_written Hf.
  - (* demote *)
    destruct (bool_decide (role u = UserRole.USER)) eqn:Hr;
      [left; eexists; reflexivity|].
    apply bool_decide_eq_false in Hr.
    destruct (bool_decide (params_id req = user_id admin)) eqn:Hs;
      [left; eexists; reflexivity|].
    apply bool_decide_eq_false in Hs.
    right. exists admin, u. split; [reflexivity|]. split; [reflexivity|].
    split; [cbn; split; [destruct (role u); congruence|exact Hs]|].
    destruct (adminLogFault env) as [m|] eqn:Hf.
    + right. exists m. split; [reflexivity|]. handler_written Hf.
    + left. eexists _, _. split; [reflexivity|]. handler_written Hf.
  - (* deactivate *)
    destruct (bool_decide (params_id req = user_id admin)) eqn:Hs;
      [left; eexists; reflexivity|].
    apply bool_decide_eq_false in Hs.
    destruct (isActive u) eqn:Hact; cbn [negb]; [|left; eexists; reflexivity].
    right. exists admin, u. split; [reflexivity|]. split; [reflexivity|].
    split; [cbn; auto|].
    destruct (adminLogFault env) as [m|] eqn:Hf.
    + right. exists m. split; [reflexivity|]. handler_written Hf.
    + left. eexists _, _. split; [reflexivity|]. handler_written Hf.
  - (* activate *)
    destruct (isActive u) eqn:Hact; [left; eexists; reflexivity|].
    right. exists admin, u. split; [reflexivity|]. split; [reflexivity|].
    split; [cbn; auto|].
    destruct (adminLogFault env) as [m|] eqn:Hf.
    + right. exists m. split; [reflexivity|]. handler_written Hf.
    + left. eexists _, _. split; [reflexivity|]. handler_written Hf.
Qed.

(** X21: an account handler appends to the audit log exactly when it
    succeeds, and then exactly one entry: actor the caller, action the
    handler's, entity the target account, time the time of the call.  When
    it fails, for whatever reason, the log is as it was.  Entries already
    in the log are never altered. *)
Theorem audit_entry_iff_success (a : AdminAction) env req db :
  match admin_handler a env req db with
  | (db', inr res) =>
      exists admin entry,
        req_user req = Some admin
        /\ adminLogs db' = adminLogs db ++ [entry]
        /\ adminId entry = user_id admin
        /\ actionType entry = action_type a
        /\ entityId entry = Some (params_id req)
        /\ entityType entry = Some EntityType.USER
        /\ timestamp entry = now env
  | (db', inl _) => adminLogs db' = adminLogs db
  end.
Proof.
  destruct (admin_handler_outcome a env req db)
    as [[e E]|(admin & u & Ha & Hu & _ & [(md & msg & _ & E)|(m & _ & E)])];
    rewrite E.
  - reflexivity.
  - exists admin. eexists. split; [exact Ha|]. split; [reflexivity|].
    repeat split.
  - reflexivity.
Qed.

(** X22: a request an account handler refuses with an [ApiError] (unknown
    target, nothing to change, self-demotion, self-deactivation) changes
    nothing at all, and the error is a 400 or a 404. *)
Theorem refused_account_request_changes_nothing (a : AdminAction) env req db db' e :
  admin_handler a env req db = (db', inl (ThrowApi e)) ->
  db' = db /\ (statusCode e = 400 \/ statusCode e = 404).
Proof.
  intros E.
  assert (Hdb : db' = db).
  { destruct (admin_handler_outcome a env req db)
      as [[e' E']|(admin & u & _ & _ & _ & [(md & msg & _ & E')|(m & _ & E')])];
      rewrite E' in E; congruence. }
  split; [exact Hdb|]. subst db'. revert E.
  destruct a; cbn [admin_handler];
    unfold UserController.promoteUser, UserController.demoteUser,
      UserController.deactivateUser, UserController.activateUser, currentUser;
    (destruct (req_user req) as [admin|]; [|discriminate]);
    unfold bind at 1; cbn [ret]; unfold User.findById; rewrite bind_gets;
    (destruct (users db !! params_id req) as [u|];
       cbn [fmap option_fmap option_map user_fields user_id];
       [|intros [= <-]; right; reflexivity]).
  - destruct (bool_decide _); [intros [= <-]; left; reflexivity|].
    unfold bind, User.save, modify, AdminLog.logAction, AdminLog.create.
    destruct (adminLogFault env); discriminate.
  - destruct (bool_decide _); [intros [= <-]; left; reflexivity|].
    destruct (bool_decide _); [intros [= <-]; left; reflexivity|].
    unfold bind, User.save, modify, AdminLog.logAction, AdminLog.create.
    destruct (adminLogFault env); discriminate.
  - destruct (bool_decide _); [intros [= <-]; left; reflexivity|].
    destruct (isActive u); cbn [negb]; [|intros [= <-]; left; reflexivity].
    unfold bind, User.save, modify, AdminLog.logAction, AdminLog.create.
    destruct (adminLogFault env); discriminate.
  - destruct (isActive u); [intros [= <-]; left; reflexivity|].
    unfold bind, User.save, modify, AdminLog.logAction, AdminLog.create.
    destruct (adminLogFault env); discriminate.
Qed.

(** X23: a successful account handler changes one field of one account:
    the target gets the new role (promote, demote) or the new active flag
    (deactivate, activate) and keeps its name, its email and the other of
    the two; every other account, the catalog and the ledger are as they
    were. *)
Theorem account_update_is_local (a : AdminAction) env req db db' res :
  admin_handler a env req db = (db', inr res) ->
  exists u,
    users db !! params_id req = Some u
    /\ users db' !! params_id req = Some (updated a u)
    /\ (forall id, id <> params_id req -> users db' !! id = users db !! id)
    /\ problems db' = problems db
    /\ userProgress db' = userProgress db
    /\ res_data res = UserData (mkUserDocument (params_id req) (updated a u)).
Proof.
  intros E.
  destruct (admin_handler_outcome a env req db)
    as [[e' E']|(admin & u & _ & Hu & _ & [(md & msg & _ & E')|(m & _ & E')])];
    rewrite E' in E; try discriminate.
  injection E as <- <-. exists u. split; [exact Hu|].
  cbn [users set_adminLogs saved set_users problems userProgress].
  split; [apply lookup_insert_eq|]. split; [|auto].
  intros id Hid. apply lookup_insert_ne. congruence.
Qed.

(** X24: an action followed by the action that undoes it on the same
    target (promote and demote, deactivate and activate, in either order)
    gives every account back the name, email, role and active flag it
    had, and neither adds nor removes an account; the audit log keeps
    both entries.  (The target's [updatedAt] stamp is that of the last
    save.) *)
Theorem account_action_undone (a : AdminAction) env1 env2 req1 req2 db db1 db2 r1 r2 :
  admin_handler a env1 req1 db = (db1, inr r1) ->
  admin_handler (inverse a) env2 req2 db1 = (db2, inr r2) ->
  params_id req2 = params_id req1 ->
  (forall id, account_fields <$> users db2 !! id = account_fields <$> users db !! id)
  /\ exists e1 e2,
       adminLogs db2 = adminLogs db ++ [e1; e2]
       /\ actionType e1 = action_type a
       /\ actionType e2 = action_type (inverse a).
Proof.
  intros E1 E2 Hid.
  destruct (admin_handler_outcome a env1 req1 db)
    as [[e' E']|(admin1 & u & _ & Hu & Hp1 & [(md1 & msg1 & _ & E')|(m & _ & E')])];
    rewrite E' in E1; try discriminate.
  injection E1 as <- <-.
  destruct (admin_handler_outcome (inverse a) env2 req2
              (set_adminLogs
                 (fun l => l ++ [mkAdminLog (user_id admin1) (action_type a)
                                   (Some (params_id req1)) (Some EntityType.USER)
                                   md1 (now env1)])
                 (saved (params_id req1) (updated a u) db)))
    as [[e2 F]|(admin2 & u' & _ & Hu' & Hp2 & [(md2 & msg2 & _ & F)|(m & _ & F)])];
    rewrite F in E2; try discriminate.
  injection E2 as <- <-.
  rewrite Hid in *.
  cbn [users set_adminLogs saved set_users] in Hu'.
  rewrite lookup_insert_eq in Hu'. injection Hu' as <-.
  split.
  - cbn [users set_adminLogs saved set_users].
    rewrite insert_insert_eq.
    assert (Hback : updated (inverse a) (updated a u) = u).
    { destruct u as [n e r act]. destruct a; cbn in *.
      - congruence.
      - destruct Hp1 as [-> _]. reflexivity.
      - destruct Hp1 as [_ ->]. reflexivity.
      - congruence. }
    rewrite Hback. intros id. rewrite (insert_id _ _ _ Hu). reflexivity.
  - eexists _, _. cbn [adminLogs set_adminLogs saved set_users].
    rewrite <- app_assoc. split; [reflexivity|]. split; reflexivity.
Qed.

End AccountHandlers.

(** ** Deactivation and the gate *)

Section Deactivation.

(** X25: deactivation locks the account out on its very next request,
    although its token still verifies: a route behind [authMiddleware]
    answers 401, and [optionalAuthMiddleware] treats the caller as
    anonymous.  Reactivation lets the same token in again. *)
Theorem deactivation_takes_effect_at_once
    (h : Env -> Request -> M HttpResponse)
    envA reqA db db' res env req token payload :
  bears req token ->
  jwt_verify env token = Decoded payload ->
  jwt_userId payload = params_id reqA ->
  (UserController.deactivateUser envA reqA db = (db', inr res) ->
   privateRoute h env req db'
   = (db', mkResponse 401 false
             "Your account has been deactivated. Please contact support." NoData)
   /\ optionalAuthMiddleware env req db' = (db', inr req))
  /\ (UserController.activateUser envA reqA db = (db', inr res) ->
      exists u,
        users db' !! params_id reqA = Some u
        /\ authMiddleware env req db'
           = (db', inr (set_req_user (mkUserDocument (params_id reqA) u) req))).
Proof.
  intros Hb Hv Hid.
  assert (Hgate := authMiddleware_bears env req token db' Hb).
  rewrite Hv, Hid in Hgate. split.
  - intros E.
    destruct (admin_handler_outcome Deactivate envA reqA db)
      as [[e' E']|(admin & u & _ & Hu & _ & [(md & msg & _ & E')|(m & _ & E')])];
      cbn [admin_handler] in E'; rewrite E' in E; try discriminate.
    injection E as <- <-.
    cbn [users set_adminLogs saved set_users] in Hgate.
    rewrite lookup_insert_eq in Hgate. cbn [updated isActive] in Hgate.
    split.
    + unfold privateRoute, serve. rewrite (bind_throws _ _ _ _ _ Hgate).
      reflexivity.
    + rewrite optionalAuth_run, Hgate. reflexivity.
  - intros E.
    destruct (admin_handler_outcome Activate envA reqA db)
      as [[e' E']|(admin & u & _ & Hu & _ & [(md & msg & _ & E')|(m & _ & E')])];
      cbn [admin_handler] in E'; rewrite E' in E; try discriminate.
    injection E as <- <-.
    cbn [users set_adminLogs saved set_users] in Hgate |- *.
    rewrite lookup_insert_eq in Hgate. cbn [updated isActive] in Hgate.
    eexists. split; [apply lookup_insert_eq|]. exact Hgate.
Qed.

End Deactivation.

(** ** Pagination *)

Section Pagination.
Import ApiResponse.
Local Open Scope Z_scope.

Lemma lt_true (x y : Q) : lt x y = true <-> (x < y)%Q.
Proof.
  unfold lt. rewrite Qlt_alt. destruct (x ?= y)%Q; split; congruence.
Qed.

(** The ceiling of a quotient of integers. *)
Lemma Qceiling_quotient (a b : Z) :
  0 < b ->
  (Qceiling (inject_Z a / inject_Z b) - 1) * b < a
  <= Qceiling (inject_Z a / inject_Z b) * b.
Proof.
  intros Hb.
  assert (E : Qceiling (inject_Z a / inject_Z b) = - ((- a) / b)).
  { unfold Qceiling. f_equal. rewrite Zdiv_Qdiv. apply Qfloor_comp.
    rewrite inject_Z_opp. unfold Qdiv. ring. }
  rewrite E.
  pose proof (Z.mul_div_le (- a) b Hb).
  pose proof (Z.mul_succ_div_gt (- a) b Hb).
  lia.
Qed.

(** X26: for a page size and a number of items that are whole numbers
    (below 2^53), the page size positive, and any page, whole or not: the
    pages reported are a whole number, just enough to hold the items
    (none when there are no items); [hasNextPage] says that the page lies
    before the last one, which for a whole page means exactly that items
    lie beyond it; [hasPrevPage] says that the page lies after the first;
    page, page size and number of items are echoed. *)
Theorem createPagination_pages (page : Q) (limit total : Z) :
  0 < limit < 2 ^ 53 -> 0 <= total < 2 ^ 53 ->
  let p := createPagination page (inject_Z limit) (inject_Z total) in
  exists n : Z,
    totalPages p = inject_Z n
    /\ (n - 1) * limit < total <= n * limit
    /\ (n = 0 <-> total = 0)
    /\ (hasNextPage p = true <-> (page < inject_Z n)%Q)
    /\ (forall k : Z, (page == inject_Z k)%Q ->
          (hasNextPage p = true <-> k * limit < total))
    /\ (hasPrevPage p = true <-> (1 < page)%Q)
    /\ (currentPage p, itemsPerPage p, totalItems p)
       = (page, inject_Z limit, inject_Z total).
Proof.
  intros [Hl _] [Ht _] p.
  pose proof (Qceiling_quotient total limit Hl) as Hb.
  exists (Qceiling (inject_Z total / inject_Z limit)).
  set (n := Qceiling (inject_Z total / inject_Z limit)) in *.
  assert (Hnext : hasNextPage p = true <-> (page < inject_Z n)%Q).
  { apply lt_true. }
  split; [reflexivity|]. split; [exact Hb|].
  split; [split; intros H; [rewrite H in Hb; lia|nia]|].
  split; [exact Hnext|]. split; [|split; [apply lt_true|reflexivity]].
  intros k Hk. rewrite Hnext, Hk, <- Zlt_Qlt. split; intros H; nia.
Qed.

End Pagination.

(** ** More on durations *)

Section DurationValues.
Import Duration.
Local Open Scope Z_scope.

Lemma parseInt_from_app acc s1 s2 :
  parseInt_from acc (s1 +:+ s2) = parseInt_from (parseInt_from acc s1) s2.
Proof.
  revert acc. induction s1 as [|c r IH]; intros acc; simpl; [reflexivity|apply IH].
Qed.

Lemma parseInt_from_shift acc s :
  parseInt_from acc s = acc * 10 ^ Z.of_nat (String.length s) + parseInt_from 0 s.
Proof.
  revert acc. induction s as [|c r IH]; intros acc.
  - simpl. lia.
  - cbn [parseInt_from String.length]. rewrite IH, (IH (10 * 0 + digit_value c)).
    rewrite Nat2Z.inj_succ, Z.pow_succ_r by lia. lia.
Qed.

Lemma digit_value_range c : is_digit c = true -> 0 <= digit_value c <= 9.
Proof.
  unfold is_digit, digit_value. intros H. apply andb_prop in H.
  destruct H as [H1 H2]. apply Nat.leb_le in H1, H2. lia.
Qed.

Lemma parseInt_from_nonneg acc s :
  0 <= acc -> all_digits s = true -> 0 <= parseInt_from acc s.
Proof.
  revert acc. induction s as [|c r IH]; intros acc Ha Hs; simpl in *; [exact Ha|].
  apply andb_prop in Hs. destruct Hs as [Hc Hr].
  apply IH; [|exact Hr]. pose proof (digit_value_range c Hc). lia.
Qed.

Lemma pretty_N_char_digit (d : N) :
  (d < 10)%N ->
  is_digit (pretty_N_char d) = true /\ digit_value (pretty_N_char d) = Z.of_N d.
Proof.
  intros H.
  assert (Hd : (d = 0 \/ d = 1 \/ d = 2 \/ d = 3 \/ d = 4 \/ d = 5 \/ d = 6
                \/ d = 7 \/ d = 8 \/ d = 9)%N) by lia.
  repeat (destruct Hd as [->|Hd]; [split; reflexivity|]).
  subst d. split; reflexivity.
Qed.

(** The numeral stdpp prints in front of [s] for [x]: digits only, at
    least as long as [s], and read back by [parseInt_from] as [x] shifted
    past [s]. *)
Lemma pretty_N_go_read (x : N) :
  forall s, all_digits s = true ->
    all_digits (pretty_N_go x s) = true
    /\ (String.length s <= String.length (pretty_N_go x s))%nat
    /\ parseInt_from 0 (pretty_N_go x s)
       = Z.of_N x * 10 ^ Z.of_nat (String.length s) + parseInt_from 0 s.
Proof.
  induction (N.lt_wf_0 x) as [x _ IH]. intros s Hs.
  destruct (N.eq_dec x 0%N) as [->|Hx].
  - rewrite pretty_N_go_0. split; [exact Hs|]. split; [lia|]. lia.
  - rewrite pretty_N_go_step by lia.
    assert (Hlt : (x `div` 10 < x)%N) by (apply N.div_lt; lia).
    assert (Hm : (x `mod` 10 < 10)%N) by (apply N.mod_lt; lia).
    destruct (pretty_N_char_digit _ Hm) as [Hd Hv].
    destruct (IH _ Hlt (String (pretty_N_char (x `mod` 10)) s)) as (H1 & H2 & H3).
    { cbn [all_digits]. rewrite Hd, Hs. reflexivity. }
    split; [exact H1|]. split; [cbn [String.length] in H2; lia|].
    rewrite H3. cbn [parseInt_from String.length].
    rewrite (parseInt_from_shift (10 * 0 + _)), Hv.
    rewrite Nat2Z.inj_succ, Z.pow_succ_r by lia.
    rewrite N2Z.inj_div, N2Z.inj_mod. change (Z.of_N 10) with 10.
    pose proof (Z.div_mod (Z.of_N x) 10 ltac:(lia)) as Hdm.
    nia.
Qed.

(** The decimal numeral of [n] is a nonempty string of digits that
    [parseInt] reads back as [n]. *)
Lemma parseInt_pretty (n : N) :
  pretty n <> EmptyString
  /\ all_digits (pretty n) = true
  /\ parseInt (pretty n) = Z.of_N n.
Proof.
  unfold pretty, pretty_N. destruct (decide (n = 0%N)) as [->|Hn].
  - split; [discriminate|]. split; reflexivity.
  - rewrite pretty_N_go_step by lia.
    assert (Hm : (n `mod` 10 < 10)%N) by (apply N.mod_lt; lia).
    destruct (pretty_N_char_digit _ Hm) as [Hd _].
    destruct (pretty_N_go_read (n `div` 10)
                (String (pretty_N_char (n `mod` 10)) EmptyString)) as (H1 & H2 & _).
    { cbn [all_digits]. rewrite Hd. reflexivity. }
    split.
    + intros E. rewrite E in H2. cbn in H2. lia.
    + split; [exact H1|].
      rewrite <- pretty_N_go_step by lia.
      destruct (pretty_N_go_read n EmptyString eq_refl) as (_ & _ & H3).
      unfold parseInt. rewrite H3. cbn. lia.
Qed.

Lemma zeros_read (k : nat) :
  all_digits (zeros k) = true /\ parseInt_from 0 (zeros k) = 0.
Proof.
  induction k as [|k [IH1 IH2]]; [split; reflexivity|].
  split; [exact IH1|exact IH2].
Qed.

Lemma all_digits_app s1 s2 :
  all_digits (s1 +:+ s2) = all_digits s1 && all_digits s2.
Proof.
  induction s1 as [|c r IH]; [reflexivity|].
  change (all_digits (String c r +:+ s2))
    with (is_digit c && all_digits (r +:+ s2)).
  rewrite IH, andb_assoc. reflexivity.
Qed.

(** X1: the parser reads decimal notation.  For a natural number [n]
    written in decimal (as stdpp's [pretty] prints it), with any number
    of zeros in front, and a unit, the result is [n] times the length of
    the unit in seconds.  The statement is for results below 2^53, where
    JavaScript's numbers are the integers they denote. *)
Theorem parseTimeToSeconds_decimal (k : nat) (n : N) (u : ascii) :
  is_unit u = true ->
  Z.of_N n * unit_seconds u < 2 ^ 53 ->
  parseTimeToSeconds ((zeros k +:+ pretty n) +:+ String u EmptyString)
  = Z.of_N n * unit_seconds u.
Proof.
  intros Hu _.
  destruct (parseInt_pretty n) as (Hne & Hd & Hv).
  destruct (zeros_read k) as [Hz0 Hz].
  rewrite (parseTimeToSeconds_pattern (zeros k +:+ pretty n) u).
  - f_equal. unfold parseInt. rewrite parseInt_from_app, Hz. exact Hv.
  - destruct k; [exact Hne|discriminate].
  - rewrite all_digits_app, Hz0, Hd. reflexivity.
  - exact Hu.
Qed.

(** X2: whatever the string, the number of seconds is never negative. *)
Theorem parseTimeToSeconds_nonneg (s : string) : 0 <= parseTimeToSeconds s.
Proof.
  unfold parseTimeToSeconds.
  destruct (regex_match s) as [[ds u]|] eqn:Hm; [|lia].
  apply regex_match_sound in Hm. destruct Hm as (_ & _ & Hds & _).
  pose proof (parseInt_from_nonneg 0 ds (Z.le_refl 0) Hds) as Hn.
  fold (parseInt ds) in Hn. cbv zeta.
  repeat (destruct (Ascii.eqb u _)); lia.
Qed.

End DurationValues.

(** ** Further concrete runs *)

Section FurtherRuns.
Import Sample Scenes.

Lemma carol_record_well_dated : Forall well_dated (userProgress db).
Proof.
  apply Forall_cons. split; [|apply Forall_nil_2].
  split; intros _; [discriminate|reflexivity].
Defined.

Lemma completion_dates_consistent_witness :
  Forall well_dated (userProgress db)
  /\ Forall well_dated (userProgress (after alice_calls db)).
Proof.
  split; [exact carol_record_well_dated|].
  exact (completion_dates_consistent alice_calls db carol_record_well_dated).
Defined.

Lemma alice_calls_by_alice :
  forall c, c ∈ alice_calls -> caller c <> Some carol_id.
Proof.
  intros c Hc. unfold alice_calls in Hc.
  repeat (apply elem_of_cons in Hc; destruct Hc as [->|Hc]; [discriminate|]).
  apply elem_of_nil in Hc. contradiction.
Defined.

Lemma other_accounts_untouched_witness :
  records_of carol_id (after alice_calls db) = records_of carol_id db
  /\ records_of carol_id db = [carol_record]
  /\ length (userProgress (after alice_calls db)) = 2%nat.
Proof.
  split; [|split; vm_compute; reflexivity].
  exact (other_accounts_untouched carol_id alice_calls db alice_calls_by_alice).
Defined.

Lemma updateProgress_completed_is_markComplete_witness :
  let req := carol_on_two_sum ProgressStatus.COMPLETED in
  fst (ProgressController.updateProgress env req db)
  = fst (ProgressController.markComplete env req db)
  /\ snd (ProgressController.updateProgress env req db)
     = match snd (ProgressController.markComplete env req db) with
       | inl e => inl e
       | inr res => inr (success 200 "Progress updated successfully" (res_data res))
       end.
Proof.
  exact (updateProgress_completed_is_markComplete env
           (carol_on_two_sum ProgressStatus.COMPLETED) db eq_refl).
Defined.

Lemma two_sum_usable :
  ProgressController.usable (problems db !! two_sum) = true.
Proof. vm_compute. reflexivity. Defined.

Lemma updateProgress_not_started_vs_reset_witness :
  let req := carol_on_two_sum ProgressStatus.NOT_STARTED in
  UserProgress.count_pair carol_id two_sum (userProgress db) = 0%nat
  /\ fst (ProgressController.resetProgress env req db) = db
  /\ userProgress (fst (ProgressController.updateProgress env req db))
     = userProgress db
       ++ [mkUserProgress (nextId db) carol_id two_sum ProgressStatus.NOT_STARTED None].
Proof.
  split; [reflexivity|].
  exact (proj2 (updateProgress_not_started_vs_reset env
                  (carol_on_two_sum ProgressStatus.NOT_STARTED) db
                  (mkUserDocument carol_id carol) eq_refl two_sum_usable eq_refl)
               eq_refl).
Defined.

Lemma complete_reset_complete_general_witness :
  let req := carol_on_two_sum ProgressStatus.NOT_STARTED in
  exists db1 db2 db3 d1 d2 d3,
    ProgressController.markComplete env req db
    = (db1, inr (success 200 "Problem marked as completed" (ProgressData d1)))
    /\ ProgressController.resetProgress later req db1
       = (db2, inr (success 200 "Progress reset successfully" (ProgressData d2)))
    /\ ProgressController.markComplete later req db2
       = (db3, inr (success 200 "Problem marked as completed" (ProgressData d3)))
    /\ identity d2 = identity d1 /\ identity d3 = identity d1
    /\ (userId d1, problemId d1) = (carol_id, two_sum)
    /\ (status d1, completedAt d1) = (ProgressStatus.COMPLETED, Some (now env))
    /\ (status d2, completedAt d2) = (ProgressStatus.NOT_STARTED, None)
    /\ (status d3, completedAt d3) = (ProgressStatus.COMPLETED, Some (now later))
    /\ d3 ∈ userProgress db3
    /\ length (userProgress db2) = length (userProgress db1)
    /\ length (userProgress db3) = length (userProgress db1).
Proof.
  exact (complete_reset_complete_general env later later
           (carol_on_two_sum ProgressStatus.NOT_STARTED) db
           (mkUserDocument carol_id carol) eq_refl two_sum_usable).
Defined.

Lemma carol_batch_runs :
  ProgressController.batchUpdateProgress env carol_batch db
  = (fst (ProgressController.batchUpdateProgress env carol_batch db),
     inr (success 200 "Updated progress for 1 problems" (UpdatedCount 1))).
Proof. vm_compute. reflexivity. Defined.

Lemma batchUpdateProgress_accepted_witness :
  exists user,
    req_user carol_batch = Some user
    /\ NoDup (map upd_problemId (body_updates carol_batch))
    /\ (forall u, u ∈ body_updates carol_batch ->
          ProgressController.usable (problems db !! upd_problemId u) = true)
    /\ res_data (success 200 "Updated progress for 1 problems" (UpdatedCount 1))
       = UpdatedCount (length (body_updates carol_batch))
    /\ forall u, u ∈ body_updates carol_batch ->
         exists d,
           d ∈ userProgress
                 (fst (ProgressController.batchUpdateProgress env carol_batch db))
           /\ (userId d, problemId d) = (user_id user, upd_problemId u)
           /\ status d = upd_status u
           /\ completedAt d
              = (if bool_decide (upd_status u = ProgressStatus.COMPLETED)
                 then Some (now env) else None).
Proof.
  exact (batchUpdateProgress_accepted env carol_batch db _ _ carol_batch_runs).
Defined.

Lemma completed_ids_follow_marks_witness :
  let req := carol_on_two_sum ProgressStatus.NOT_STARTED in
  let db' := fst (ProgressController.markComplete env req db) in
  exists ids,
    AuthController.getCompletedProblemIds req db' = (db', inr (ids, length ids))
    /\ two_sum ∈ ids
    /\ forall q, q <> two_sum -> (q ∈ ids <-> q ∈ completed_by carol_id db).
Proof.
  exact (proj1 (completed_ids_follow_marks env
                  (carol_on_two_sum ProgressStatus.NOT_STARTED) db
                  (mkUserDocument carol_id carol) eq_refl)
               two_sum_usable).
Defined.

End FurtherRuns.

Section FurtherAdministrationRuns.
Import Sample Scenes.

Lemma alice_demotes_herself :
  admin_handler Demote env (demote alice_id) db
  = (db, inl (ThrowApi (ApiErrors.badRequest "You cannot demote yourself"))).
Proof. vm_compute. reflexivity. Defined.

Lemma refused_account_request_changes_nothing_witness :
  admin_handler Demote env (demote alice_id) db
  = (db, inl (ThrowApi (ApiErrors.badRequest "You cannot demote yourself")))
  /\ db = db
  /\ (statusCode (ApiErrors.badRequest "You cannot demote yourself") = 400
      \/ statusCode (ApiErrors.badRequest "You cannot demote yourself") = 404).
Proof.
  split; [exact alice_demotes_herself|].
  exact (refused_account_request_changes_nothing Demote env (demote alice_id) db db
           (ApiErrors.badRequest "You cannot demote yourself") alice_demotes_herself).
Defined.

Lemma alice_promotes_carol :
  admin_handler Promote env promote_carol db
  = (db_carol_promoted,
     inr (success 200 "User promoted to admin successfully"
            (UserData (mkUserDocument carol_id (updated Promote carol))))).
Proof. vm_compute. reflexivity. Defined.

Lemma account_update_is_local_witness :
  exists u,
    users db !! params_id promote_carol = Some u
    /\ users db_carol_promoted !! params_id promote_carol = Some (updated Promote u)
    /\ (forall id, id <> params_id promote_carol ->
          users db_carol_promoted !! id = users db !! id)
    /\ problems db_carol_promoted = problems db
    /\ userProgress db_carol_promoted = userProgress db
    /\ res_data (success 200 "User promoted to admin successfully"
                   (UserData (mkUserDocument carol_id (updated Promote carol))))
       = UserData (mkUserDocument (params_id promote_carol) (updated Promote u)).
Proof.
  exact (account_update_is_local Promote env promote_carol db _ _ alice_promotes_carol).
Defined.

Lemma alice_demotes_carol_again :
  admin_handler (inverse Promote) later promote_carol db_carol_promoted
  = (fst (UserController.demoteUser later promote_carol db_carol_promoted),
     inr (success 200 "User demoted to regular user successfully"
            (UserData (mkUserDocument carol_id carol)))).
Proof. vm_compute. reflexivity. Defined.

Lemma account_action_undone_witness :
  (forall id,
     account_fields
       <$> users (fst (UserController.demoteUser later promote_carol
                         db_carol_promoted)) !! id
     = account_fields <$> users db !! id)
  /\ exists e1 e2,
       adminLogs (fst (UserController.demoteUser later promote_carol db_carol_promoted))
       = adminLogs db ++ [e1; e2]
       /\ actionType e1 = action_type Promote
       /\ actionType e2 = action_type (inverse Promote).
Proof.
  exact (account_action_undone Promote env later promote_carol promote_carol
           db _ _ _ _ alice_promotes_carol alice_demotes_carol_again eq_refl).
Defined.

Lemma dave_bears_his_token : bears (admin_request "dave.jwt") "dave.jwt".
Proof. repeat split. discriminate. Defined.

Lemma alice_deactivates_dave :
  UserController.deactivateUser env on_dave db
  = (db_dave_deactivated,
     inr (success 200 "User deactivated successfully"
            (UserData (mkUserDocument dave_id (updated Deactivate dave))))).
Proof. vm_compute. reflexivity. Defined.

Lemma deactivation_takes_effect_at_once_witness :
  privateRoute ProgressController.markComplete later (admin_request "dave.jwt")
    db_dave_deactivated
  = (db_dave_deactivated,
     mkResponse 401 false
       "Your account has been deactivated. Please contact support." NoData)
  /\ optionalAuthMiddleware later (admin_request "dave.jwt") db_dave_deactivated
     = (db_dave_deactivated, inr (admin_request "dave.jwt")).
Proof.
  exact (proj1 (deactivation_takes_effect_at_once ProgressController.markComplete
                  env on_dave db db_dave_deactivated _ later
                  (admin_request "dave.jwt") "dave.jwt"
                  (mkJwtPayload dave_id "dave@example.com" UserRole.ADMIN)
                  dave_bears_his_token eq_refl eq_refl)
               alice_deactivates_dave).
Defined.

Lemma authMiddleware_bad_header_witness :
  let req := incoming (Some "bearer dave.jwt"%string) "" two_sum
               ProgressStatus.NOT_STARTED [] in
  String.prefix "Bearer " "bearer dave.jwt" = false
  /\ authMiddleware env req db
     = (db, inl (ThrowApi (ApiErrors.unauthorized
                   "Authentication required. Please provide a valid token."))).
Proof.
  split; [reflexivity|].
  exact (proj1 (authMiddleware_bad_header env
                  (incoming (Some "bearer dave.jwt"%string) "" two_sum
                     ProgressStatus.NOT_STARTED [])
                  db "bearer dave.jwt" eq_refl) eq_refl).
Defined.

(** Page one and a half of fifteen items, ten to a page. *)
Lemma createPagination_pages_witness :
  let p := ApiResponse.createPagination (3 # 2) (inject_Z 10) (inject_Z 15) in
  0 < 10 < 2 ^ 53
  /\ 0 <= 15 < 2 ^ 53
  /\ exists n : Z,
       ApiResponse.totalPages p = inject_Z n
       /\ (n - 1) * 10 < 15 <= n * 10
       /\ (n = 0 <-> 15 = 0)
       /\ (ApiResponse.hasNextPage p = true <-> (3 # 2 < inject_Z n)%Q)
       /\ (forall k : Z, (3 # 2 == inject_Z k)%Q ->
             (ApiResponse.hasNextPage p = true <-> k * 10 < 15))
       /\ (ApiResponse.hasPrevPage p = true <-> (1 < 3 # 2)%Q)
       /\ (ApiResponse.currentPage p, ApiResponse.itemsPerPage p,
           ApiResponse.totalItems p)
          = (3 # 2, inject_Z 10, inject_Z 15)%Q.
Proof.
  intros p. split; [lia|]. split; [lia|].
  apply (createPagination_pages (3 # 2) 10 15); lia.
Defined.

Lemma parseTimeToSeconds_decimal_witness :
  Duration.is_unit "m" = true
  /\ Z.of_N 15 * Duration.unit_seconds "m" < 2 ^ 53
  /\ Duration.parseTimeToSeconds "015m" = 900.
Proof.
  split; [reflexivity|]. split; [reflexivity|].
  exact (parseTimeToSeconds_decimal 1 15 "m" eq_refl eq_refl).
Defined.

End FurtherAdministrationRuns.
